(** * Power BI restore orchestration: a shallow embedding

    The definitions below follow [restore_service.py] and the parts of
    [auth_and_api.py] that the restore phases call.  Python [str] values are
    Rocq strings (the UTF-8 bytes of the text); the dictionaries read from
    the service and from the backup are records whose fields are [option]s,
    [None] standing for a missing key (fields hold values of the type the
    REST contract gives them, never an explicit [null]); dictionaries keyed
    by names are [gmap]s; the remote service, the file system and the token
    provider are an interface whose operations thread a world state, and
    every call that leaves the process is logged in the state. *)

From Stdlib Require Import ZArith Ascii String List Lia.
From stdpp Require Import base decidable option list strings pretty gmap.

Local Open Scope string_scope.
Local Open Scope Z_scope.

(** ** Python strings *)

Module PyStr.

(** [s.replace(old, new)] for a one-character [old]. *)
Fixpoint replace (old : ascii) (new : string) (s : string) : string :=
  match s with
  | EmptyString => EmptyString
  | String c s' =>
      if Ascii.eqb c old then new +:+ replace old new s'
      else String c (replace old new s')
  end.

(** Occurrence of a character in a string. *)
Fixpoint mem (c : ascii) (s : string) : bool :=
  match s with
  | EmptyString => false
  | String c' s' => Ascii.eqb c' c || mem c s'
  end.

(** The double quote character. *)
Definition dquote : ascii := "034"%char.

(** Truthiness of a [str]: the empty string is falsy. *)
Definition truthy (s : string) : bool :=
  match s with EmptyString => false | _ => true end.

(** A byte that continues a UTF-8 sequence ([10xxxxxx]). *)
Definition continuation (c : ascii) : bool :=
  let n := nat_of_ascii c in (128 <=? n)%nat && (n <? 192)%nat.

(** [len(s)]: the number of characters of the text, which is the number of
    its bytes that do not continue a UTF-8 sequence. *)
Fixpoint len (s : string) : nat :=
  match s with
  | EmptyString => O
  | String c s' => if continuation c then len s' else S (len s')
  end.

Definition ascii_digit (c : ascii) : bool :=
  let n := nat_of_ascii c in (48 <=? n)%nat && (n <=? 57)%nat.

(** [s[0].isdigit()].  The first character of the text is an ASCII
    character exactly when the first byte is below 128; for any other
    leading character the answer comes from the Unicode tables, which are
    the parameter [unicode_digit]. *)
Definition first_isdigit (unicode_digit : string -> bool) (s : string) : bool :=
  match s with
  | EmptyString => false
  | String c _ =>
      if (nat_of_ascii c <? 128)%nat then ascii_digit c else unicode_digit s
  end.

End PyStr.

(** ** [PowerBIApiClient.import_pbix]: the name sanitisation *)

(** The characters [import_pbix] takes out of a name. *)
Definition unsafe_chars : list ascii :=
  [" "%char; "/"%char; "\"%char; PyStr.dquote; "'"%char].

(** The chain of [replace] calls of line 267. *)
Definition replaced (n : string) : string :=
  PyStr.replace "'"%char EmptyString
    (PyStr.replace PyStr.dquote EmptyString
       (PyStr.replace "\"%char "_"
          (PyStr.replace "/"%char "_"
             (PyStr.replace " "%char "_" n)))).

Section Sanitize.

Variable unicode_digit : string -> bool.

(** Lines 264-274 of [auth_and_api.py]; [report_name] is the optional
    argument and [stem] is [Path(pbix_file_path).stem]. *)
Definition sanitize_report_name (report_name : option string) (stem : string)
  : string :=
  let report_name :=
    match report_name with
    | Some n => if PyStr.truthy n then n else stem
    | None => stem
    end in
  let report_name := replaced report_name in
  let report_name :=
    if PyStr.truthy report_name then report_name else "ImportedReport" in
  if PyStr.first_isdigit unicode_digit report_name
  then "Report_" +:+ report_name
  else report_name.

End Sanitize.

(** ** Duplicate names *)

(** [f"{report_name}_{counter}"] *)
Definition suffixed (report_name : string) (counter : nat) : string :=
  report_name +:+ "_" +:+ pretty counter.

(** [name in existing_datasets] on a Python list of names. *)
Definition name_in (n : string) (existing : list string) : bool :=
  bool_decide (n ∈ existing).

(** The loop [while f"{report_name}_{counter}" in existing_datasets:
    counter += 1] of [restore_reports_pbix], run for at most [fuel] tests;
    the value is the counter at loop exit. *)
Fixpoint first_free (fuel : nat) (report_name : string)
    (existing : list string) (counter : nat) : nat :=
  match fuel with
  | O => counter
  | S fuel' =>
      if name_in (suffixed report_name counter) existing
      then first_free fuel' report_name existing (S counter)
      else counter
  end.

(** Lines 88-96 of [restore_service.py]: the resolved name, and whether a
    duplicate was handled.  The list has fewer entries than the tests
    allowed, so the loop always exits by its condition
    ([first_free_exits] below). *)
Definition resolve_final_name (report_name : string) (existing : list string)
  : string * bool :=
  if name_in report_name existing then
    let counter := first_free (S (length existing)) report_name existing 1 in
    (suffixed report_name counter, true)
  else (report_name, false).

(** The loop of [import_pbix] (lines 305-310 of [auth_and_api.py]):
    [while dataset_display_name in dataset_names: counter += 1;
    dataset_display_name = f"{original_name}_{counter}"], run for at most
    [fuel] tests; the value is the display name at loop exit. *)
Fixpoint first_unused (fuel : nat) (original_name : string)
    (dataset_names : list string) (counter : nat)
    (dataset_display_name : string) : string :=
  match fuel with
  | O => dataset_display_name
  | S fuel' =>
      if name_in dataset_display_name dataset_names
      then first_unused fuel' original_name dataset_names (S counter)
             (suffixed original_name (S counter))
      else dataset_display_name
  end.

Definition display_name_for (stem : string) (dataset_names : list string)
  : string :=
  first_unused (S (length dataset_names)) stem dataset_names 1 stem.

(** ** Exceptions, results and the state monad of the services *)

Inductive exn : Type :=
| TypeError (msg : string)
| AttributeError (msg : string)
| UnboundLocalError (msg : string)
| KeyError (msg : string)
| OSError (msg : string)
| Exception (msg : string).

(** [str(e)] *)
Definition str_exn (e : exn) : string :=
  match e with
  | TypeError m | AttributeError m | UnboundLocalError m
  | KeyError m | OSError m | Exception m => m
  end.

Inductive res (A : Type) : Type :=
| Ok (a : A)
| Raise (e : exn).
Arguments Ok {A} a.
Arguments Raise {A} e.

(** A computation over a state [S] that returns or raises; what it did to
    the state before raising stays done, as mutation does in Python. *)
Definition M (S A : Type) : Type := S -> res A * S.

Section MonadOps.
Context {S : Type}.

Definition ret {A} (a : A) : M S A := fun s => (Ok a, s).

Definition bind {A B} (m : M S A) (k : A -> M S B) : M S B :=
  fun s => match m s with
           | (Ok a, s') => k a s'
           | (Raise e, s') => (Raise e, s')
           end.

Definition raise {A} (e : exn) : M S A := fun s => (Raise e, s).

(** [try: m  except Exception as e: h e] *)
Definition try_except {A} (m : M S A) (h : exn -> M S A) : M S A :=
  fun s => match m s with
           | (Ok a, s') => (Ok a, s')
           | (Raise e, s') => h e s'
           end.

(** [res] values produced by a pure step that may raise. *)
Definition lift_res {A} (r : res A) : M S A := fun s => (r, s).

(** [for x in l: body x] *)
Fixpoint for_each {A} (l : list A) (body : A -> M S unit) : M S unit :=
  match l with
  | [] => ret tt
  | x :: l' => bind (body x) (fun _ => for_each l' body)
  end.
End MonadOps.

Declare Scope py_scope.
Delimit Scope py_scope with py.
Notation "x <- m ;; k" := (bind m (fun x => k))
  (at level 100, m at next level, right associativity) : py_scope.
Notation "m ;; k" := (bind m (fun _ => k))
  (at level 100, right associativity) : py_scope.
Local Open Scope py_scope.

(** ** Data *)

(** A [pathlib.Path] of a package file with the attributes the code reads:
    [str(p)], [p.name] and [p.stem]. *)
Record path : Type := Path {
  path_str : string;
  path_name : string;
  path_stem : string
}.

(** An entry of the ['value'] list of a dataset listing; a missing key is
    [None]. *)
Record dataset : Type := Dataset {
  d_name : option string;
  d_id : option string
}.

(** The ['schedule'] object of a backed-up refresh schedule entry. *)
Record schedule_config : Type := ScheduleConfig {
  c_frequency : option string;
  c_times : option (list string);
  c_days : option (list string);
  c_enabled : option bool;
  c_localTimeZoneId : option string;
  c_notifyOption : option string
}.

(** The empty dictionary [{}]. *)
Definition empty_config : schedule_config :=
  ScheduleConfig None None None None None None.

Record schedule_entry : Type := ScheduleEntry {
  e_dataset_name : option string;
  e_schedule : option schedule_config
}.

(** The dictionary handed to [update_refresh_schedule] and the body of the
    PATCH request have the same five keys. *)
Record api_schedule : Type := ApiSchedule {
  a_days : list string;
  a_times : list string;
  a_enabled : bool;
  a_localTimeZoneId : string;
  a_notifyOption : string
}.

(** [d.get(key, default)] on an optional field. *)
Definition get_or {A} (field : option A) (dflt : A) : A :=
  match field with Some v => v | None => dflt end.

(** Truthiness of a value that is [None] or a [str]. *)
Definition truthy_opt (v : option string) : bool :=
  match v with Some s => PyStr.truthy s | None => false end.

(** ** The collaborators: remote service, file system, token provider *)

Inductive event : Type :=
| CallToken
| CallListDatasets (workspace_id : string)
| CallImport (workspace_id dataset_display_name : string)
| CallPatchSchedule (workspace_id dataset_id : string) (payload : api_schedule).

Class World (W : Type) : Type := {
  (** [str(datetime.now().isoformat())] *)
  clock_now : W -> string;
  (** [os.path.exists] *)
  os_path_exists : string -> W -> bool;
  (** [sorted(list(Path(p).glob("*.pbix")))] *)
  glob_pbix : string -> W -> list path;
  (** [p.stat().st_size] *)
  stat_size : path -> W -> res Z;
  (** [open(p, 'rb').read()] *)
  read_file : string -> W -> res string;
  (** [auth_service.get_access_token()] *)
  access_token : W -> res string * W;
  (** [_fetch_with_auth("/groups/{id}/datasets")], then [.get('value', [])] *)
  fetch_datasets : string -> W -> res (list dataset) * W;
  (** POST [/groups/{id}/imports?datasetDisplayName=...]: the status *)
  post_import : string -> string -> string -> W -> res Z * W;
  (** PATCH [/groups/{id}/datasets/{id}/refreshSchedule]: the status *)
  patch_schedule : string -> string -> api_schedule -> W -> res Z * W
}.

(** The state of a run: the world and the log of calls that left the
    process. *)
Record st (W : Type) : Type := St {
  world : W;
  calls : list event
}.
Arguments St {W} world calls.
Arguments world {W} s.
Arguments calls {W} s.

Section ApiClient.
Context {W : Type} `{World W}.

Definition remote {A} (ev : event) (op : W -> res A * W) : M (st W) A :=
  fun s => let '(r, w') := op (world s) in (r, St w' (calls s ++ [ev])).

Definition local {A} (op : W -> A) : M (st W) A :=
  fun s => (Ok (op (world s)), s).

Definition get_access_token : M (st W) string :=
  remote CallToken access_token.

(** [PowerBIApiClient.get_datasets], already projected on ['value']. *)
Definition get_datasets (workspace_id : string) : M (st W) (list dataset) :=
  remote (CallListDatasets workspace_id) (fetch_datasets workspace_id).

(** [response.status in [200, 201, 202]] *)
Definition accepted (status : Z) : bool :=
  (status =? 200) || (status =? 201) || (status =? 202).

Definition is_empty {A} (l : list A) : bool :=
  match l with [] => true | _ => false end.

(** [PowerBIApiClient.update_refresh_schedule] *)
Definition update_refresh_schedule (workspace_id dataset_id : string)
    (schedule_config : api_schedule) : M (st W) bool :=
  try_except
    (let days := a_days schedule_config in
     let times := a_times schedule_config in
     let enabled := a_enabled schedule_config in
     let timezone := a_localTimeZoneId schedule_config in
     let notify := a_notifyOption schedule_config in
     if negb enabled then ret true
     else if is_empty days && is_empty times then ret true
     else if is_empty days || is_empty times then ret true
     else
       let payload := ApiSchedule days times true timezone notify in
       token <- get_access_token ;;
       status <- remote (CallPatchSchedule workspace_id dataset_id payload)
                   (patch_schedule workspace_id dataset_id payload) ;;
       if accepted status then ret true else ret false)
    (fun _ => ret false).

(** [[d['name'] for d in ...]]: a missing key raises. *)
Fixpoint names_strict (l : list dataset) : res (list string) :=
  match l with
  | [] => Ok []
  | d :: l' =>
      match d_name d with
      | None => Raise (KeyError "'name'")
      | Some n =>
          match names_strict l' with
          | Ok ns => Ok (n :: ns)
          | Raise e => Raise e
          end
      end
  end.

Variable unicode_digit : string -> bool.

(** [PowerBIApiClient.import_pbix].  The sanitised [report_name] is only
    written to the log; the display name sent to the service is the file
    stem, made unique against the current listing. *)
Definition import_pbix (workspace_id : string) (pbix_file_path : path)
    (report_name : option string) : M (st W) bool :=
  try_except
    (pexists <- local (os_path_exists (path_str pbix_file_path)) ;;
     if negb pexists then ret false
     else
       let report_name :=
         sanitize_report_name unicode_digit report_name
           (path_stem pbix_file_path) in
       token <- get_access_token ;;
       if negb (PyStr.truthy token) || (PyStr.len token <? 100)%nat
       then ret false
       else
         r <- local (read_file (path_str pbix_file_path)) ;;
         pbix_data <- lift_res r ;;
         let filename_only := path_stem pbix_file_path in
         dataset_display_name <-
           try_except
             (existing_datasets <- get_datasets workspace_id ;;
              dataset_names <- lift_res (names_strict existing_datasets) ;;
              ret (display_name_for filename_only dataset_names))
             (fun _ => ret filename_only) ;;
         status <- remote (CallImport workspace_id dataset_display_name)
                     (post_import workspace_id dataset_display_name
                        pbix_data) ;;
         if accepted status then ret true else ret false)
    (fun _ => ret false).

End ApiClient.

(** A phase keeps its local variables next to the state of the run. *)
Section Locals.
Context {S L : Type}.

(** Run a computation of the client on the first component. *)
Definition api {A} (m : M S A) : M (S * L) A :=
  fun sl => let '(r, s') := m (fst sl) in (r, (s', snd sl)).

Definition load {A} (f : L -> A) : M (S * L) A :=
  fun sl => (Ok (f (snd sl)), sl).

Definition store (f : L -> L) : M (S * L) unit :=
  fun sl => (Ok tt, (fst sl, f (snd sl))).
End Locals.

(** ** [ReportsRestoreService] *)

Module Reports.

(** The dictionaries appended to [results["details"]]. *)
Inductive detail : Type :=
| Imported (file dataset_name original_name new_dataset_id : string)
    (st_size : Z)
    (** the record stores the size in MB computed from [st_size] *)
| Failed (file dataset_name : string)
| Error (file error : string).

Definition detail_status (d : detail) : string :=
  match d with
  | Imported _ _ _ _ _ => "imported"
  | Failed _ _ => "failed"
  | Error _ _ => "error"
  end.


Record results : Type := Results {
  status : string;
  imported : nat;
  failed : nat;
  duplicate_handled : nat;
  details : list detail;
  pbix_files_found : nat;
  target_workspace_id : string;
  dataset_id_mapping : gmap string string;
  error : option string;
  message : option string
}.

Definition initial (target_workspace_id : string) : results :=
  Results "in_progress" 0 0 0 [] 0 target_workspace_id ∅ None None.

Definition set_status (v : string) (r : results) : results :=
  Results v (imported r) (failed r) (duplicate_handled r) (details r)
    (pbix_files_found r) (target_workspace_id r) (dataset_id_mapping r)
    (error r) (message r).
Definition incr_imported (r : results) : results :=
  Results (status r) (S (imported r)) (failed r) (duplicate_handled r)
    (details r) (pbix_files_found r) (target_workspace_id r)
    (dataset_id_mapping r) (error r) (message r).
Definition incr_failed (r : results) : results :=
  Results (status r) (imported r) (S (failed r)) (duplicate_handled r)
    (details r) (pbix_files_found r) (target_workspace_id r)
    (dataset_id_mapping r) (error r) (message r).
Definition incr_duplicate_handled (r : results) : results :=
  Results (status r) (imported r) (failed r) (S (duplicate_handled r))
    (details r) (pbix_files_found r) (target_workspace_id r)
    (dataset_id_mapping r) (error r) (message r).
Definition append_detail (d : detail) (r : results) : results :=
  Results (status r) (imported r) (failed r) (duplicate_handled r)
    (details r ++ [d]) (pbix_files_found r) (target_workspace_id r)
    (dataset_id_mapping r) (error r) (message r).
Definition set_pbix_files_found (n : nat) (r : results) : results :=
  Results (status r) (imported r) (failed r) (duplicate_handled r)
    (details r) n (target_workspace_id r) (dataset_id_mapping r)
    (error r) (message r).
Definition set_mapping (k v : string) (r : results) : results :=
  Results (status r) (imported r) (failed r) (duplicate_handled r)
    (details r) (pbix_files_found r) (target_workspace_id r)
    (<[k := v]> (dataset_id_mapping r)) (error r) (message r).
Definition set_error (v : string) (r : results) : results :=
  Results (status r) (imported r) (failed r) (duplicate_handled r)
    (details r) (pbix_files_found r) (target_workspace_id r)
    (dataset_id_mapping r) (Some v) (message r).
Definition set_message (v : string) (r : results) : results :=
  Results (status r) (imported r) (failed r) (duplicate_handled r)
    (details r) (pbix_files_found r) (target_workspace_id r)
    (dataset_id_mapping r) (error r) (Some v).

(** The number of records with a given status. *)
Definition count_status (status : string) (ds : list detail) : nat :=
  length (List.filter (fun d => String.eqb (detail_status d) status) ds).

(** The local variables of [restore_reports_pbix] that live across
    statements.  [new_dataset_id] is unbound ([None]) until its first
    assignment. *)
Record locals : Type := Locals {
  res_ : results;
  existing_datasets : list string;
  new_dataset_id : option (option string)
}.

Definition on_results (f : results -> results) (l : locals) : locals :=
  Locals (f (res_ l)) (existing_datasets l) (new_dataset_id l).
Definition set_existing (v : list string) (l : locals) : locals :=
  Locals (res_ l) v (new_dataset_id l).
Definition set_new_dataset_id (v : option string) (l : locals) : locals :=
  Locals (res_ l) (existing_datasets l) (Some v).

(** The [for dataset in ...: if dataset.get('name') == final: ...; break]
    search: the id of the first entry with that name. *)
Definition find_id (final_dataset_name : string) (l : list dataset)
  : option string :=
  match List.find (fun d => bool_decide (d_name d = Some final_dataset_name)) l with
  | Some d => d_id d
  | None => None
  end.

Section Service.
Context {W : Type} `{World W}.
Variable unicode_digit : string -> bool.

Abbreviation P := (M (st W * locals)).

(** Reading the local variable [new_dataset_id]. *)
Definition read_new_dataset_id : P (option string) :=
  v <- load new_dataset_id ;;
  match v with
  | Some x => ret x
  | None =>
      raise (UnboundLocalError
               "cannot access local variable 'new_dataset_id' where it is not associated with a value")
  end.

(** The [try] block of the body of [for pbix_file in pbix_files]
    (lines 84-148). *)
Definition import_body (workspace_id : string) (pbix_file : path)
  : P unit :=
  let report_name := path_stem pbix_file in
  existing <- load existing_datasets ;;
  let '(final_dataset_name, dup) :=
    resolve_final_name report_name existing in
  (if dup then store (on_results incr_duplicate_handled)
   else ret tt) ;;
  import_result <-
    api (import_pbix unicode_digit workspace_id pbix_file
           (Some final_dataset_name)) ;;
  if import_result then
    try_except
      (datasets_response <- api (get_datasets workspace_id) ;;
       store (set_new_dataset_id None) ;;
       store (set_new_dataset_id
                (find_id final_dataset_name datasets_response)) ;;
       found <- read_new_dataset_id ;;
       match found with
       | Some id =>
           if PyStr.truthy id
           then store (on_results (set_mapping report_name id))
           else ret tt
       | None => ret tt
       end)
      (fun _ => ret tt) ;;
    store (on_results incr_imported) ;;
    found <- read_new_dataset_id ;;
    size <- api (local (stat_size pbix_file)) ;;
    st_size <- lift_res size ;;
    store (on_results
             (append_detail
                (Imported (path_name pbix_file) final_dataset_name
                   report_name
                   (if truthy_opt found then get_or found "pending"
                    else "pending")
                   st_size))) ;;
    existing' <- load existing_datasets ;;
    store (set_existing (existing' ++ [final_dataset_name]))
  else
    store (on_results incr_failed) ;;
    store (on_results
             (append_detail
                (Failed (path_name pbix_file) final_dataset_name))).

(** The [except Exception as e] block of the body (lines 150-157). *)
Definition import_failed (pbix_file : path) (e : exn) : P unit :=
  store (on_results incr_failed) ;;
  store (on_results
           (append_detail (Error (path_name pbix_file) (str_exn e)))).

(** The body of [for pbix_file in pbix_files] (lines 83-157). *)
Definition import_one (workspace_id : string) (pbix_file : path)
  : P unit :=
  try_except (import_body workspace_id pbix_file) (import_failed pbix_file).

(** [restore_reports_pbix] *)
Definition restore_reports_pbix (workspace_id pbix_files_path : string)
  : M (st W) results :=
  fun s0 =>
    let run : P results :=
      try_except
        (dir_ok <- api (local (os_path_exists pbix_files_path)) ;;
         if negb dir_ok then
           store (on_results (set_status "failed")) ;;
           store (on_results
                    (set_error ("Directory not found: " +:+ pbix_files_path))) ;;
           load res_
         else
           pbix_files <- api (local (glob_pbix pbix_files_path)) ;;
           store (on_results (set_pbix_files_found (length pbix_files))) ;;
           if (length pbix_files =? 0)%nat then
             store (on_results (set_status "completed")) ;;
             store (on_results (set_message "No PBIX files to restore")) ;;
             load res_
           else
             try_except
               (datasets_response <- api (get_datasets workspace_id) ;;
                store (set_existing
                         (map (fun d => get_or (d_name d) EmptyString)
                            datasets_response)))
               (fun _ => ret tt) ;;
             for_each pbix_files (import_one workspace_id) ;;
             store (on_results (set_status "completed")) ;;
             n <- load (fun l => imported (res_ l)) ;;
             store (on_results
                      (set_message
                         ("Imported " +:+ pretty n +:+ "/" +:+
                          pretty (length pbix_files) +:+ " PBIX files"))) ;;
             load res_)
        (fun e =>
           store (on_results (set_status "failed")) ;;
           store (on_results (set_error (str_exn e))) ;;
           load res_) in
    let '(r, sl) := run (s0, Locals (initial workspace_id) [] None) in
    (r, fst sl).

(** [restore_reports], the legacy method: the number of metadata
    entries. *)
Definition restore_reports {R : Type} (workspace_id : string)
    (reports : list R) : M (st W) Z :=
  try_except
    (let restored_count := Z.of_nat (length reports) in
     ret restored_count)
    (fun e => raise e).

End Service.
End Reports.

(** ** [RefreshSchedulesRestoreService] *)

Module Schedules.

(** The dictionaries appended to [results["details"]]. *)
Inductive detail : Type :=
| Skipped (dataset : option string)
| Configured (dataset : option string) (dataset_id frequency : string)
    (times days : list string)
| FailedApi (dataset : option string) (dataset_id frequency : string)
    (times days : list string)
| FailedExn (dataset error : string).

Definition detail_status (d : detail) : string :=
  match d with
  | Skipped _ => "skipped"
  | Configured _ _ _ _ _ => "configured"
  | FailedApi _ _ _ _ _ | FailedExn _ _ => "failed"
  end.

Record results : Type := Results {
  status : string;
  restored : nat;
  failed : nat;
  skipped : nat;
  details : list detail
}.

Definition initial : results := Results "completed" 0 0 0 [].

Definition incr_restored (r : results) : results :=
  Results (status r) (S (restored r)) (failed r) (skipped r) (details r).
Definition incr_failed (r : results) : results :=
  Results (status r) (restored r) (S (failed r)) (skipped r) (details r).
Definition incr_skipped (r : results) : results :=
  Results (status r) (restored r) (failed r) (S (skipped r)) (details r).
Definition append_detail (d : detail) (r : results) : results :=
  Results (status r) (restored r) (failed r) (skipped r) (details r ++ [d]).

(** [{d.get('name'): d.get('id') for d in ...}]: a later entry with the
    same name replaces an earlier one. *)
Definition datasets_dict (l : list dataset)
  : gmap (option string) (option string) :=
  fold_left (fun m d => <[d_name d := d_id d]> m) l ∅.

(** A [Dict[str, str]] read as a name-lookup table. *)
Definition as_lookup (m : gmap string string)
  : gmap (option string) (option string) :=
  kmap Some (Some <$> m).

(** [dataset_mapping or {}] *)
Definition mapping_or_empty (dataset_mapping : option (gmap string string))
  : gmap string string :=
  match dataset_mapping with
  | Some m => if bool_decide (m = ∅) then ∅ else m
  | None => ∅
  end.

(** [dataset_mapping and dataset_name in dataset_mapping] *)
Definition in_mapping (dataset_mapping : option (gmap string string))
    (dataset_name : option string) : bool :=
  match dataset_mapping, dataset_name with
  | Some m, Some n => negb (bool_decide (m = ∅)) && bool_decide (is_Some (m !! n))
  | _, _ => false
  end.

(** Lines 530-535: the value of [dataset_id] after the lookup. *)
Definition find_dataset_id (dataset_mapping : option (gmap string string))
    (datasets : gmap (option string) (option string))
    (dataset_name : option string) : option string :=
  if in_mapping dataset_mapping dataset_name then
    match dataset_mapping, dataset_name with
    | Some m, Some n => m !! n
    | _, _ => None
    end
  else
    match datasets !! dataset_name with
    | Some v => v
    | None => None
    end.

(** The resolution rule in the words of the specification: prefer the
    entry of the identifier mapping for the name; otherwise take the id the
    live dataset list gives for it (the last entry of that name; [None] for
    an entry without id).  [find_dataset_id_precedence] compares it with
    [find_dataset_id]. *)
Definition mapping_entry (dataset_mapping : option (gmap string string))
    (dataset_name : option string) : option string :=
  match dataset_mapping, dataset_name with
  | Some m, Some n => m !! n
  | _, _ => None
  end.

Definition live_entry (live : list dataset) (dataset_name : option string)
  : option string :=
  match last (List.filter (fun d => bool_decide (d_name d = dataset_name)) live) with
  | Some d => d_id d
  | None => None
  end.

Definition resolve_by_precedence
    (dataset_mapping : option (gmap string string)) (live : list dataset)
    (dataset_name : option string) : option string :=
  match mapping_entry dataset_mapping dataset_name with
  | Some id => Some id
  | None => live_entry live dataset_name
  end.

Section Service.
Context {W : Type} `{World W}.

Abbreviation P := (M (st W * results)).

(** The body of [for schedule_entry in schedules] (lines 524-602). *)
Definition restore_one (workspace_id : string)
    (dataset_mapping : option (gmap string string))
    (datasets : gmap (option string) (option string))
    (schedule_entry : schedule_entry) : P unit :=
  try_except
    (let dataset_name := e_dataset_name schedule_entry in
     let schedule_config := get_or (e_schedule schedule_entry) empty_config in
     let dataset_id := find_dataset_id dataset_mapping datasets dataset_name in
     if negb (truthy_opt dataset_id) then
       store incr_skipped ;;
       store (append_detail (Skipped dataset_name))
     else
       let dataset_id := get_or dataset_id EmptyString in
       let frequency := get_or (c_frequency schedule_config) "unknown" in
       let times := get_or (c_times schedule_config) [] in
       let days := get_or (c_days schedule_config) [] in
       let api_schedule_config :=
         ApiSchedule days times
           (get_or (c_enabled schedule_config) false)
           (get_or (c_localTimeZoneId schedule_config) "UTC")
           (get_or (c_notifyOption schedule_config) "MailOnFailure") in
       update_success <-
         api (update_refresh_schedule workspace_id dataset_id
                api_schedule_config) ;;
       if update_success then
         store incr_restored ;;
         store (append_detail
                  (Configured dataset_name dataset_id frequency times days))
       else
         store incr_failed ;;
         store (append_detail
                  (FailedApi dataset_name dataset_id frequency times days)))
    (fun e =>
       store incr_failed ;;
       store (append_detail
                (FailedExn (get_or (e_dataset_name schedule_entry) "unknown")
                   (str_exn e)))).

(** Lines 514-521: the name-lookup table bound to [datasets]. *)
Definition target_datasets (workspace_id : string)
    (dataset_mapping : option (gmap string string))
  : P (gmap (option string) (option string)) :=
  try_except
    (datasets_response <- api (get_datasets workspace_id) ;;
     ret (datasets_dict datasets_response))
    (fun _ => ret (as_lookup (mapping_or_empty dataset_mapping))).

(** [restore_refresh_schedules] *)
Definition restore_refresh_schedules (workspace_id : string)
    (schedules : list schedule_entry)
    (dataset_mapping : option (gmap string string)) : M (st W) results :=
  fun s0 =>
    let run : P results :=
      try_except
        (datasets <- target_datasets workspace_id dataset_mapping ;;
         for_each schedules
           (restore_one workspace_id dataset_mapping datasets) ;;
         load id)
        (fun e => raise e) in
    let '(r, sl) := run (s0, initial) in
    (r, fst sl).

(** *** The phase read entry by entry

    The definitions below give the record that one entry produces and the
    counter it bumps; [restore_one_record] and [restore_refresh_schedules_eq]
    prove that the code above computes exactly that. *)

(** [update_refresh_schedule] as a function of the state; it never
    raises ([update_refresh_schedule_total]). *)
Definition run_update (workspace_id dataset_id : string)
    (cfg : api_schedule) (s : st W) : bool * st W :=
  match update_refresh_schedule workspace_id dataset_id cfg s with
  | (Ok b, s') => (b, s')
  | (Raise _, s') => (false, s')
  end.

Definition api_config_of (schedule_entry : schedule_entry) : api_schedule :=
  let schedule_config := get_or (e_schedule schedule_entry) empty_config in
  ApiSchedule (get_or (c_days schedule_config) [])
    (get_or (c_times schedule_config) [])
    (get_or (c_enabled schedule_config) false)
    (get_or (c_localTimeZoneId schedule_config) "UTC")
    (get_or (c_notifyOption schedule_config) "MailOnFailure").

(** The record appended for an entry whose dataset id was found. *)
Definition found_record (schedule_entry : schedule_entry)
    (dataset_id : string) (update_success : bool) : detail :=
  let schedule_config := get_or (e_schedule schedule_entry) empty_config in
  (if update_success then Configured else FailedApi)
    (e_dataset_name schedule_entry) dataset_id
    (get_or (c_frequency schedule_config) "unknown")
    (get_or (c_times schedule_config) [])
    (get_or (c_days schedule_config) []).

Definition outcome (workspace_id : string)
    (dataset_mapping : option (gmap string string))
    (datasets : gmap (option string) (option string))
    (schedule_entry : schedule_entry) (s : st W) : detail * st W :=
  let dataset_id :=
    find_dataset_id dataset_mapping datasets (e_dataset_name schedule_entry) in
  if negb (truthy_opt dataset_id) then
    (Skipped (e_dataset_name schedule_entry), s)
  else
    let '(b, s') :=
      run_update workspace_id (get_or dataset_id EmptyString)
        (api_config_of schedule_entry) s in
    (found_record schedule_entry (get_or dataset_id EmptyString) b, s').

Fixpoint outcomes (workspace_id : string)
    (dataset_mapping : option (gmap string string))
    (datasets : gmap (option string) (option string))
    (l : list schedule_entry) (s : st W) : list detail * st W :=
  match l with
  | [] => ([], s)
  | e :: l' =>
      let '(d, s1) := outcome workspace_id dataset_mapping datasets e s in
      let '(ds, s2) :=
        outcomes workspace_id dataset_mapping datasets l' s1 in
      (d :: ds, s2)
  end.

(** The counter bumped with a record. *)
Definition record (d : detail) (r : results) : results :=
  append_detail d
    (match d with
     | Skipped _ => incr_skipped r
     | Configured _ _ _ _ _ => incr_restored r
     | FailedApi _ _ _ _ _ | FailedExn _ _ => incr_failed r
     end).

(** The name-lookup table the phase uses when started in state [s]. *)
Definition table_at (workspace_id : string)
    (dataset_mapping : option (gmap string string)) (s : st W)
  : gmap (option string) (option string) :=
  match fetch_datasets workspace_id (world s) with
  | (Ok l, _) => datasets_dict l
  | (Raise _, _) => as_lookup (mapping_or_empty dataset_mapping)
  end.

(** The state in which the loop over the entries starts. *)
Definition after_listing (workspace_id : string) (s : st W) : st W :=
  St (snd (fetch_datasets workspace_id (world s)))
    (calls s ++ [CallListDatasets workspace_id]).

(** A schedule the client pushes to the service: enabled, with days and
    times. *)
Definition actionable (cfg : api_schedule) : bool :=
  a_enabled cfg && negb (is_empty (a_days cfg)) && negb (is_empty (a_times cfg)).

(** The number of records with a given status. *)
Definition count_status (status : string) (ds : list detail) : nat :=
  length (List.filter (fun d => String.eqb (detail_status d) status) ds).

(** The record an entry must get, given the lookup table: ["skipped"] when
    no dataset id is found; otherwise the record of the client's answer
    [b], which is success whenever the schedule is not actionable. *)
Definition record_of_entry (dataset_mapping : option (gmap string string))
    (datasets : gmap (option string) (option string))
    (schedule_entry : schedule_entry) (d : detail) : Prop :=
  let dataset_id :=
    find_dataset_id dataset_mapping datasets (e_dataset_name schedule_entry) in
  if truthy_opt dataset_id then
    exists b : bool,
      d = found_record schedule_entry (get_or dataset_id EmptyString) b /\
      (b = true \/ actionable (api_config_of schedule_entry) = true)
  else d = Skipped (e_dataset_name schedule_entry).

(** A target whose answers do not depend on what earlier calls of the
    phase did to it: [same] relates the worlds that are the same target. *)
Record stable_target (same : W -> W -> Prop) : Prop := StableTarget {
  same_equiv : Equivalence same;
  fetch_answer : forall ws w1 w2, same w1 w2 ->
    fst (fetch_datasets ws w1) = fst (fetch_datasets ws w2);
  fetch_keeps : forall ws w, same w (snd (fetch_datasets ws w));
  token_answer : forall w1 w2, same w1 w2 ->
    fst (access_token w1) = fst (access_token w2);
  token_keeps : forall w, same w (snd (access_token w));
  patch_answer : forall ws id p w1 w2, same w1 w2 ->
    fst (patch_schedule ws id p w1) = fst (patch_schedule ws id p w2);
  patch_keeps : forall ws id p w, same w (snd (patch_schedule ws id p w))
}.

End Service.
End Schedules.

(** ** [CompletePowerBIRestoreService] *)

Module Complete.

(** [os.path.join(a, b)] for a relative, non-empty [b] (POSIX). *)
Fixpoint ends_with_slash (s : string) : bool :=
  match s with
  | EmptyString => false
  | String c EmptyString => Ascii.eqb c "/"%char
  | String _ s' => ends_with_slash s'
  end.

Definition os_path_join (a b : string) : string :=
  if negb (PyStr.truthy a) || ends_with_slash a then a +:+ b
  else a +:+ "/" +:+ b.

(** A call [obj.method(args...)] of a method declared with two parameters
    after [self]: Python binds the positional arguments before the body
    runs and raises [TypeError] when their number does not fit. *)
Definition call_method2 {T A : Type} (qualname : string)
    (method : string -> string -> M T A) (args : list string) : M T A :=
  match args with
  | [a; b] => method a b
  | _ =>
      if (length args <? 2)%nat then
        raise (TypeError (qualname +:+ "() missing " +:+
                          pretty (2 - length args)%nat +:+
                          " required positional argument(s)"))
      else
        raise (TypeError (qualname +:+
                          "() takes 3 positional arguments but " +:+
                          pretty (S (length args)) +:+ " were given"))
  end.

Section Service.
Context {W : Type} `{World W}.
Variable unicode_digit : string -> bool.

(** Backup items of the kinds the orchestrator only hands over ([Item]) and
    the result dictionaries of the documentation-only phases ([Doc]). *)
Context {Item Doc : Type}.

(** [restore_pbix_files] *)
Definition restore_pbix_files (backup_folder target_workspace_id : string)
  : M (st W) Reports.results :=
  try_except
    (let pbix_path := os_path_join backup_folder "pbix_files" in
     result <-
       call_method2 "ReportsRestoreService.restore_reports_pbix"
         (Reports.restore_reports_pbix unicode_digit)
         [target_workspace_id; pbix_path; target_workspace_id] ;;
     ret result)
    (fun e => raise e).

(** The backup dictionary; a missing key is [None]. *)
Record backup_data : Type := BackupData {
  reports : option (list Item);
  datasets : option (list Item);
  refresh_schedules : option (list schedule_entry);
  dashboards : option (list Item);
  dataflows : option (list Item);
  apps : option (list Item)
}.

(** What a reports service may hand back: the legacy method returns an
    [int], [restore_reports_pbix] a dictionary. *)
Inductive reports_value : Type :=
| Count (n : Z)
| Dict (r : Reports.results).

(** [reports_result.get('dataset_id_mapping', {})] *)
Definition get_dataset_id_mapping (reports_result : reports_value)
  : res (gmap string string) :=
  match reports_result with
  | Count _ => Raise (AttributeError "'int' object has no attribute 'get'")
  | Dict r => Ok (Reports.dataset_id_mapping r)
  end.

(** The phase services held by the orchestrator. *)
Record services : Type := Services {
  reports_service :
    string -> list Item -> M (st W) reports_value;
  datasets_service :
    string -> list Item -> M (st W) Doc;
  refresh_schedules_service :
    string -> list schedule_entry -> option (gmap string string) ->
    M (st W) Schedules.results;
  dashboards_service :
    string -> list Item -> M (st W) Doc;
  dataflows_service :
    string -> list Item -> M (st W) Doc;
  apps_service :
    string -> list Item -> M (st W) Doc
}.

(** The values stored under [restored_items["components"]]: the result of
    a phase, or the dictionary [{"status": "failed", "error": error}] that
    the [except] block of a phase stores ([PhaseFailed]). *)
Inductive component : Type :=
| OfReports (v : reports_value)
| OfSchedules (r : Schedules.results)
| OfDoc (d : Doc)
| PhaseFailed (error : string).

Record restored_items : Type := RestoredItems {
  status : string;
  workspace_id : string;
  timestamp : string;
  components : gmap string component;
  summary : nat * nat * nat
}.

Record locals : Type := Locals {
  items : restored_items;
  dataset_id_mapping : gmap string string
}.

Definition set_component (k : string) (c : component) (l : locals) : locals :=
  Locals
    (RestoredItems (status (items l)) (workspace_id (items l))
       (timestamp (items l)) (<[k := c]> (components (items l)))
       (summary (items l)))
    (dataset_id_mapping l).
Definition set_status (v : string) (l : locals) : locals :=
  Locals
    (RestoredItems v (workspace_id (items l)) (timestamp (items l))
       (components (items l)) (summary (items l)))
    (dataset_id_mapping l).
Definition set_dataset_id_mapping (m : gmap string string) (l : locals)
  : locals :=
  Locals (items l) m.

Abbreviation P := (M (st W * locals)).

Variable svc : services.

(** Phase 1 (lines 710-727) *)
Definition phase_reports (ws : string) (bd : backup_data) : P unit :=
  try_except
    (reports_result <- api (reports_service svc ws (get_or (reports bd) [])) ;;
     store (set_component "reports" (OfReports reports_result)) ;;
     m <- lift_res (get_dataset_id_mapping reports_result) ;;
     store (set_dataset_id_mapping m))
    (fun e => store (set_component "reports" (PhaseFailed (str_exn e)))).

(** Phase 2 (lines 732-740) *)
Definition phase_datasets (ws : string) (bd : backup_data) : P unit :=
  try_except
    (datasets_result <-
       api (datasets_service svc ws (get_or (datasets bd) [])) ;;
     store (set_component "datasets" (OfDoc datasets_result)))
    (fun e => store (set_component "datasets" (PhaseFailed (str_exn e)))).

(** Phase 3 (lines 745-755) *)
Definition phase_refresh_schedules (ws : string) (bd : backup_data)
  : P unit :=
  try_except
    (mapping <- load dataset_id_mapping ;;
     refresh_result <-
       api (refresh_schedules_service svc ws
              (get_or (refresh_schedules bd) []) (Some mapping)) ;;
     store (set_component "refresh_schedules" (OfSchedules refresh_result)))
    (fun e =>
       store (set_component "refresh_schedules" (PhaseFailed (str_exn e)))).

(** Phase 4 (lines 760-768) *)
Definition phase_dashboards (ws : string) (bd : backup_data) : P unit :=
  try_except
    (dashboards_result <-
       api (dashboards_service svc ws (get_or (dashboards bd) [])) ;;
     store (set_component "dashboards" (OfDoc dashboards_result)))
    (fun e => store (set_component "dashboards" (PhaseFailed (str_exn e)))).

(** Phase 5 (lines 773-781) *)
Definition phase_dataflows (ws : string) (bd : backup_data) : P unit :=
  try_except
    (dataflows_result <-
       api (dataflows_service svc ws (get_or (dataflows bd) [])) ;;
     store (set_component "dataflows" (OfDoc dataflows_result)))
    (fun e => store (set_component "dataflows" (PhaseFailed (str_exn e)))).

(** Phase 6 (lines 786-794) *)
Definition phase_apps (ws : string) (bd : backup_data) : P unit :=
  try_except
    (apps_result <- api (apps_service svc ws (get_or (apps bd) [])) ;;
     store (set_component "apps" (OfDoc apps_result)))
    (fun e => store (set_component "apps" (PhaseFailed (str_exn e)))).

(** The component a phase leaves in the report, from what its service
    did: the result when it returned, the failure dictionary when it raised;
    for the reports phase also when reading the mapping raised. *)
Definition doc_component (r : res Doc) : component :=
  match r with
  | Ok d => OfDoc d
  | Raise e => PhaseFailed (str_exn e)
  end.

Definition schedules_component (r : res Schedules.results) : component :=
  match r with
  | Ok d => OfSchedules d
  | Raise e => PhaseFailed (str_exn e)
  end.

Definition reports_component (r : res reports_value) : component :=
  match r with
  | Ok v =>
      match get_dataset_id_mapping v with
      | Ok _ => OfReports v
      | Raise e => PhaseFailed (str_exn e)
      end
  | Raise e => PhaseFailed (str_exn e)
  end.

(** The mapping held by [dataset_id_mapping] after phase 1. *)
Definition captured_mapping (r : res reports_value) : gmap string string :=
  match r with
  | Ok v =>
      match get_dataset_id_mapping v with
      | Ok m => m
      | Raise _ => ∅
      end
  | Raise _ => ∅
  end.

(** [restore_all_components] *)
Definition restore_all_components (ws : string) (bd : backup_data)
  : M (st W) restored_items :=
  fun s0 =>
    let run : P restored_items :=
      try_except
        (phase_reports ws bd ;;
         phase_datasets ws bd ;;
         phase_refresh_schedules ws bd ;;
         phase_dashboards ws bd ;;
         phase_dataflows ws bd ;;
         phase_apps ws bd ;;
         store (set_status "completed") ;;
         load items)
        (fun e => raise e) in
    let now := clock_now (world s0) in
    let '(r, sl) :=
      run (s0, Locals (RestoredItems "in_progress" ws now ∅ (0, 0, 0)%nat) ∅) in
    (r, fst sl).

End Service.

Arguments backup_data : clear implicits.
Arguments component : clear implicits.
Arguments restored_items : clear implicits.
Arguments locals : clear implicits.
Arguments services : clear implicits.

(** The services as [__init__] wires them: the reports entry is the legacy
    [restore_reports], the refresh-schedules entry is
    [restore_refresh_schedules]. *)
Definition wired {W : Type} `{World W} {Item Doc : Type}
    (restore_datasets restore_dashboards restore_dataflows restore_apps :
       string -> list Item -> M (st W) Doc)
  : services W Item Doc :=
  Services
    (fun ws l => n <- Reports.restore_reports ws l ;; ret (Count n))
    restore_datasets
    Schedules.restore_refresh_schedules
    restore_dashboards
    restore_dataflows
    restore_apps.

End Complete.

(** ** A simulated workspace

    A small deterministic world for running the services: a directory of
    package files, a target workspace whose import creates a dataset named
    by the display name, and a schedule store written by PATCH. *)

Module Sim.

Record file : Type := File {
  f_dir : string;
  f_path : path;
  f_size : option Z  (** [None]: [stat] raises *)
}.

Record world : Type := World_ {
  now : string;
  files : list file;
  target : list dataset;
  listing_fails : bool;
  token : string;
  import_status : Z;
  patch_status : Z;
  stored : list (string * api_schedule)
}.

Definition pbix (dir stem : string) : path :=
  Path (dir +:+ "/" +:+ stem +:+ ".pbix") (stem +:+ ".pbix") stem.

Definition has_path (p : string) (w : world) : bool :=
  existsb (fun f => String.eqb (path_str (f_path f)) p || String.eqb (f_dir f) p)
    (files w).

Definition sim_stat (p : path) (w : world) : res Z :=
  match List.find (fun f => String.eqb (path_str (f_path f)) (path_str p)) (files w) with
  | Some f =>
      match f_size f with
      | Some n => Ok n
      | None => Raise (OSError "[Errno 2] No such file or directory")
      end
  | None => Raise (OSError "[Errno 2] No such file or directory")
  end.

Definition sim_fetch (ws : string) (w : world) : res (list dataset) * world :=
  if listing_fails w
  then (Raise (Exception "Error fetching datasets: 500"), w)
  else (Ok (target w), w).

Definition sim_import (ws display data : string) (w : world)
  : res Z * world :=
  if ((import_status w =? 200) || (import_status w =? 201) ||
      (import_status w =? 202))%Z
  then (Ok (import_status w),
        World_ (now w) (files w)
          (target w ++ [Dataset (Some display) (Some ("id-" +:+ display))])
          (listing_fails w) (token w) (import_status w) (patch_status w)
          (stored w))
  else (Ok (import_status w), w).

Definition sim_patch (ws id : string) (payload : api_schedule) (w : world)
  : res Z * world :=
  (Ok (patch_status w),
   World_ (now w) (files w) (target w) (listing_fails w) (token w)
     (import_status w) (patch_status w) (stored w ++ [(id, payload)])).

#[global] Instance sim_world : World world := {|
  clock_now := now;
  os_path_exists := has_path;
  glob_pbix := fun dir w =>
    map f_path (filter (fun f => String.eqb (f_dir f) dir) (files w));
  stat_size := sim_stat;
  read_file := fun p w => Ok "PBIX";
  access_token := fun w => (Ok (token w), w);
  fetch_datasets := sim_fetch;
  post_import := sim_import;
  patch_schedule := sim_patch
|}.

(** A token of one hundred characters. *)
Definition long_token : string :=
  "0123456789012345678901234567890123456789012345678901234567890123456789012345678901234567890123456789".

Definition no_unicode_digit (s : string) : bool := false.

(** Two worlds are the same target when they differ at most in the
    schedules stored by PATCH, which no answer depends on. *)
Definition forget_stored (w : world) : world :=
  World_ (now w) (files w) (target w) (listing_fails w) (token w)
    (import_status w) (patch_status w) [].

Definition same_target (w1 w2 : world) : Prop :=
  forget_stored w1 = forget_stored w2.

End Sim.


(** ** Example inputs *)

Module Ex.

(** A target workspace that already holds ["A"] and ["A_2"], and a backup
    directory with the package [A.pbix]. *)
Definition w_dup : Sim.world :=
  Sim.World_ "2024-01-01T00:00:00"
    [Sim.File "backup/reports" (Sim.pbix "backup/reports" "A") (Some 2048)]
    [Dataset (Some "A") (Some "id-1"); Dataset (Some "A_2") (Some "id-2")]
    false Sim.long_token 202 200 [].

(** An empty target workspace and a backup directory with three packages;
    [stat] fails on the second one. *)
Definition w_three : Sim.world :=
  Sim.World_ "2024-01-01T00:00:00"
    [Sim.File "backup/reports" (Sim.pbix "backup/reports" "A") (Some 1024);
     Sim.File "backup/reports" (Sim.pbix "backup/reports" "B") None;
     Sim.File "backup/reports" (Sim.pbix "backup/reports" "C") (Some 4096)]
    [] false Sim.long_token 202 200 [].

(** A target workspace with the single dataset ["X"]. *)
Definition w_x : Sim.world :=
  Sim.World_ "2024-01-01T00:00:00" []
    [Dataset (Some "X") (Some "id-x")]
    false Sim.long_token 202 200 [].

(** The same target when its listing call fails. *)
Definition w_x_down : Sim.world :=
  Sim.World_ "2024-01-01T00:00:00" []
    [Dataset (Some "X") (Some "id-x")]
    true Sim.long_token 202 200 [].

(** Enabled, with a time but no day. *)
Definition inconsistent : schedule_config :=
  ScheduleConfig None (Some ["01:00"]) (Some []) (Some true) None None.

(** Enabled, with a day and a time. *)
Definition weekly : schedule_config :=
  ScheduleConfig (Some "weekly") (Some ["01:00"]) (Some ["Monday"]) (Some true)
    None None.

Definition entry_x : schedule_entry :=
  ScheduleEntry (Some "X") (Some inconsistent).

Definition entry_x_weekly : schedule_entry :=
  ScheduleEntry (Some "X") (Some weekly).

(** An entry for a dataset the target does not hold. *)
Definition entry_y : schedule_entry :=
  ScheduleEntry (Some "Y") (Some weekly).

End Ex.

(** * Further code of the services

    The rest of this part embeds more of the repository for the properties
    proved at the end of the file: predicates on the call log, the
    documentation-only restore phases, the selective restore of the web
    endpoint, and the token cache of the authentication service.  It ends
    with the definitions that state the phases in the words of the
    specification: the sanitisation character by character, the reports
    loop item by item, and the decision rule of the refresh schedules. *)

(** ** Predicates on the call log *)

Definition is_import (ev : event) : bool :=
  match ev with CallImport _ _ => true | _ => false end.

Definition is_patch (ev : event) : bool :=
  match ev with CallPatchSchedule _ _ _ => true | _ => false end.

(** The calls the reports phase may issue against workspace [ws]. *)
Definition reports_call (ws : string) (ev : event) : Prop :=
  match ev with
  | CallToken => True
  | CallListDatasets w => w = ws
  | CallImport w _ => w = ws
  | CallPatchSchedule _ _ _ => False
  end.

(** The calls the refresh-schedules loop may issue against workspace [ws]:
    token requests, and schedule updates whose body is enabled and has days
    and times. *)
Definition schedules_call (ws : string) (ev : event) : Prop :=
  match ev with
  | CallToken => True
  | CallPatchSchedule w _ p =>
      w = ws /\ a_enabled p = true /\ a_days p <> [] /\ a_times p <> []
  | _ => False
  end.

(** The body [update_refresh_schedule] sends for a configuration. *)
Definition payload_of (cfg : api_schedule) : api_schedule :=
  ApiSchedule (a_days cfg) (a_times cfg) true (a_localTimeZoneId cfg)
    (a_notifyOption cfg).

(** ** State access for computations that keep one dictionary *)

Definition read_state {S : Type} : M S S := fun s => (Ok s, s).
Definition modify_state {S : Type} (f : S -> S) : M S unit :=
  fun s => (Ok tt, f s).

(** ** The documentation-only restore phases

    [DatasetsRestoreService], [DataflowsRestoreService],
    [DashboardsRestoreService] and [AppsRestoreService] of
    [restore_service.py].  They send nothing; their loops run over the
    result dictionary alone. *)

(** [len(x)] of an optional list that defaults to [[]]. *)
Definition len_or_empty {A} (l : option (list A)) : nat :=
  length (get_or l []).

(** Truthiness of a value that is missing or a list. *)
Definition truthy_list {A} (l : option (list A)) : bool :=
  negb (is_empty (get_or l [])).

Module Datasets.

(** A dataset entry of the backup; parameters and gateway connections are
    kept as their serialised items. *)
Record item : Type := Item {
  name : option string;
  id : option string;
  parameters : option (list string);
  gateway_connections : option (list string)
}.

Inductive detail : Type :=
| Documented (dataset kind : string) (count : nat)
| Failed (dataset error : string).

Definition detail_status (d : detail) : string :=
  match d with
  | Documented _ _ _ => "documented"
  | Failed _ _ => "failed"
  end.

Record results : Type := Results {
  status : string;
  restored : nat;
  failed : nat;
  details : list detail
}.

Definition incr_restored (r : results) : results :=
  Results (status r) (S (restored r)) (failed r) (details r).
Definition incr_failed (r : results) : results :=
  Results (status r) (restored r) (S (failed r)) (details r).
Definition append_detail (d : detail) (r : results) : results :=
  Results (status r) (restored r) (failed r) (details r ++ [d]).

(** The body of [for dataset in datasets] (lines 225-265). *)
Definition restore_one (dataset : item) : M results unit :=
  try_except
    (let dataset_name := get_or (name dataset) "unknown" in
     let dataset_id := id dataset in
     if negb (truthy_opt dataset_id) then ret tt
     else
       (if truthy_list (parameters dataset) then
          modify_state
            (append_detail
               (Documented dataset_name "parameters"
                  (len_or_empty (parameters dataset))))
        else ret tt) ;;
       (if truthy_list (gateway_connections dataset) then
          modify_state
            (append_detail
               (Documented dataset_name "gateway_connections"
                  (len_or_empty (gateway_connections dataset))))
        else ret tt) ;;
       modify_state incr_restored)
    (fun e =>
       modify_state incr_failed ;;
       modify_state
         (append_detail (Failed (get_or (name dataset) "unknown") (str_exn e)))).

(** [restore_datasets] *)
Definition restore_datasets {W : Type} (workspace_id : string)
    (datasets : list item) : M (st W) results :=
  fun s =>
    let run : M results results :=
      try_except
        (for_each datasets restore_one ;; read_state)
        (fun e => raise e) in
    (fst (run (Results "completed" 0 0 [])), s).

(** The number of records a dataset with an id contributes. *)
Definition documented_kinds (dataset : item) : nat :=
  ((if truthy_list (parameters dataset) then 1 else 0)
   + (if truthy_list (gateway_connections dataset) then 1 else 0))%nat.

Definition has_id (dataset : item) : bool := truthy_opt (id dataset).

End Datasets.

Module Dataflows.

Record config : Type := Config {
  source : option string;
  entities : option (list string);
  refresh_frequency : option string
}.

Definition empty_config : config := Config None None None.

Record item : Type := Item {
  name : option string;
  id : option string;
  cfg : option config
}.

Inductive detail : Type :=
| Manual (name : string) (id : option string) (source : string)
    (entities : nat) (refresh_frequency : string)
| Error (name error : string).

Definition detail_status (d : detail) : string :=
  match d with
  | Manual _ _ _ _ _ => "requires_manual_recreation"
  | Error _ _ => "error"
  end.

Definition detail_name (d : detail) : string :=
  match d with
  | Manual n _ _ _ _ | Error n _ => n
  end.

Record results : Type := Results {
  status : string;
  restorable : nat;
  manual_recreation_required : nat;
  details : list detail
}.

Definition incr_manual (r : results) : results :=
  Results (status r) (restorable r) (S (manual_recreation_required r))
    (details r).
Definition append_detail (d : detail) (r : results) : results :=
  Results (status r) (restorable r) (manual_recreation_required r)
    (details r ++ [d]).

(** The body of [for dataflow in dataflows] (lines 306-330). *)
Definition restore_one (dataflow : item) : M results unit :=
  try_except
    (let dataflow_name := get_or (name dataflow) "unknown" in
     let dataflow_id := id dataflow in
     let config := get_or (cfg dataflow) empty_config in
     modify_state
       (append_detail
          (Manual dataflow_name dataflow_id
             (get_or (source config) "unknown")
             (len_or_empty (entities config))
             (get_or (refresh_frequency config) "manual"))) ;;
     modify_state incr_manual)
    (fun e =>
       modify_state
         (append_detail (Error (get_or (name dataflow) "unknown") (str_exn e)))).

(** [restore_dataflows] *)
Definition restore_dataflows {W : Type} (workspace_id : string)
    (dataflows : list item) : M (st W) results :=
  fun s =>
    let run : M results results :=
      try_except
        (for_each dataflows restore_one ;; read_state)
        (fun e => raise e) in
    (fst (run (Results "documented" 0 0 [])), s).

End Dataflows.

Module Dashboards.

Record tile : Type := Tile {
  title : option string;
  kind : option string;
  dataset_name : option string;
  query : option string
}.

(** The dictionary built for a tile. *)
Record tile_detail : Type := TileDetail {
  t_title : string;
  t_type : string;
  t_dataset_reference : option string;
  t_query : string
}.

Record item : Type := Item {
  name : option string;
  id : option string;
  tiles : option (list tile)
}.

Inductive detail : Type :=
| Manual (name : string) (id : option string) (tiles_count : nat)
    (tiles : list tile_detail)
| Error (name error : string).

Definition detail_status (d : detail) : string :=
  match d with
  | Manual _ _ _ _ => "requires_manual_recreation"
  | Error _ _ => "error"
  end.

Definition detail_tiles_count (d : detail) : nat :=
  match d with
  | Manual _ _ n _ => n
  | Error _ _ => 0
  end.

Definition detail_tiles (d : detail) : list tile_detail :=
  match d with
  | Manual _ _ _ ts => ts
  | Error _ _ => []
  end.

Record results : Type := Results {
  status : string;
  total_dashboards : nat;
  total_tiles : nat;
  details : list detail
}.

Definition add_tiles (n : nat) (r : results) : results :=
  Results (status r) (total_dashboards r) (total_tiles r + n) (details r).
Definition append_detail (d : detail) (r : results) : results :=
  Results (status r) (total_dashboards r) (total_tiles r) (details r ++ [d]).

(** [for tile in tiles: tile_details.append({...})] *)
Fixpoint document_tiles (ts : list tile) (tile_details : list tile_detail)
  : list tile_detail :=
  match ts with
  | [] => tile_details
  | t :: ts' =>
      document_tiles ts'
        (tile_details ++
         [TileDetail (get_or (title t) "Untitled") (get_or (kind t) "unknown")
            (dataset_name t) (get_or (query t) "N/A")])
  end.

(** The body of [for dashboard in dashboards] (lines 371-405). *)
Definition restore_one (dashboard : item) : M results unit :=
  try_except
    (let dashboard_name := get_or (name dashboard) "unknown" in
     let dashboard_id := id dashboard in
     let tiles := get_or (tiles dashboard) [] in
     let tile_details := document_tiles tiles [] in
     modify_state (add_tiles (length tiles)) ;;
     modify_state
       (append_detail
          (Manual dashboard_name dashboard_id (length tiles) tile_details)))
    (fun e =>
       modify_state
         (append_detail (Error (get_or (name dashboard) "unknown") (str_exn e)))).

(** [restore_dashboards] *)
Definition restore_dashboards {W : Type} (workspace_id : string)
    (dashboards : list item) : M (st W) results :=
  fun s =>
    let run : M results results :=
      try_except
        (for_each dashboards restore_one ;; read_state)
        (fun e => raise e) in
    (fst (run (Results "documented" (length dashboards) 0 [])), s).

End Dashboards.

Module Apps.

(** A report or dashboard listed under an app. *)
Record member : Type := Member { member_name : option string }.

Record item : Type := Item {
  name : option string;
  id : option string;
  reports : option (list member);
  dashboards : option (list member)
}.

Inductive detail : Type :=
| Manual (name : string) (id : option string) (reports dashboards : nat)
    (report_list dashboard_list : list (option string))
| Error (name error : string).

Definition detail_status (d : detail) : string :=
  match d with
  | Manual _ _ _ _ _ _ => "requires_manual_recreation"
  | Error _ _ => "error"
  end.

Record results : Type := Results {
  status : string;
  total_apps : nat;
  details : list detail
}.

Definition append_detail (d : detail) (r : results) : results :=
  Results (status r) (total_apps r) (details r ++ [d]).

(** The body of [for app in apps] (lines 445-470). *)
Definition restore_one (app : item) : M results unit :=
  try_except
    (let app_name := get_or (name app) "unknown" in
     let app_id := id app in
     let reports := get_or (reports app) [] in
     let dashboards := get_or (dashboards app) [] in
     modify_state
       (append_detail
          (Manual app_name app_id (length reports) (length dashboards)
             (map member_name reports) (map member_name dashboards))))
    (fun e =>
       modify_state
         (append_detail (Error (get_or (name app) "unknown") (str_exn e)))).

(** [restore_apps] *)
Definition restore_apps {W : Type} (workspace_id : string)
    (apps : list item) : M (st W) results :=
  fun s =>
    let run : M results results :=
      try_except
        (for_each apps restore_one ;; read_state)
        (fun e => raise e) in
    (fst (run (Results "documented" (length apps) [])), s).

End Apps.

(** The records [Datasets.restore_one] appends for a dataset that has an
    id, used to state what the loop computes. *)
Definition datasets_records (dataset : Datasets.item) : list Datasets.detail :=
  (if truthy_list (Datasets.parameters dataset) then
     [Datasets.Documented (get_or (Datasets.name dataset) "unknown")
        "parameters" (len_or_empty (Datasets.parameters dataset))]
   else []) ++
  (if truthy_list (Datasets.gateway_connections dataset) then
     [Datasets.Documented (get_or (Datasets.name dataset) "unknown")
        "gateway_connections"
        (len_or_empty (Datasets.gateway_connections dataset))]
   else []).

(** [sum(...)] over a list of numbers. *)
Definition sum_nat (l : list nat) : nat := fold_right Nat.add 0%nat l.

(** ** The selective restore of the web endpoint

    [restore_components] of [main.py] (lines 449-720): the background task
    [run_unified_restore] with the values it closes over as arguments. *)

Module Selective.

(** The query flags of the endpoint. *)
Record flags : Type := Flags {
  restore_reports : bool;
  restore_datasets : bool;
  restore_refresh_schedules : bool;
  restore_dashboards : bool;
  restore_dataflows : bool;
  restore_apps : bool
}.

(** [selected_components] (lines 494-506) *)
Definition selected_components (f : flags) : list string :=
  ((if restore_reports f then ["Reports (PBIX)"] else []) ++
   (if restore_datasets f then ["Datasets"] else []) ++
   (if restore_refresh_schedules f then ["Refresh Schedules"] else []) ++
   (if restore_dashboards f then ["Dashboards"] else []) ++
   (if restore_dataflows f then ["Dataflows"] else []) ++
   (if restore_apps f then ["Apps"] else []))%list.

(** The backup dictionary as the phases read it; a missing key is
    [None]. *)
Record backup : Type := Backup {
  datasets : option (list Datasets.item);
  refresh_schedules : option (list schedule_entry);
  dashboards : option (list Dashboards.item);
  dataflows : option (list Dataflows.item);
  apps : option (list Apps.item)
}.

(** [json.load(open(backup_file))] *)
Class BackupFiles (W : Type) : Type := {
  load_json : string -> W -> res backup
}.

(** The values stored under [restoration_results["components"]]. *)
Inductive component : Type :=
| OfReports (r : Reports.results)
| ReportsSkipped
    (** [{"status": "skipped", "reason": "Reports directory not found"}] *)
| OfDatasets (r : Datasets.results)
| OfSchedules (r : Schedules.results)
| OfDashboards (r : Dashboards.results)
| OfDataflows (r : Dataflows.results)
| OfApps (r : Apps.results)
| PhaseFailed (error : string)
    (** [{"status": "failed", "error": error}] *).

Record restoration_results : Type := RestorationResults {
  job_id : string;
  workspace_id : string;
  backup_id : string;
  components : gmap string component;
  total_components : nat;
  successful : nat;
  failed : nat;
  status : option string;
  timestamp : option string
}.

(** An entry of the registry [backup_jobs] written by the task. *)
Inductive job : Type :=
| Finished (r : restoration_results)
| JobFailed (error timestamp : string).

Record locals : Type := Locals {
  results : restoration_results;
  dataset_id_mapping : gmap string string
}.

Definition on_results (g : restoration_results -> restoration_results)
    (l : locals) : locals :=
  Locals (g (results l)) (dataset_id_mapping l).
Definition set_component (k : string) (c : component)
    (r : restoration_results) : restoration_results :=
  RestorationResults (job_id r) (workspace_id r) (backup_id r)
    (<[k := c]> (components r)) (total_components r) (successful r)
    (failed r) (status r) (timestamp r).
Definition incr_successful (r : restoration_results) : restoration_results :=
  RestorationResults (job_id r) (workspace_id r) (backup_id r) (components r)
    (total_components r) (S (successful r)) (failed r) (status r)
    (timestamp r).
Definition incr_failed (r : restoration_results) : restoration_results :=
  RestorationResults (job_id r) (workspace_id r) (backup_id r) (components r)
    (total_components r) (successful r) (S (failed r)) (status r)
    (timestamp r).
Definition set_status (v : string) (r : restoration_results)
  : restoration_results :=
  RestorationResults (job_id r) (workspace_id r) (backup_id r) (components r)
    (total_components r) (successful r) (failed r) (Some v) (timestamp r).
Definition set_timestamp (v : string) (r : restoration_results)
  : restoration_results :=
  RestorationResults (job_id r) (workspace_id r) (backup_id r) (components r)
    (total_components r) (successful r) (failed r) (status r) (Some v).
Definition set_mapping (m : gmap string string) (l : locals) : locals :=
  Locals (results l) m.

Section Task.
Context {W : Type} `{World W} `{BackupFiles W}.

(** The phase services of [restore_service]. *)
Record services : Type := Services {
  reports_service :
    string -> string -> M (st W) Reports.results;
  datasets_service :
    string -> list Datasets.item -> M (st W) Datasets.results;
  refresh_schedules_service :
    string -> list schedule_entry -> option (gmap string string) ->
    M (st W) Schedules.results;
  dashboards_service :
    string -> list Dashboards.item -> M (st W) Dashboards.results;
  dataflows_service :
    string -> list Dataflows.item -> M (st W) Dataflows.results;
  apps_service :
    string -> list Apps.item -> M (st W) Apps.results
}.

Variable svc : services.
Variable f : flags.
Variables restore_job_id ws bid backup_folder backup_file : string.

Abbreviation P := (M (st W * locals)).

(** [except Exception as e] of a phase (for instance lines 568-574). *)
Definition phase_failed (key : string) (e : exn) : P unit :=
  store (on_results (set_component key (PhaseFailed (str_exn e)))) ;;
  store (on_results incr_failed).

(** Phase 1 (lines 544-574) *)
Definition phase_reports : P unit :=
  if restore_reports f then
    try_except
      (let reports_path := Complete.os_path_join backup_folder "reports" in
       present <- api (local (os_path_exists reports_path)) ;;
       if present then
         reports_result <- api (reports_service svc ws reports_path) ;;
         store (on_results (set_component "reports" (OfReports reports_result))) ;;
         store (set_mapping (Reports.dataset_id_mapping reports_result)) ;;
         store (on_results incr_successful)
       else
         store (on_results (set_component "reports" ReportsSkipped)))
      (phase_failed "reports")
  else ret tt.

(** Phase 2 (lines 577-592) *)
Definition phase_datasets (backup_data : backup) : P unit :=
  if restore_datasets f then
    try_except
      (datasets_result <-
         api (datasets_service svc ws (get_or (datasets backup_data) [])) ;;
       store (on_results (set_component "datasets" (OfDatasets datasets_result))) ;;
       store (on_results incr_successful))
      (phase_failed "datasets")
  else ret tt.

(** Phase 3 (lines 595-611) *)
Definition phase_refresh_schedules (backup_data : backup) : P unit :=
  if restore_refresh_schedules f then
    try_except
      (mapping <- load dataset_id_mapping ;;
       schedules_result <-
         api (refresh_schedules_service svc ws
                (get_or (refresh_schedules backup_data) []) (Some mapping)) ;;
       store (on_results
                (set_component "refresh_schedules" (OfSchedules schedules_result))) ;;
       store (on_results incr_successful))
      (phase_failed "refresh_schedules")
  else ret tt.

(** Phase 4 (lines 614-629) *)
Definition phase_dashboards (backup_data : backup) : P unit :=
  if restore_dashboards f then
    try_except
      (dashboards_result <-
         api (dashboards_service svc ws (get_or (dashboards backup_data) [])) ;;
       store (on_results
                (set_component "dashboards" (OfDashboards dashboards_result))) ;;
       store (on_results incr_successful))
      (phase_failed "dashboards")
  else ret tt.

(** Phase 5 (lines 632-647) *)
Definition phase_dataflows (backup_data : backup) : P unit :=
  if restore_dataflows f then
    try_except
      (dataflows_result <-
         api (dataflows_service svc ws (get_or (dataflows backup_data) [])) ;;
       store (on_results
                (set_component "dataflows" (OfDataflows dataflows_result))) ;;
       store (on_results incr_successful))
      (phase_failed "dataflows")
  else ret tt.

(** Phase 6 (lines 650-665) *)
Definition phase_apps (backup_data : backup) : P unit :=
  if restore_apps f then
    try_except
      (apps_result <-
         api (apps_service svc ws (get_or (apps backup_data) [])) ;;
       store (on_results (set_component "apps" (OfApps apps_result))) ;;
       store (on_results incr_successful))
      (phase_failed "apps")
  else ret tt.

(** The [try] block of [run_unified_restore] up to the registry write:
    the finished [restoration_results]. *)
Definition unified_body : P restoration_results :=
  loaded <- api (local (load_json backup_file)) ;;
  backup_data <- lift_res loaded ;;
  store (fun _ =>
           Locals
             (RestorationResults restore_job_id ws bid ∅
                (length (selected_components f)) 0 0 None None)
             ∅) ;;
  phase_reports ;;
  phase_datasets backup_data ;;
  phase_refresh_schedules backup_data ;;
  phase_dashboards backup_data ;;
  phase_dataflows backup_data ;;
  phase_apps backup_data ;;
  store (on_results (set_status "completed")) ;;
  now <- api (local clock_now) ;;
  store (on_results (set_timestamp now)) ;;
  load results.

(** [run_unified_restore]: the registry [backup_jobs] is the second
    component of the state. *)
Definition run_unified_restore : M (st W * gmap string job) unit :=
  fun sj =>
    let unset :=
      Locals (RestorationResults EmptyString EmptyString EmptyString ∅ 0 0 0
                None None) ∅ in
    match unified_body (fst sj, unset) with
    | (Ok restoration_results, sl) =>
        (Ok tt, (fst sl, <[restore_job_id := Finished restoration_results]> (snd sj)))
    | (Raise e, sl) =>
        (Ok tt,
         (fst sl,
          <[restore_job_id := JobFailed (str_exn e) (clock_now (world (fst sl)))]>
            (snd sj)))
    end.

End Task.

Arguments services : clear implicits.

(** The services the endpoint uses. *)
Definition wired {W : Type} `{World W} (unicode_digit : string -> bool)
  : services W :=
  Services
    (Reports.restore_reports_pbix unicode_digit)
    Datasets.restore_datasets
    Schedules.restore_refresh_schedules
    Dashboards.restore_dashboards
    Dataflows.restore_dataflows
    Apps.restore_apps.

End Selective.

(** *** What a phase of the selective restore leaves in the report *)

(** The component of a phase whose service returned or raised. *)
Definition outcome_component {R : Type} (wrap : R -> Selective.component)
    (r : res R) : Selective.component :=
  match r with
  | Ok d => wrap d
  | Raise e => Selective.PhaseFailed (str_exn e)
  end.

Definition returned {R : Type} (r : res R) : bool :=
  match r with Ok _ => true | Raise _ => false end.

Definition bool_count (b : bool) : nat := if b then 1%nat else 0%nat.

(** The report after a selected phase: its component, and one more
    success or failure. *)
Definition settle {R : Type} (selected : bool) (key : string)
    (wrap : R -> Selective.component) (r : res R)
    (rr : Selective.restoration_results) : Selective.restoration_results :=
  if selected then
    (if returned r then Selective.incr_successful else Selective.incr_failed)
      (Selective.set_component key (outcome_component wrap r) rr)
  else rr.

(** The report after the reports phase, which may also find no directory. *)
Definition settle_reports (selected present : bool) (r : res Reports.results)
    (rr : Selective.restoration_results) : Selective.restoration_results :=
  if selected then
    if present then settle true "reports" Selective.OfReports r rr
    else Selective.set_component "reports" Selective.ReportsSkipped rr
  else rr.

(** The mapping held after the reports phase. *)
Definition mapping_after_reports (selected present : bool)
    (r : res Reports.results) : gmap string string :=
  if selected && present then
    match r with
    | Ok d => Reports.dataset_id_mapping d
    | Raise _ => ∅
    end
  else ∅.

(** *** The service calls of a selective restore, one after the other

    [run1] ... [run6] are the calls of the six services on the states
    [state1] ... [state5] that the selected phases before them left; a
    phase that is not selected leaves the state as it is. *)

Section SelectiveCalls.
Context {W : Type} `{World W}.
Variable svc : Selective.services W.
Variable f : Selective.flags.
Variables ws backup_folder : string.
Variable bd : Selective.backup.
Variable s : st W.

Definition reports_path : string :=
  Complete.os_path_join backup_folder "reports".
Definition reports_present : bool := os_path_exists reports_path (world s).
Definition reports_ran : bool := Selective.restore_reports f && reports_present.

Definition run1 : res Reports.results * st W :=
  Selective.reports_service svc ws reports_path s.
Definition state1 : st W := if reports_ran then snd run1 else s.
Definition passed_mapping : gmap string string :=
  mapping_after_reports (Selective.restore_reports f) reports_present (fst run1).

Definition run2 : res Datasets.results * st W :=
  Selective.datasets_service svc ws (get_or (Selective.datasets bd) []) state1.
Definition state2 : st W :=
  if Selective.restore_datasets f then snd run2 else state1.

Definition run3 : res Schedules.results * st W :=
  Selective.refresh_schedules_service svc ws
    (get_or (Selective.refresh_schedules bd) []) (Some passed_mapping) state2.
Definition state3 : st W :=
  if Selective.restore_refresh_schedules f then snd run3 else state2.

Definition run4 : res Dashboards.results * st W :=
  Selective.dashboards_service svc ws
    (get_or (Selective.dashboards bd) []) state3.
Definition state4 : st W :=
  if Selective.restore_dashboards f then snd run4 else state3.

Definition run5 : res Dataflows.results * st W :=
  Selective.dataflows_service svc ws
    (get_or (Selective.dataflows bd) []) state4.
Definition state5 : st W :=
  if Selective.restore_dataflows f then snd run5 else state4.

Definition run6 : res Apps.results * st W :=
  Selective.apps_service svc ws (get_or (Selective.apps bd) []) state5.
Definition state6 : st W :=
  if Selective.restore_apps f then snd run6 else state5.

(** The report the task stores for job [jid] of backup [bid]. *)
Definition final_report (jid bid : string) : Selective.restoration_results :=
  Selective.set_timestamp (clock_now (world state6))
    (Selective.set_status "completed"
       (settle (Selective.restore_apps f) "apps" Selective.OfApps (fst run6)
          (settle (Selective.restore_dataflows f) "dataflows"
             Selective.OfDataflows (fst run5)
             (settle (Selective.restore_dashboards f) "dashboards"
                Selective.OfDashboards (fst run4)
                (settle (Selective.restore_refresh_schedules f)
                   "refresh_schedules" Selective.OfSchedules (fst run3)
                   (settle (Selective.restore_datasets f) "datasets"
                      Selective.OfDatasets (fst run2)
                      (settle_reports (Selective.restore_reports f)
                         reports_present (fst run1)
                         (Selective.RestorationResults jid ws bid ∅
                            (length (Selective.selected_components f))
                            0 0 None None)))))))).

End SelectiveCalls.

(** ** Example inputs for the further properties *)

Module Ex2.

(** A backup with a schedule for the report ["Sales"] and one dataset to
    document. *)
Definition backup1 : Selective.backup :=
  Selective.Backup
    (Some [Datasets.Item (Some "Sales") (Some "old-id") (Some ["p1"]) None])
    (Some [ScheduleEntry (Some "Sales") (Some Ex.weekly)])
    None None None.

(** An empty target workspace and a backup folder with [Sales.pbix]. *)
Definition w_sales : Sim.world :=
  Sim.World_ "2024-01-01T00:00:00"
    [Sim.File "backups/b1/reports" (Sim.pbix "backups/b1/reports" "Sales")
       (Some 2048)]
    [] false Sim.long_token 202 200 [].

Definition reports_and_schedules : Selective.flags :=
  Selective.Flags true false true false false false.

(** A disabled schedule. *)
Definition disabled : api_schedule :=
  ApiSchedule ["Monday"] ["01:00"] false "UTC" "MailOnFailure".

(** A token of sixty characters, each of two bytes. *)
Fixpoint repeat_string (n : nat) (s : string) : string :=
  match n with
  | O => EmptyString
  | S n' => s +:+ repeat_string n' s
  end.

Definition accented_token : string :=
  repeat_string 60 (String "195" (String "169" EmptyString)).

(** An empty target workspace whose token provider gives that token. *)
Definition w_accented : Sim.world :=
  Sim.World_ "2024-01-01T00:00:00"
    [Sim.File "backup/reports" (Sim.pbix "backup/reports" "A") (Some 2048)]
    [] false accented_token 202 200 [].

(** An empty target workspace and a package whose name starts with a
    digit and holds spaces and quotes. *)
Definition w_digit : Sim.world :=
  Sim.World_ "2024-01-01T00:00:00"
    [Sim.File "backup/reports" (Sim.pbix "backup/reports" "2024 Q1 'final'")
       (Some 2048)]
    [] false Sim.long_token 202 200 [].

End Ex2.

(** ** A workspace whose listing fails once

    The simulated workspace with a counter of listing calls; the call
    number [down_at] (counted from 0) raises. *)

Module Flaky.

Record world : Type := World_ {
  base : Sim.world;
  down_at : nat;
  listings : nat
}.

Definition on_base {A} (op : Sim.world -> res A * Sim.world) (w : world)
  : res A * world :=
  let '(r, b) := op (base w) in (r, World_ b (down_at w) (listings w)).

Definition flaky_fetch (ws : string) (w : world) : res (list dataset) * world :=
  if (listings w =? down_at w)%nat then
    (Raise (Exception "Error fetching datasets: 500"),
     World_ (base w) (down_at w) (S (listings w)))
  else
    (Ok (Sim.target (base w)), World_ (base w) (down_at w) (S (listings w))).

#[global] Instance flaky_world : World world := {|
  clock_now := fun w => Sim.now (base w);
  os_path_exists := fun p w => Sim.has_path p (base w);
  glob_pbix := fun dir w => glob_pbix dir (base w);
  stat_size := fun p w => Sim.sim_stat p (base w);
  read_file := fun p w => Ok "PBIX";
  access_token := on_base (fun b => (Ok (Sim.token b), b));
  fetch_datasets := flaky_fetch;
  post_import := fun ws display data => on_base (Sim.sim_import ws display data);
  patch_schedule := fun ws id payload => on_base (Sim.sim_patch ws id payload)
|}.

(** Two packages; the listing read after the second import raises (it is
    the fifth listing of the phase). *)
Definition w_two : world :=
  World_
    (Sim.World_ "2024-01-01T00:00:00"
       [Sim.File "backup/reports" (Sim.pbix "backup/reports" "A") (Some 1024);
        Sim.File "backup/reports" (Sim.pbix "backup/reports" "B") (Some 2048)]
       [] false Sim.long_token 202 200 [])
    4 0.

End Flaky.

(** The backup file of the simulated workspace. *)
#[global] Instance sim_backup_files : Selective.BackupFiles Sim.world := {|
  Selective.load_json := fun p w =>
    if String.eqb p "backups/b1/backup_b1.json" then Ok Ex2.backup1
    else Raise (OSError "[Errno 2] No such file or directory")
|}.

(** ** The token cache of [PowerBIAuthService]

    [auth_and_api.py], lines 10-52.  The service keeps the token it was
    given in [_token_cache]; the authority is reached by one POST. *)

Module Auth.

(** The answer of the authority: its status, its text, and what
    [(await response.json())['access_token']] evaluates to (it raises for
    a body that is not JSON or has no such key). *)
Record response : Type := Response {
  status : Z;
  text : string;
  access_token_field : res string
}.

Class Authority (A : Type) := {
  post_token : A -> res response * A
}.

(** The service object: its cache, the authority it talks to, and the
    number of POSTs it has made. *)
Record service (A : Type) : Type := Service {
  token_cache : option string;
  authority : A;
  requests : nat
}.
Arguments Service {A}.
Arguments token_cache {A}.
Arguments authority {A}.
Arguments requests {A}.

Section Service.
Context {A : Type} `{Authority A}.

Definition set_token_cache (t : string) (a : service A) : service A :=
  Service (Some t) (authority a) (requests a).

(** [session.post(self.authority_url, ...)] *)
Definition session_post : M (service A) response :=
  fun a =>
    let '(r, x) := post_token (authority a) in
    (r, Service (token_cache a) x (S (requests a))).

(** Lines 27-48 *)
Definition request_token : M (service A) string :=
  response <- session_post ;;
  if negb (status response =? 200)%Z then
    raise (Exception ("Failed to obtain access token: " +:+ text response))
  else
    token <- lift_res (access_token_field response) ;;
    modify_state (set_token_cache token) ;;
    ret token.

(** [get_access_token] *)
Definition get_access_token : M (service A) string :=
  try_except
    (a <- read_state ;;
     match token_cache a with
     | Some t => if PyStr.truthy t then ret t else request_token
     | None => request_token
     end)
    (fun e => raise e).

(** [n] calls one after the other: their answers and the final state. *)
Fixpoint get_access_tokens (n : nat) (a : service A)
  : list (res string) * service A :=
  match n with
  | O => ([], a)
  | S n' =>
      let '(r, a1) := get_access_token a in
      let '(rs, a2) := get_access_tokens n' a1 in
      (r :: rs, a2)
  end.

End Service.

End Auth.

(** ** The name sanitisation, character by character

    What the chain of [replace] calls of [import_pbix] does to one
    character: a space, a slash or a backslash becomes an underscore, a
    double or single quote is dropped, any other character is kept. *)

Definition sanitize_char (c : ascii) : string :=
  if Ascii.eqb c " " || Ascii.eqb c "/" || Ascii.eqb c "\" then "_"
  else if Ascii.eqb c PyStr.dquote || Ascii.eqb c "'" then EmptyString
  else String c EmptyString.

Fixpoint sanitize_chars (s : string) : string :=
  match s with
  | EmptyString => EmptyString
  | String c s' => sanitize_char c +:+ sanitize_chars s'
  end.

(** The display names an import request can carry for a file stem: the
    stem, or the stem with a counter suffix. *)
Definition stem_name (stem name : string) : Prop :=
  name = stem \/ exists k : nat, (2 <= k)%nat /\ name = suffixed stem k.

Definition imports_stem (ws stem : string) (ev : event) : Prop :=
  match ev with
  | CallImport w name => w = ws /\ stem_name stem name
  | _ => True
  end.

(** ** The reports loop, item by item

    The outcome of one package file in the loop of [restore_reports_pbix],
    stated from what the collaborators answer: the import, the dataset
    listing read after an accepted import, and [stat] on the file. *)

Section ReportsItems.
Context {W : Type} `{World W}.
Variable unicode_digit : string -> bool.
Import Reports.












End ReportsItems.

(** ** The refresh-schedules phase in the words of the specification *)

Section ScheduleRule.
Context {W : Type} `{World W}.
Import Schedules.

(** The decision rule for an entry whose dataset is known: a schedule that
    is not enabled with both days and times is a success and nothing is
    sent; otherwise a token is requested and the schedule is sent by PATCH,
    and the answer is success exactly when the service accepts it. *)
Definition push_schedule (ws id : string) (cfg : api_schedule) (s : st W)
  : bool * st W :=
  if actionable cfg then
    match access_token (world s) with
    | (Ok _, w1) =>
        let sent :=
          (calls s ++
           [CallToken; CallPatchSchedule ws id (payload_of cfg)])%list in
        match patch_schedule ws id (payload_of cfg) w1 with
        | (Ok status, w2) => (accepted status, St w2 sent)
        | (Raise _, w2) => (false, St w2 sent)
        end
    | (Raise _, w1) => (false, St w1 (calls s ++ [CallToken])%list)
    end
  else (true, s).

(** The result dictionary for a list of records. *)
Definition schedules_summary (ds : list detail) : results :=
  Results "completed" (count_status "configured" ds)
    (count_status "failed" ds) (count_status "skipped" ds) ds.

(** The supplied identifier mapping, or the empty map when none is
    given. *)
Definition supplied (dataset_mapping : option (gmap string string))
  : gmap string string :=
  default ∅ dataset_mapping.

(** The entries restored through the mapping alone: an entry whose name
    the mapping resolves to a non-empty id is pushed to that id, any other
    entry is skipped. *)
Fixpoint restore_through_mapping (ws : string) (m : gmap string string)
    (l : list schedule_entry) (s : st W) : list detail * st W :=
  match l with
  | [] => ([], s)
  | e :: l' =>
      let '(d, s1) :=
        match e_dataset_name e ≫= (m !!.) with
        | Some id =>
            if PyStr.truthy id then
              let '(b, s1) := push_schedule ws id (api_config_of e) s in
              (found_record e id b, s1)
            else (Skipped (e_dataset_name e), s)
        | None => (Skipped (e_dataset_name e), s)
        end in
      let '(ds, s2) := restore_through_mapping ws m l' s1 in
      (d :: ds, s2)
  end.

(** The dataset id of a name against the target as it is in world [w]. *)
Definition resolved_id (ws : string)
    (dataset_mapping : option (gmap string string)) (w : W)
    (dataset_name : option string) : option string :=
  match fst (fetch_datasets ws w) with
  | Ok live => resolve_by_precedence dataset_mapping live dataset_name
  | Raise _ => mapping_entry dataset_mapping dataset_name
  end.

(** Whether the target in world [w] accepts a schedule update. *)
Definition target_accepts (ws id : string) (cfg : api_schedule) (w : W)
  : bool :=
  match fst (patch_schedule ws id (payload_of cfg) w) with
  | Ok status => accepted status
  | Raise _ => false
  end.

(** The outcome the specification gives an entry against the target in
    world [w]: its record, and the calls made for it. *)
Definition expected_outcome (ws : string)
    (dataset_mapping : option (gmap string string)) (w : W)
    (e : schedule_entry) : detail * list event :=
  let cfg := api_config_of e in
  match resolved_id ws dataset_mapping w (e_dataset_name e) with
  | Some id =>
      if PyStr.truthy id then
        if actionable cfg then
          match fst (access_token w) with
          | Ok _ =>
              (found_record e id (target_accepts ws id cfg w),
               [CallToken; CallPatchSchedule ws id (payload_of cfg)])
          | Raise _ => (found_record e id false, [CallToken])
          end
        else (found_record e id true, [])
      else (Skipped (e_dataset_name e), [])
  | None => (Skipped (e_dataset_name e), [])
  end.

End ScheduleRule.
(** * Properties *)

(** ** Strings *)

Lemma mem_app c a b : PyStr.mem c (a +:+ b) = PyStr.mem c a || PyStr.mem c b.
Proof.
  induction a as [|x a IH]; simpl; [reflexivity|].
  rewrite IH. apply orb_assoc.
Qed.

Lemma replace_removes old new s :
  PyStr.mem old new = false -> PyStr.mem old (PyStr.replace old new s) = false.
Proof.
  intros Hnew. induction s as [|x s IH]; simpl; [reflexivity|].
  destruct (Ascii.eqb x old) eqn:E.
  - rewrite mem_app, Hnew, IH. reflexivity.
  - simpl. rewrite E, IH. reflexivity.
Qed.

Lemma replace_keeps_absent c old new s :
  PyStr.mem c new = false -> PyStr.mem c s = false ->
  PyStr.mem c (PyStr.replace old new s) = false.
Proof.
  intros Hnew. induction s as [|x s IH]; simpl; [reflexivity|].
  intros Hs. apply orb_false_iff in Hs as [Hx Hs].
  destruct (Ascii.eqb x old).
  - rewrite mem_app, Hnew. simpl. auto.
  - simpl. rewrite Hx. simpl. auto.
Qed.

Lemma replaced_clean n c :
  c ∈ unsafe_chars -> PyStr.mem c (replaced n) = false.
Proof.
  unfold unsafe_chars, replaced. intros Hc.
  repeat (apply elem_of_cons in Hc as [->|Hc]);
    [ | | | | | by apply elem_of_nil in Hc ];
    repeat first
      [ apply replace_removes; reflexivity
      | apply replace_keeps_absent; [reflexivity|] ].
Qed.

Lemma replaced_chars (n : string) : replaced n = sanitize_chars n.
Proof.
  induction n as [|c n IH]; [reflexivity|].
  cbn [sanitize_chars]. rewrite <- IH. unfold replaced, sanitize_char.
  cbn [PyStr.replace].
  destruct (Ascii.eqb c " ") eqn:E1;
    [apply Ascii.eqb_eq in E1; subst; reflexivity|].
  cbn [PyStr.replace orb].
  destruct (Ascii.eqb c "/") eqn:E2;
    [apply Ascii.eqb_eq in E2; subst; reflexivity|].
  cbn [PyStr.replace orb].
  destruct (Ascii.eqb c "\") eqn:E3;
    [apply Ascii.eqb_eq in E3; subst; reflexivity|].
  cbn [PyStr.replace orb].
  destruct (Ascii.eqb c PyStr.dquote) eqn:E4;
    [apply Ascii.eqb_eq in E4; subst; reflexivity|].
  cbn [PyStr.replace orb].
  destruct (Ascii.eqb c "'") eqn:E5; reflexivity.
Qed.

Lemma sanitize_report_name_clean (unicode_digit : string -> bool)
    (report_name : option string) (stem : string) :
  let r := sanitize_report_name unicode_digit report_name stem in
  Forall (fun c => PyStr.mem c r = false) unsafe_chars /\
  PyStr.first_isdigit unicode_digit r = false.
Proof.
  intros r. subst r. unfold sanitize_report_name.
  set (n := match report_name with
            | Some n => if PyStr.truthy n then n else stem
            | None => stem
            end).
  set (b := if PyStr.truthy (replaced n) then replaced n else "ImportedReport").
  assert (Hb : Forall (fun c => PyStr.mem c b = false) unsafe_chars).
  { apply Forall_forall. intros c Hc. subst b.
    destruct (PyStr.truthy (replaced n)).
    - by apply replaced_clean.
    - unfold unsafe_chars in Hc.
      repeat (apply elem_of_cons in Hc as [->|Hc]); try reflexivity.
      by apply elem_of_nil in Hc. }
  destruct (PyStr.first_isdigit unicode_digit b) eqn:Hd.
  - split; [|reflexivity].
    apply Forall_forall. intros c Hc. rewrite mem_app.
    rewrite (proj1 (Forall_forall _ _) Hb c Hc), orb_false_r.
    unfold unsafe_chars in Hc.
    repeat (apply elem_of_cons in Hc as [->|Hc]); try reflexivity.
    by apply elem_of_nil in Hc.
  - split; [exact Hb|exact Hd].
Qed.

(** The name at the exit of the loop of [import_pbix] is the name it was
    entered with or the original name with a counter suffix. *)
Lemma first_unused_shape (fuel : nat) original names (c : nat) display :
  first_unused fuel original names c display = display \/
  exists k : nat, (c < k)%nat /\
    first_unused fuel original names c display = suffixed original k.
Proof.
  revert c display. induction fuel as [|fuel IH]; intros c display;
    [by left|].
  cbn [first_unused]. destruct (name_in display names); [|by left].
  right. destruct (IH (S c) (suffixed original (S c))) as [->|(k & Hk & ->)].
  - exists (S c). split; [lia|reflexivity].
  - exists k. split; [lia|reflexivity].
Qed.

Lemma display_name_for_stem (stem : string) (names : list string) :
  stem_name stem (display_name_for stem names).
Proof.
  unfold stem_name, display_name_for.
  destruct (first_unused_shape (S (length names)) stem names 1 stem)
    as [->|(k & Hk & ->)]; [by left|].
  right. exists k. split; [lia|reflexivity].
Qed.

Section ImportNames.
Context {W : Type} `{World W}.
Variable unicode_digit : string -> bool.

(** Whatever [import_pbix] sends as an import carries a name made from the
    file stem. *)
Lemma import_pbix_names ws f n (s : st W) :
  exists b s' evs,
    import_pbix unicode_digit ws f n s = (Ok b, s') /\
    calls s' = (calls s ++ evs)%list /\
    Forall (imports_stem ws (path_stem f)) evs.
Proof.
  unfold import_pbix, try_except, bind, local, ret, lift_res, get_access_token,
    get_datasets, remote, try_except, bind, ret, lift_res.
  simpl.
  repeat match goal with
         | |- context [match ?x with _ => _ end] =>
             lazymatch x with
             | context [match _ with _ => _ end] => fail
             | _ => destruct x eqn:?; simpl
             end
         end.
  all: do 3 eexists; (split; [reflexivity|]); simpl.
  all: (split;
        [first [ by (rewrite <- ?app_assoc; reflexivity)
               | by (symmetry; apply app_nil_r) ]|]).
  all: repeat (constructor;
               [first [ exact I
                      | split; [reflexivity|apply display_name_for_stem]
                      | split; [reflexivity|by left] ]|]).
  all: constructor.
Qed.

(** C8 (amended): the sanitisation replaces every space, slash and
    backslash of the report name (the file stem when no name is given) by
    an underscore and drops its quotes, puts ["ImportedReport"] for an
    empty result and prefixes [Report_] to a result that starts with a
    digit; the sanitised name holds none of these characters and does not
    start with a digit.  It is not the name that is imported: every import
    request of [import_pbix] carries the file stem, or the stem with a
    counter suffix. *)
Theorem sanitized_name_is_only_logged (ws : string) (f : path)
    (report_name : option string) (s : st W) :
  let given :=
    match report_name with
    | Some n => if PyStr.truthy n then n else path_stem f
    | None => path_stem f
    end in
  let named :=
    if PyStr.truthy (sanitize_chars given) then sanitize_chars given
    else "ImportedReport" in
  let sanitized := sanitize_report_name unicode_digit report_name (path_stem f) in
  sanitized =
    (if PyStr.first_isdigit unicode_digit named then "Report_" +:+ named
     else named) /\
  Forall (fun c => PyStr.mem c sanitized = false) unsafe_chars /\
  PyStr.first_isdigit unicode_digit sanitized = false /\
  exists b s' evs,
    import_pbix unicode_digit ws f report_name s = (Ok b, s') /\
    calls s' = (calls s ++ evs)%list /\
    Forall (imports_stem ws (path_stem f)) evs.
Proof.
  intros given named sanitized.
  split.
  { subst sanitized named given. unfold sanitize_report_name.
    by rewrite replaced_chars. }
  destruct (sanitize_report_name_clean unicode_digit report_name (path_stem f))
    as [Hclean Hdigit].
  split; [exact Hclean|]. split; [exact Hdigit|].
  apply import_pbix_names.
Qed.

End ImportNames.

(** The original C8 does not hold: a package whose file stem starts with a
    digit and holds spaces and quotes is imported under that very name,
    while the sanitised name is [Report_2024_Q1_final]. *)
Lemma imported_name_begins_with_digit :
  import_pbix Sim.no_unicode_digit "ws"
    (Sim.pbix "backup/reports" "2024 Q1 'final'") (Some "2024 Q1 'final'")
    (St Ex2.w_digit []) =
  (Ok true,
   St (Sim.World_ "2024-01-01T00:00:00"
         [Sim.File "backup/reports"
            (Sim.pbix "backup/reports" "2024 Q1 'final'") (Some 2048)]
         [Dataset (Some "2024 Q1 'final'") (Some "id-2024 Q1 'final'")]
         false Sim.long_token 202 200 [])
      [CallToken; CallListDatasets "ws"; CallImport "ws" "2024 Q1 'final'"]) /\
  sanitize_report_name Sim.no_unicode_digit (Some "2024 Q1 'final'")
    "2024 Q1 'final'" = "Report_2024_Q1_final" /\
  PyStr.first_isdigit Sim.no_unicode_digit "2024 Q1 'final'" = true /\
  PyStr.mem " " "2024 Q1 'final'" = true /\
  PyStr.mem "'" "2024 Q1 'final'" = true.
Proof. vm_compute. repeat split; reflexivity. Qed.

(** ** The duplicate-name loops terminate by their condition *)

Lemma suffixed_inj report_name : Inj (=) (=) (suffixed report_name).
Proof.
  intros a b Hab. unfold suffixed in Hab.
  apply (inj (String.app report_name)) in Hab.
  apply (inj (String.app "_")) in Hab.
  by apply (inj pretty) in Hab.
Qed.

Lemma string_length_app (s t : string) :
  String.length (s +:+ t) = (String.length s + String.length t)%nat.
Proof. induction s as [|c s IH]; simpl; [reflexivity|]. by rewrite IH. Qed.

Lemma suffixed_ne report_name (k : nat) : suffixed report_name k <> report_name.
Proof.
  unfold suffixed. intros Heq.
  assert (Hlen : String.length (report_name +:+ "_" +:+ pretty k)
                 = String.length report_name) by (by rewrite Heq).
  rewrite !string_length_app in Hlen. simpl in Hlen. lia.
Qed.

(** More distinct candidates than names in the list: one of them is not in
    the list. *)
Lemma some_candidate_free (cands existing : list string) :
  NoDup cands -> (length existing < length cands)%nat ->
  Exists (fun x => name_in x existing = false) cands.
Proof.
  intros Hnd Hlen.
  destruct (decide (Exists (fun x => name_in x existing = false) cands))
    as [Hex|Hno]; [exact Hex|].
  exfalso.
  assert (Hincl : incl cands existing).
  { intros x Hx. apply list_elem_of_In.
    destruct (decide (x ∈ existing)) as [Hin|Hout]; [exact Hin|].
    exfalso. apply Hno. apply Exists_exists. exists x.
    split; [by apply list_elem_of_In|].
    unfold name_in. by apply bool_decide_eq_false. }
  apply NoDup_ListNoDup in Hnd.
  pose proof (NoDup_incl_length Hnd Hincl). lia.
Qed.

(** Among [n + 1] consecutive counters at least one suffixed name is not in
    a list of [n] names. *)
Lemma some_counter_free report_name (existing : list string) (c : nat) :
  Exists (fun k => name_in (suffixed report_name k) existing = false)
    (seq c (S (length existing))).
Proof.
  pose proof (some_candidate_free
                (suffixed report_name <$> seq c (S (length existing))) existing)
    as Hex.
  rewrite Exists_fmap in Hex. apply Hex.
  - apply (NoDup_fmap_2 _), NoDup_seq.
  - rewrite length_fmap, length_seq. lia.
Qed.

Lemma first_free_spec (fuel : nat) report_name existing (c : nat) :
  Exists (fun k => name_in (suffixed report_name k) existing = false)
    (seq c fuel) ->
  let r := first_free fuel report_name existing c in
  name_in (suffixed report_name r) existing = false /\
  (c <= r)%nat /\
  Forall (fun k => name_in (suffixed report_name k) existing = true)
    (seq c (r - c)).
Proof.
  revert c. induction fuel as [|fuel IH]; intros c Hex; simpl in *.
  - by apply Exists_nil in Hex.
  - destruct (name_in (suffixed report_name c) existing) eqn:Hc.
    + apply Exists_cons in Hex as [Hex|Hex]; [congruence|].
      destruct (IH (S c) Hex) as (H1 & H2 & H3).
      split; [exact H1|]. split; [lia|].
      replace (first_free fuel report_name existing (S c) - c)%nat
        with (S (first_free fuel report_name existing (S c) - S c)) by lia.
      simpl. constructor; [exact Hc|exact H3].
    + split; [exact Hc|]. split; [lia|].
      rewrite Nat.sub_diag. constructor.
Qed.

(** The loop of [restore_reports_pbix] leaves with a name that is not in
    the list, after trying the suffixes [_1], [_2], ... in order. *)
Lemma first_free_exits report_name existing :
  let r := first_free (S (length existing)) report_name existing 1 in
  name_in (suffixed report_name r) existing = false /\
  (1 <= r)%nat /\
  Forall (fun k => name_in (suffixed report_name k) existing = true)
    (seq 1 (r - 1)).
Proof. apply first_free_spec, some_counter_free. Qed.

Lemma resolve_final_name_fresh report_name existing :
  name_in (fst (resolve_final_name report_name existing)) existing = false.
Proof.
  unfold resolve_final_name.
  destruct (name_in report_name existing) eqn:E; simpl; [|exact E].
  apply first_free_exits.
Qed.

Lemma first_unused_spec (fuel : nat) original names (c : nat) display :
  Exists (fun k => name_in (suffixed original k) names = false)
    (seq (S c) fuel) ->
  name_in (first_unused (S fuel) original names c display) names = false.
Proof.
  revert c display. induction fuel as [|fuel IH]; intros c display Hex.
  - by apply Exists_nil in Hex.
  - cbn [first_unused].
    destruct (name_in display names) eqn:Hc; [|exact Hc].
    apply Exists_cons in Hex as [Hex|Hex].
    + by rewrite Hex.
    + specialize (IH (S c) (suffixed original (S c)) Hex).
      cbn [first_unused] in IH.
      destruct (name_in (suffixed original (S c)) names); exact IH.
Qed.

(** The loop of [import_pbix] leaves with a name that is not in the
    listing, after trying the stem and the suffixes [_2], [_3], ... *)
Lemma display_name_for_fresh stem names :
  name_in (display_name_for stem names) names = false.
Proof.
  unfold display_name_for.
  destruct (name_in stem names) eqn:E.
  - apply first_unused_spec.
    pose proof (some_candidate_free
                  (stem :: (suffixed stem <$> seq 2 (length names))) names)
      as Hex.
    apply Exists_cons in Hex as [Hex|Hex].
    + congruence.
    + by rewrite Exists_fmap in Hex.
    + apply NoDup_cons. split.
      * intros Hin. apply list_elem_of_fmap in Hin as (k & Hk & _).
        symmetry in Hk. by apply suffixed_ne in Hk.
      * apply (NoDup_fmap_2 _), NoDup_seq.
    + simpl. rewrite length_fmap, length_seq. lia.
  - simpl. by rewrite E.
Qed.

(** On a collision the first name tried is the one with suffix [_1]. *)
Lemma resolve_final_name_first_suffix report_name existing :
  name_in report_name existing = true ->
  name_in (suffixed report_name 1) existing = false ->
  resolve_final_name report_name existing = (suffixed report_name 1, true).
Proof.
  intros Hin Hfree. unfold resolve_final_name. rewrite Hin.
  cbn [first_free]. by rewrite Hfree.
Qed.

(** C1: with ["A"] and ["A_2"] in the target, [restore_reports_pbix]
    resolves the name of [A.pbix] to ["A_1"] and counts one handled
    duplicate, while the loop of [import_pbix] sends the display name
    ["A_3"]; the phase then finds no dataset called ["A_1"] and records no
    mapping. *)
Theorem reports_duplicate_name_resolution :
  resolve_final_name "A" ["A"; "A_2"] = ("A_1", true) /\
  display_name_for "A" ["A"; "A_2"] = "A_3" /\
  let '(r, s) :=
    Reports.restore_reports_pbix Sim.no_unicode_digit "ws" "backup/reports"
      (St Ex.w_dup []) in
  r = Ok (Reports.Results "completed" 1 0 1
            [Reports.Imported "A.pbix" "A_1" "A" "pending" 2048]
            1 "ws" ∅ None (Some "Imported 1/1 PBIX files")) /\
  Sim.target (world s) =
    [Dataset (Some "A") (Some "id-1"); Dataset (Some "A_2") (Some "id-2");
     Dataset (Some "A_3") (Some "id-A_3")].
Proof. vm_compute. repeat split; reflexivity. Qed.

(** ** The refresh-schedules phase, entry by entry *)

Section SchedulesFacts.
Context {W : Type} `{World W}.
Import Schedules.

Lemma update_refresh_schedule_total ws id cfg (s : st W) :
  update_refresh_schedule ws id cfg s =
  (Ok (fst (run_update ws id cfg s)), snd (run_update ws id cfg s)).
Proof.
  unfold run_update.
  destruct (update_refresh_schedule ws id cfg s) as [[b|e] s'] eqn:E;
    [reflexivity|].
  exfalso. revert E.
  unfold update_refresh_schedule, try_except, bind, ret,
    get_access_token, remote.
  repeat match goal with
         | |- context [if ?c then _ else _] => destruct c
         | |- context [access_token ?w] => destruct (access_token w) as [[?|?] ?]
         | |- context [patch_schedule ?a ?b ?c ?w] =>
             destruct (patch_schedule a b c w) as [[?|?] ?]
         end; simpl; discriminate.
Qed.

(** A schedule that is disabled or lacks days or times: the client answers
    success and nothing leaves the process. *)
Lemma update_refresh_schedule_noop ws id cfg (s : st W) :
  actionable cfg = false ->
  update_refresh_schedule ws id cfg s = (Ok true, s).
Proof.
  unfold actionable, update_refresh_schedule, try_except, bind, ret.
  destruct (a_enabled cfg), (a_days cfg), (a_times cfg);
    simpl; intros; try reflexivity; discriminate.
Qed.

Lemma run_update_noop ws id cfg (s : st W) :
  actionable cfg = false -> run_update ws id cfg s = (true, s).
Proof.
  intros Hn. unfold run_update.
  by rewrite update_refresh_schedule_noop.
Qed.

Lemma restore_one_record ws mapping datasets e (s : st W) r :
  restore_one ws mapping datasets e (s, r) =
  (Ok tt, (snd (outcome ws mapping datasets e s),
           record (fst (outcome ws mapping datasets e s)) r)).
Proof.
  unfold restore_one, outcome, try_except, bind.
  destruct (truthy_opt (find_dataset_id mapping datasets (e_dataset_name e)));
    simpl; [|reflexivity].
  unfold api. simpl.
  rewrite update_refresh_schedule_total.
  unfold api_config_of, found_record.
  destruct (run_update _ _ _ s) as [[|] s']; reflexivity.
Qed.

Lemma for_each_outcomes ws mapping datasets l (s : st W) r :
  for_each l (restore_one ws mapping datasets) (s, r) =
  (Ok tt, (snd (outcomes ws mapping datasets l s),
           fold_left (fun r d => record d r)
             (fst (outcomes ws mapping datasets l s)) r)).
Proof.
  revert s r. induction l as [|e l IH]; intros s r; [reflexivity|].
  cbn [for_each outcomes]. unfold bind at 1.
  rewrite restore_one_record, IH.
  destruct (outcome ws mapping datasets e s) as [d s1]. simpl.
  destruct (outcomes ws mapping datasets l s1) as [ds s2]. reflexivity.
Qed.

(** The phase never raises: it lists the datasets once, then produces one
    record per entry. *)
Lemma restore_refresh_schedules_eq ws l mapping (s : st W) :
  restore_refresh_schedules ws l mapping s =
  (Ok (fold_left (fun r d => record d r)
         (fst (outcomes ws mapping (table_at ws mapping s) l
                 (after_listing ws s)))
         initial),
   snd (outcomes ws mapping (table_at ws mapping s) l (after_listing ws s))).
Proof.
  unfold restore_refresh_schedules, target_datasets, table_at, after_listing.
  unfold try_except, bind, api, get_datasets, remote, ret, load. simpl.
  destruct (fetch_datasets ws (world s)) as [[ds|e] w'] eqn:E; simpl;
    rewrite for_each_outcomes; reflexivity.
Qed.

End SchedulesFacts.

(** ** Lookup tables *)

Lemma fold_insert_lookup (l : list dataset)
    (m : gmap (option string) (option string)) (k : option string) :
  fold_left (fun m d => <[d_name d := d_id d]> m) l m !! k =
  match last (List.filter (fun d => bool_decide (d_name d = k)) l) with
  | Some d => Some (d_id d)
  | None => m !! k
  end.
Proof.
  revert m. induction l as [|d l IH]; intros m; [reflexivity|].
  cbn [fold_left List.filter]. rewrite IH.
  destruct (bool_decide (d_name d = k)) eqn:E.
  - rewrite last_cons.
    destruct (last (List.filter _ l)); [reflexivity|].
    apply bool_decide_eq_true in E. by rewrite E, lookup_insert_eq.
  - destruct (last (List.filter _ l)); [reflexivity|].
    apply bool_decide_eq_false in E. by rewrite lookup_insert_ne.
Qed.

Lemma datasets_dict_lookup (live : list dataset) (k : option string) :
  match Schedules.datasets_dict live !! k with
  | Some v => v
  | None => None
  end = Schedules.live_entry live k.
Proof.
  unfold Schedules.datasets_dict, Schedules.live_entry.
  rewrite fold_insert_lookup.
  destruct (last (List.filter _ live)); [reflexivity|].
  by rewrite lookup_empty.
Qed.

Lemma as_lookup_Some (m : gmap string string) (n : string) :
  Schedules.as_lookup m !! Some n = Some <$> (m !! n).
Proof.
  unfold Schedules.as_lookup.
  rewrite (lookup_kmap Some), lookup_fmap. reflexivity.
Qed.

Lemma in_mapping_lookup (m : gmap string string) (n id : string) :
  m !! n = Some id -> Schedules.in_mapping (Some m) (Some n) = true.
Proof.
  intros Hm. unfold Schedules.in_mapping.
  rewrite (bool_decide_eq_false_2 (m = ∅)).
  - simpl. apply bool_decide_eq_true. by exists id.
  - intros ->. by rewrite lookup_empty in Hm.
Qed.

(** An entry of the mapping wins over any lookup table. *)
Lemma find_dataset_id_mapped m datasets (n id : string) :
  m !! n = Some id ->
  Schedules.find_dataset_id (Some m) datasets (Some n) = Some id.
Proof.
  intros Hm. unfold Schedules.find_dataset_id.
  by rewrite (in_mapping_lookup m n id Hm).
Qed.

Lemma find_dataset_id_unmapped mapping datasets name :
  Schedules.mapping_entry mapping name = None ->
  Schedules.find_dataset_id mapping datasets name =
  match datasets !! name with Some v => v | None => None end.
Proof.
  unfold Schedules.mapping_entry, Schedules.find_dataset_id,
    Schedules.in_mapping.
  destruct mapping as [m|], name as [n|]; try reflexivity.
  intros Hm. rewrite (bool_decide_eq_false_2 (is_Some (m !! n))).
  - by rewrite andb_false_r.
  - rewrite Hm. by intros [? ?].
Qed.

Lemma find_dataset_id_precedence mapping live name :
  Schedules.find_dataset_id mapping (Schedules.datasets_dict live) name =
  Schedules.resolve_by_precedence mapping live name.
Proof.
  unfold Schedules.resolve_by_precedence.
  destruct (Schedules.mapping_entry mapping name) as [id|] eqn:E.
  - unfold Schedules.mapping_entry in E.
    destruct mapping as [m|], name as [n|]; try discriminate.
    by apply find_dataset_id_mapped.
  - rewrite find_dataset_id_unmapped by exact E.
    apply datasets_dict_lookup.
Qed.

(** ** Records and counters of the refresh-schedules phase *)

Section SchedulesRecords.
Context {W : Type} `{World W}.
Import Schedules.

Lemma count_status_app st ds1 ds2 :
  count_status st (ds1 ++ ds2) = (count_status st ds1 + count_status st ds2)%nat.
Proof. unfold count_status. by rewrite List.filter_app, length_app. Qed.

Lemma fold_record ds r :
  let r' := fold_left (fun r d => record d r) ds r in
  status r' = status r /\
  details r' = (details r ++ ds)%list /\
  restored r' = (restored r + count_status "configured" ds)%nat /\
  failed r' = (failed r + count_status "failed" ds)%nat /\
  skipped r' = (skipped r + count_status "skipped" ds)%nat.
Proof.
  revert r. induction ds as [|d ds IH]; intros r; simpl.
  - rewrite app_nil_r. unfold count_status. simpl. repeat split; lia.
  - destruct (IH (record d r)) as (H1 & H2 & H3 & H4 & H5).
    rewrite H1, H2, H3, H4, H5.
    change (d :: ds) with ([d] ++ ds)%list. rewrite !count_status_app.
    destruct d; destruct r; simpl; rewrite <- ?app_assoc; simpl;
      repeat split; unfold count_status; simpl; lia.
Qed.

Lemma outcome_record_of_entry ws mapping datasets e (s : st W) :
  record_of_entry mapping datasets e (fst (outcome ws mapping datasets e s)).
Proof.
  unfold record_of_entry, outcome.
  destruct (truthy_opt (find_dataset_id mapping datasets (e_dataset_name e)));
    simpl; [|reflexivity].
  destruct (actionable (api_config_of e)) eqn:Ha.
  - destruct (run_update _ _ _ s) as [b s']. simpl. exists b. by split; [|right].
  - rewrite run_update_noop by exact Ha. simpl. exists true. by split; [|left].
Qed.

Lemma outcomes_classified ws mapping datasets l (s : st W) :
  Forall2 (record_of_entry mapping datasets) l
    (fst (outcomes ws mapping datasets l s)).
Proof.
  revert s. induction l as [|e l IH]; intros s; simpl; [constructor|].
  pose proof (outcome_record_of_entry ws mapping datasets e s) as Hd.
  destruct (outcome ws mapping datasets e s) as [d s1].
  specialize (IH s1).
  destruct (outcomes ws mapping datasets l s1) as [ds s2].
  simpl in *. by constructor.
Qed.

(** The result of the phase: it returns, with status ["completed"], one
    record per entry in order, each counter being the number of records of
    its status. *)
Lemma restore_refresh_schedules_summary ws l mapping (s : st W) :
  exists res,
    fst (restore_refresh_schedules ws l mapping s) = Ok res /\
    status res = "completed" /\
    Forall2 (record_of_entry mapping (table_at ws mapping s)) l (details res) /\
    restored res = count_status "configured" (details res) /\
    failed res = count_status "failed" (details res) /\
    skipped res = count_status "skipped" (details res).
Proof.
  rewrite restore_refresh_schedules_eq. eexists. split; [reflexivity|].
  destruct (fold_record
              (fst (outcomes ws mapping (table_at ws mapping s) l
                      (after_listing ws s))) initial)
    as (H1 & H2 & H3 & H4 & H5).
  simpl in *. rewrite H1, H2, H3, H4, H5.
  repeat split; try reflexivity. apply outcomes_classified.
Qed.

End SchedulesRecords.

Section SchedulesLookup.
Context {W : Type} `{World W}.
Import Schedules.

Lemma details_of_phase ws l mapping (s : st W) :
  exists res,
    fst (restore_refresh_schedules ws l mapping s) = Ok res /\
    details res =
    fst (outcomes ws mapping (table_at ws mapping s) l (after_listing ws s)).
Proof.
  rewrite restore_refresh_schedules_eq. eexists. split; [reflexivity|].
  by destruct (fold_record
                 (fst (outcomes ws mapping (table_at ws mapping s) l
                         (after_listing ws s))) initial) as (_ & -> & _).
Qed.

End SchedulesLookup.

(** ** Resolution of the target dataset *)

(** C5: when the listing succeeds, the dataset id of a schedule entry is the
    entry of the identifier mapping for its name if there is one, and
    otherwise what the live dataset list gives for the name; the entry gets
    the record that goes with that id, and when neither resolves the record
    is ["skipped"]; records with status ["skipped"] are what the [skipped]
    counter counts, and the [failed] counter counts only records with
    status ["failed"]. *)
Theorem schedule_dataset_resolution {W : Type} `{World W}
    (ws : string) (schedules : list schedule_entry)
    (mapping : option (gmap string string)) (s : st W)
    (live : list dataset) (w' : W) (i : nat) (e : schedule_entry) :
  fetch_datasets ws (world s) = (Ok live, w') ->
  schedules !! i = Some e ->
  Schedules.find_dataset_id mapping (Schedules.datasets_dict live)
    (e_dataset_name e) =
  Schedules.resolve_by_precedence mapping live (e_dataset_name e) /\
  exists res d,
    fst (Schedules.restore_refresh_schedules ws schedules mapping s) = Ok res /\
    Schedules.details res !! i = Some d /\
    Schedules.record_of_entry mapping (Schedules.datasets_dict live) e d /\
    match Schedules.resolve_by_precedence mapping live (e_dataset_name e) with
    | None =>
        d = Schedules.Skipped (e_dataset_name e) /\
        Schedules.detail_status d = "skipped"
    | Some _ => True
    end /\
    Schedules.skipped res =
      Schedules.count_status "skipped" (Schedules.details res) /\
    Schedules.failed res =
      Schedules.count_status "failed" (Schedules.details res).
Proof.
  intros Hlist Hi. split; [apply find_dataset_id_precedence|].
  destruct (restore_refresh_schedules_summary ws schedules mapping s)
    as (res & Hres & _ & Hall & _ & Hfailed & Hskipped).
  assert (Htbl : Schedules.table_at ws mapping s = Schedules.datasets_dict live)
    by (unfold Schedules.table_at; by rewrite Hlist).
  rewrite Htbl in Hall.
  destruct (Forall2_lookup_l _ _ _ _ _ Hall Hi) as (d & Hd & Hrec).
  exists res, d. repeat split; try assumption.
  rewrite <- find_dataset_id_precedence.
  unfold Schedules.record_of_entry in Hrec.
  destruct (Schedules.find_dataset_id mapping (Schedules.datasets_dict live)
              (e_dataset_name e)); [exact I|].
  simpl in Hrec. by subst d.
Qed.

Lemma schedule_dataset_resolution_witness :
  fetch_datasets "ws" (world (St Ex.w_x [])) = (Ok (Sim.target Ex.w_x), Ex.w_x) /\
  [Ex.entry_x; Ex.entry_y] !! 1%nat = Some Ex.entry_y /\
  exists res d,
    fst (Schedules.restore_refresh_schedules "ws" [Ex.entry_x; Ex.entry_y]
           (Some ∅) (St Ex.w_x [])) = Ok res /\
    Schedules.details res !! 1%nat = Some d /\
    d = Schedules.Skipped (Some "Y").
Proof.
  assert (H1 : fetch_datasets "ws" (world (St Ex.w_x []))
               = (Ok (Sim.target Ex.w_x), Ex.w_x)) by reflexivity.
  assert (H2 : [Ex.entry_x; Ex.entry_y] !! 1%nat = Some Ex.entry_y)
    by reflexivity.
  split; [exact H1|]. split; [exact H2|].
  destruct (schedule_dataset_resolution (W := Sim.world) "ws"
              [Ex.entry_x; Ex.entry_y] (Some ∅) (St Ex.w_x [])
              (Sim.target Ex.w_x) Ex.w_x 1 Ex.entry_y H1 H2)
    as (_ & res & d & Hres & Hd & _ & Hskip & _).
  exists res, d. split; [exact Hres|]. split; [exact Hd|].
  exact (proj1 Hskip).
Defined.

(** ** Schedules that are not pushed *)

(** C2, as the code has it: an entry that is enabled with exactly one of
    days and times empty, and whose dataset id is found, makes the phase
    return status ["completed"] with restored = 1, failed = 0 and
    skipped = 0 and the record ["configured"]; the only call that leaves
    the process is the dataset listing, and the client answers success for
    such a schedule without any call. *)
Theorem inconsistent_schedule_is_noop_success {W : Type} `{World W}
    (ws : string) (name : option string) (cfg : schedule_config)
    (mapping : option (gmap string string)) (s : st W) (id : string)
    (ws2 id2 : string) (s2 : st W) :
  c_enabled cfg = Some true ->
  xorb (is_empty (get_or (c_days cfg) []))
       (is_empty (get_or (c_times cfg) [])) = true ->
  Schedules.find_dataset_id mapping (Schedules.table_at ws mapping s) name
    = Some id ->
  PyStr.truthy id = true ->
  Schedules.restore_refresh_schedules ws [ScheduleEntry name (Some cfg)]
    mapping s =
  (Ok (Schedules.Results "completed" 1 0 0
         [Schedules.Configured name id (get_or (c_frequency cfg) "unknown")
            (get_or (c_times cfg) []) (get_or (c_days cfg) [])]),
   Schedules.after_listing ws s) /\
  update_refresh_schedule ws2 id2
    (Schedules.api_config_of (ScheduleEntry name (Some cfg))) s2
  = (Ok true, s2).
Proof.
  intros Hen Hx Hid Ht.
  assert (Hna : Schedules.actionable
                  (Schedules.api_config_of (ScheduleEntry name (Some cfg)))
                = false).
  { unfold Schedules.actionable, Schedules.api_config_of. simpl.
    rewrite Hen. simpl.
    destruct (is_empty (get_or (c_days cfg) [])),
      (is_empty (get_or (c_times cfg) [])); try reflexivity; discriminate. }
  split; [|by apply update_refresh_schedule_noop].
  rewrite restore_refresh_schedules_eq. cbn [Schedules.outcomes].
  unfold Schedules.outcome. cbn [e_dataset_name].
  rewrite Hid. cbn [truthy_opt get_or]. rewrite Ht. cbn [negb].
  rewrite run_update_noop by exact Hna. reflexivity.
Qed.

Lemma inconsistent_schedule_is_noop_success_witness :
  c_enabled Ex.inconsistent = Some true /\
  xorb (is_empty (get_or (c_days Ex.inconsistent) []))
       (is_empty (get_or (c_times Ex.inconsistent) [])) = true /\
  Schedules.find_dataset_id (Some ∅)
    (Schedules.table_at "ws" (Some ∅) (St Ex.w_x [])) (Some "X")
    = Some "id-x" /\
  PyStr.truthy "id-x" = true /\
  Schedules.restore_refresh_schedules "ws" [Ex.entry_x] (Some ∅)
    (St Ex.w_x []) =
  (Ok (Schedules.Results "completed" 1 0 0
         [Schedules.Configured (Some "X") "id-x" "unknown" ["01:00"] []]),
   St Ex.w_x [CallListDatasets "ws"]).
Proof.
  assert (H1 : c_enabled Ex.inconsistent = Some true) by reflexivity.
  assert (H2 : xorb (is_empty (get_or (c_days Ex.inconsistent) []))
                 (is_empty (get_or (c_times Ex.inconsistent) [])) = true)
    by reflexivity.
  assert (H3 : Schedules.find_dataset_id (Some ∅)
                 (Schedules.table_at "ws" (Some ∅) (St Ex.w_x [])) (Some "X")
               = Some "id-x") by (vm_compute; reflexivity).
  assert (H4 : PyStr.truthy "id-x" = true) by reflexivity.
  split; [exact H1|]. split; [exact H2|]. split; [exact H3|].
  split; [exact H4|].
  exact (proj1 (inconsistent_schedule_is_noop_success (W := Sim.world)
                  "ws" (Some "X") Ex.inconsistent (Some ∅) (St Ex.w_x [])
                  "id-x" "ws" "id-x" (St Ex.w_x []) H1 H2 H3 H4)).
Defined.

(** C2 as the claim states it fails: for the entry
    [{dataset_name: "X", schedule: {enabled: true, days: [], times:
    ["01:00"]}}], with ["X"] in the target, the phase reports restored = 1,
    not 0. *)
Lemma inconsistent_schedule_counted_restored :
  Schedules.find_dataset_id (Some ∅)
    (Schedules.table_at "ws" (Some ∅) (St Ex.w_x [])) (Some "X")
    = Some "id-x" /\
  exists res,
    fst (Schedules.restore_refresh_schedules "ws" [Ex.entry_x] (Some ∅)
           (St Ex.w_x [])) = Ok res /\
    ~ (Schedules.restored res = 0%nat /\ Schedules.skipped res = 0%nat).
Proof.
  split; [vm_compute; reflexivity|].
  eexists. split; [vm_compute; reflexivity|].
  simpl. intros [Hr _]. discriminate.
Qed.

(** ** The listing call fails *)

Lemma mapping_or_empty_lookup (m : gmap string string) (n : string) :
  Schedules.mapping_or_empty (Some m) !! n = m !! n.
Proof.
  unfold Schedules.mapping_or_empty. case_bool_decide as Hm; [|reflexivity].
  by rewrite Hm.
Qed.

Lemma as_lookup_None (m : gmap string string) :
  Schedules.as_lookup m !! None = None.
Proof.
  unfold Schedules.as_lookup. apply lookup_kmap_None; [apply _|].
  intros i Hi. discriminate.
Qed.

(** With the mapping as lookup table, only the mapping resolves a name. *)
Lemma find_dataset_id_fallback mapping name :
  Schedules.find_dataset_id mapping
    (Schedules.as_lookup (Schedules.mapping_or_empty mapping)) name =
  Schedules.mapping_entry mapping name.
Proof.
  destruct (Schedules.mapping_entry mapping name) as [id|] eqn:E.
  - unfold Schedules.mapping_entry in E.
    destruct mapping as [m|], name as [n|]; try discriminate.
    by apply find_dataset_id_mapped.
  - rewrite find_dataset_id_unmapped by exact E.
    unfold Schedules.mapping_entry in E.
    destruct name as [n|]; [|by rewrite as_lookup_None].
    rewrite as_lookup_Some.
    destruct mapping as [m|].
    + by rewrite mapping_or_empty_lookup, E.
    + simpl. by rewrite lookup_empty.
Qed.

(** A run with a failing listing: the entry for ["X"] is restored through
    the mapping, the entry for ["Y"] is skipped. *)
Example listing_failure_run :
  Schedules.restore_refresh_schedules "ws"
    [Ex.entry_x_weekly; Ex.entry_y] (Some {["X" := "id-x"]})
    (St Ex.w_x_down []) =
  (Ok (Schedules.Results "completed" 1 0 1
         [Schedules.Configured (Some "X") "id-x" "weekly" ["01:00"] ["Monday"];
          Schedules.Skipped (Some "Y")]),
   St (Sim.World_ "2024-01-01T00:00:00" []
         [Dataset (Some "X") (Some "id-x")] true Sim.long_token 202 200
         [("id-x", ApiSchedule ["Monday"] ["01:00"] true "UTC" "MailOnFailure")])
      [CallListDatasets "ws"; CallToken;
       CallPatchSchedule "ws" "id-x"
         (ApiSchedule ["Monday"] ["01:00"] true "UTC" "MailOnFailure")]).
Proof. vm_compute. reflexivity. Qed.

(** ** Running the refresh-schedules phase again *)

Section Idempotence.
Context {W : Type} `{World W}.
Import Schedules.

Variable same : W -> W -> Prop.
Hypothesis Hstable : stable_target same.

Lemma same_trans (a b c : W) : same a b -> same b c -> same a c.
Proof. destruct Hstable as [[_ _ Htrans] _ _ _ _ _ _]. apply Htrans. Qed.

Lemma same_refl (a : W) : same a a.
Proof. destruct Hstable as [[Hrefl _ _] _ _ _ _ _ _]. apply Hrefl. Qed.

Lemma run_update_actionable ws id cfg (s : st W) :
  actionable cfg = true ->
  run_update ws id cfg s =
  let payload :=
    ApiSchedule (a_days cfg) (a_times cfg) true (a_localTimeZoneId cfg)
      (a_notifyOption cfg) in
  match fst (access_token (world s)) with
  | Ok _ =>
      let w1 := snd (access_token (world s)) in
      let cs :=
        ((calls s ++ [CallToken]) ++ [CallPatchSchedule ws id payload])%list in
      match fst (patch_schedule ws id payload w1) with
      | Ok status => (accepted status, St (snd (patch_schedule ws id payload w1)) cs)
      | Raise _ => (false, St (snd (patch_schedule ws id payload w1)) cs)
      end
  | Raise _ =>
      (false, St (snd (access_token (world s))) (calls s ++ [CallToken])%list)
  end.
Proof.
  unfold actionable, run_update, update_refresh_schedule, try_except, bind,
    ret, get_access_token, remote.
  destruct (a_enabled cfg), (a_days cfg), (a_times cfg); simpl;
    try discriminate.
  intros _.
  destruct (access_token (world s)) as [[t|e] w1]; simpl; [|reflexivity].
  destruct (patch_schedule ws id _ w1) as [[status|e] w2]; simpl;
    [|reflexivity].
  by destruct (accepted status).
Qed.

(** The client's answer is that of the decision rule. *)
Lemma run_update_push ws id cfg (s : st W) :
  run_update ws id cfg s = push_schedule ws id cfg s.
Proof.
  unfold push_schedule. destruct (actionable cfg) eqn:Ha.
  - rewrite run_update_actionable by exact Ha. cbv zeta. unfold payload_of.
    destruct (access_token (world s)) as [[t|e] w1]; simpl; [|reflexivity].
    destruct (patch_schedule ws id _ w1) as [[status|e] w2]; simpl;
      by rewrite <- app_assoc.
  - by apply run_update_noop.
Qed.

Lemma schedules_summary_fold (ds : list detail) :
  fold_left (fun r d => record d r) ds initial = schedules_summary ds.
Proof.
  destruct (fold_record ds initial) as (H1 & H2 & H3 & H4 & H5).
  destruct (fold_left (fun r d => record d r) ds initial)
    as [st0 r0 f0 sk0 d0].
  simpl in *. subst. reflexivity.
Qed.

(** Against the same target, a name resolves as it does in [w0]. *)
Lemma resolved_at (w0 : W) ws mapping (s : st W) name :
  same w0 (world s) ->
  find_dataset_id mapping (table_at ws mapping s) name =
  resolved_id ws mapping w0 name.
Proof.
  intros Hs. unfold table_at, resolved_id.
  rewrite (fetch_answer same Hstable ws _ _ Hs).
  destruct (fetch_datasets ws (world s)) as [[live|e] w]; simpl.
  - apply find_dataset_id_precedence.
  - apply find_dataset_id_fallback.
Qed.

Lemma outcome_expected (w0 : W) ws mapping tbl e (s : st W) :
  same w0 (world s) ->
  find_dataset_id mapping tbl (e_dataset_name e) =
    resolved_id ws mapping w0 (e_dataset_name e) ->
  fst (outcome ws mapping tbl e s) = fst (expected_outcome ws mapping w0 e) /\
  calls (snd (outcome ws mapping tbl e s)) =
    (calls s ++ snd (expected_outcome ws mapping w0 e))%list /\
  same w0 (world (snd (outcome ws mapping tbl e s))).
Proof.
  intros Hs Hid. unfold outcome, expected_outcome. rewrite Hid.
  destruct (resolved_id ws mapping w0 (e_dataset_name e)) as [id|]; simpl;
    [|by rewrite app_nil_r].
  destruct (PyStr.truthy id); simpl; [|by rewrite app_nil_r].
  rewrite run_update_push. unfold push_schedule.
  destruct (actionable (api_config_of e)); simpl; [|by rewrite app_nil_r].
  pose proof (token_answer same Hstable _ _ Hs) as Ht.
  pose proof (token_keeps same Hstable (world s)) as Hk.
  destruct (access_token (world s)) as [[t|err] w1]; simpl in *; rewrite Ht.
  - unfold target_accepts.
    pose proof (patch_answer same Hstable ws id
                  (payload_of (api_config_of e)) w0 w1
                  (same_trans _ _ _ Hs Hk)) as Hp.
    pose proof (patch_keeps same Hstable ws id
                  (payload_of (api_config_of e)) w1) as Hk2.
    destruct (patch_schedule ws id (payload_of (api_config_of e)) w1)
      as [[status|err] w2]; simpl in *; rewrite Hp; simpl.
    all: repeat split; try reflexivity.
    all: apply (same_trans _ _ _ Hs), (same_trans _ _ _ Hk), Hk2.
  - simpl. repeat split; try reflexivity.
    by apply (same_trans _ _ _ Hs).
Qed.

Lemma outcomes_expected (w0 : W) ws mapping tbl l (s : st W) :
  same w0 (world s) ->
  (forall name,
     find_dataset_id mapping tbl name = resolved_id ws mapping w0 name) ->
  fst (outcomes ws mapping tbl l s) =
    map fst (map (expected_outcome ws mapping w0) l) /\
  calls (snd (outcomes ws mapping tbl l s)) =
    (calls s ++ concat (map snd (map (expected_outcome ws mapping w0) l)))%list /\
  same w0 (world (snd (outcomes ws mapping tbl l s))).
Proof.
  intros Hs Hid. revert s Hs.
  induction l as [|e l IH]; intros s Hs; simpl.
  - by rewrite app_nil_r.
  - destruct (outcome_expected w0 ws mapping tbl e s Hs (Hid _))
      as (Hd & Hc & Hk).
    destruct (outcome ws mapping tbl e s) as [d s1]. simpl in *.
    destruct (IH s1 Hk) as (Hds & Hcs & Hks).
    destruct (outcomes ws mapping tbl l s1) as [ds s2]. simpl in *.
    rewrite Hd, Hds, Hcs, Hc, <- app_assoc. by repeat split.
Qed.

(** A run of the phase against the target of [w0]. *)
Lemma phase_expected (w0 : W) ws l mapping (s : st W) :
  same w0 (world s) ->
  let expected := map (expected_outcome ws mapping w0) l in
  fst (restore_refresh_schedules ws l mapping s) =
    Ok (schedules_summary (map fst expected)) /\
  calls (snd (restore_refresh_schedules ws l mapping s)) =
    (calls s ++ CallListDatasets ws :: concat (map snd expected))%list /\
  same w0 (world (snd (restore_refresh_schedules ws l mapping s))).
Proof.
  intros Hs expected. subst expected.
  rewrite restore_refresh_schedules_eq. simpl.
  assert (Hs1 : same w0 (world (after_listing ws s)))
    by (apply (same_trans _ _ _ Hs), (fetch_keeps same Hstable)).
  destruct (outcomes_expected w0 ws mapping (table_at ws mapping s) l
              (after_listing ws s) Hs1) as (Hds & Hcs & Hks).
  { intros name. by apply resolved_at. }
  rewrite schedules_summary_fold, Hds, Hcs. simpl.
  rewrite <- app_assoc. by repeat split.
Qed.

(** C7: against a target whose answers stay the same, the phase run on the
    entries and run again on the state the first run left gives the same
    result both times, and sends the same calls both times.  The result is
    the one the specification gives entry by entry against the target as
    it was before the first run: ["skipped"] for an entry whose dataset is
    not found; the success record ["configured"], with nothing sent, for a
    schedule that is not enabled with both days and times; and for a
    schedule that is, a token request and one PATCH, with ["configured"]
    exactly when the target accepts the PATCH.  [restored], [failed] and
    [skipped] count these records. *)
Theorem refresh_schedules_idempotent (ws : string)
    (schedules : list schedule_entry)
    (mapping : option (gmap string string)) (s : st W) :
  let run := restore_refresh_schedules ws schedules mapping in
  let expected := map (expected_outcome ws mapping (world s)) schedules in
  let sent := CallListDatasets ws :: concat (map snd expected) in
  fst (run s) = Ok (schedules_summary (map fst expected)) /\
  fst (run (snd (run s))) = Ok (schedules_summary (map fst expected)) /\
  calls (snd (run s)) = (calls s ++ sent)%list /\
  calls (snd (run (snd (run s)))) = ((calls s ++ sent) ++ sent)%list.
Proof.
  intros run expected sent. subst run expected sent.
  destruct (phase_expected (world s) ws schedules mapping s (same_refl _))
    as (H1 & H2 & H3).
  destruct (phase_expected (world s) ws schedules mapping
              (snd (restore_refresh_schedules ws schedules mapping s)) H3)
    as (H4 & H5 & _).
  rewrite H1, H4, H5, H2. by repeat split.
Qed.

End Idempotence.

(** The simulated workspace is such a target: PATCH only adds to the stored
    schedules, and no answer reads them. *)
Lemma sim_stable_target : Schedules.stable_target Sim.same_target.
Proof.
  unfold Sim.same_target, Sim.forget_stored.
  split.
  - split.
    + by intros w.
    + by intros w1 w2.
    + intros w1 w2 w3 H12 H23. by rewrite H12.
  - intros ws [] [] [=]; simpl in *; subst. unfold Sim.sim_fetch. simpl.
    by destruct listing_fails0.
  - intros ws []. simpl. unfold Sim.sim_fetch. simpl.
    by destruct listing_fails.
  - by intros [] [] [=]; simpl in *; subst.
  - by intros [].
  - by intros ws id p [] [] [=]; simpl in *; subst.
  - by intros ws id p [].
Qed.

Lemma refresh_schedules_idempotent_witness :
  Schedules.stable_target Sim.same_target /\
  let run :=
    Schedules.restore_refresh_schedules "ws"
      [Ex.entry_x_weekly; Ex.entry_x; Ex.entry_y] (Some ∅) in
  let twice := run (snd (run (St Ex.w_x []))) in
  fst twice =
    Ok (Schedules.Results "completed" 2 0 1
          [Schedules.Configured (Some "X") "id-x" "weekly" ["01:00"] ["Monday"];
           Schedules.Configured (Some "X") "id-x" "unknown" ["01:00"] [];
           Schedules.Skipped (Some "Y")]) /\
  calls (snd twice) =
    [CallListDatasets "ws"; CallToken;
     CallPatchSchedule "ws" "id-x"
       (ApiSchedule ["Monday"] ["01:00"] true "UTC" "MailOnFailure");
     CallListDatasets "ws"; CallToken;
     CallPatchSchedule "ws" "id-x"
       (ApiSchedule ["Monday"] ["01:00"] true "UTC" "MailOnFailure")].
Proof.
  split; [exact sim_stable_target|].
  destruct (refresh_schedules_idempotent (W := Sim.world) Sim.same_target
              sim_stable_target "ws"
              [Ex.entry_x_weekly; Ex.entry_x; Ex.entry_y] (Some ∅)
              (St Ex.w_x [])) as (_ & H2 & _ & H4).
  cbv zeta. rewrite H2, H4. vm_compute. by split.
Defined.

(** The two runs of the witness above: the same records both times, while
    the second run starts from a world that already stores the schedule. *)
Example refresh_schedules_two_runs :
  let run :=
    Schedules.restore_refresh_schedules "ws"
      [Ex.entry_x_weekly; Ex.entry_x; Ex.entry_y] (Some ∅) in
  fst (run (St Ex.w_x [])) =
    Ok (Schedules.Results "completed" 2 0 1
          [Schedules.Configured (Some "X") "id-x" "weekly" ["01:00"] ["Monday"];
           Schedules.Configured (Some "X") "id-x" "unknown" ["01:00"] [];
           Schedules.Skipped (Some "Y")]) /\
  fst (run (snd (run (St Ex.w_x [])))) = fst (run (St Ex.w_x [])) /\
  Sim.stored (world (snd (run (St Ex.w_x [])))) =
    [("id-x", ApiSchedule ["Monday"] ["01:00"] true "UTC" "MailOnFailure")].
Proof. vm_compute. repeat split; reflexivity. Qed.

(** ** The listing call fails: the supplied mapping *)

Section ListingFails.
Context {W : Type} `{World W}.
Import Schedules.

Lemma mapping_entry_supplied mapping (name : option string) :
  mapping_entry mapping name = name ≫= (supplied mapping !!.).
Proof.
  unfold mapping_entry, supplied.
  destruct mapping as [m|], name as [n|]; simpl;
    rewrite ?lookup_empty; reflexivity.
Qed.

(** With the mapping as lookup table, the loop restores through the
    mapping alone. *)
Lemma outcomes_through_mapping ws mapping l (s : st W) :
  outcomes ws mapping (as_lookup (mapping_or_empty mapping)) l s =
  restore_through_mapping ws (supplied mapping) l s.
Proof.
  revert s. induction l as [|e l IH]; intros s; [reflexivity|].
  cbn [outcomes restore_through_mapping]. unfold outcome.
  rewrite find_dataset_id_fallback, mapping_entry_supplied.
  destruct (e_dataset_name e ≫= (supplied mapping !!.)) as [id|]; simpl;
    [|by rewrite IH].
  destruct (PyStr.truthy id); simpl; [|by rewrite IH].
  rewrite run_update_push.
  destruct (push_schedule ws id (api_config_of e) s) as [b s1].
  by rewrite IH.
Qed.

(** C10: when the dataset listing raises at the start of the phase, the
    table bound to [datasets] is the supplied mapping, name by name (the
    empty table when no mapping is given), and the phase does not fail: it
    returns status ["completed"] with the records of the entries restored
    through the mapping, in the state they leave: an entry whose name the
    mapping resolves to a non-empty id is pushed to that id and recorded
    as ["configured"] or ["failed"] by the answer, any other entry is
    ["skipped"]. *)
Theorem listing_failure_falls_back_to_mapping (ws : string)
    (schedules : list schedule_entry)
    (mapping : option (gmap string string)) (s : st W)
    (err : exn) (w' : W) :
  fetch_datasets ws (world s) = (Raise err, w') ->
  let s1 := St w' (calls s ++ [CallListDatasets ws]) in
  let restored := restore_through_mapping ws (supplied mapping) schedules s1 in
  (forall r : results,
     exists tbl,
       target_datasets ws mapping (s, r) = (Ok tbl, (s1, r)) /\
       forall k : option string,
         tbl !! k =
         match k with
         | Some n => Some <$> (supplied mapping !! n)
         | None => None
         end) /\
  restore_refresh_schedules ws schedules mapping s =
    (Ok (schedules_summary (fst restored)), snd restored).
Proof.
  intros Hlist s1 restored. subst s1 restored. split.
  - intros r. eexists. split.
    + unfold target_datasets, try_except, bind, api, get_datasets, remote, ret.
      simpl. by rewrite Hlist.
    + intros [n|]; [|apply as_lookup_None].
      rewrite as_lookup_Some. unfold supplied.
      destruct mapping as [m|];
        [by rewrite mapping_or_empty_lookup|reflexivity].
  - rewrite restore_refresh_schedules_eq.
    unfold table_at, after_listing. rewrite Hlist. simpl.
    by rewrite outcomes_through_mapping, schedules_summary_fold.
Qed.

End ListingFails.

Lemma listing_failure_falls_back_to_mapping_witness :
  fetch_datasets "ws" (world (St Ex.w_x_down []))
    = (Raise (Exception "Error fetching datasets: 500"), Ex.w_x_down) /\
  fst (Schedules.restore_refresh_schedules "ws"
         [Ex.entry_x_weekly; Ex.entry_y] (Some {["X" := "id-new"]})
         (St Ex.w_x_down [])) =
  Ok (Schedules.Results "completed" 1 0 1
        [Schedules.Configured (Some "X") "id-new" "weekly" ["01:00"]
           ["Monday"];
         Schedules.Skipped (Some "Y")]).
Proof.
  assert (H1 : fetch_datasets "ws" (world (St Ex.w_x_down []))
               = (Raise (Exception "Error fetching datasets: 500"),
                  Ex.w_x_down)) by reflexivity.
  split; [exact H1|].
  destruct (listing_failure_falls_back_to_mapping (W := Sim.world) "ws"
              [Ex.entry_x_weekly; Ex.entry_y] (Some {["X" := "id-new"]})
              (St Ex.w_x_down []) _ _ H1) as [_ Hrun].
  rewrite Hrun. vm_compute. reflexivity.
Defined.

(** ** The orchestrator *)

(** C9: [restore_pbix_files] hands three positional arguments to
    [restore_reports_pbix], which takes two; for every backup folder and
    workspace id the call raises [TypeError] before the method body runs,
    and [restore_pbix_files] re-raises it: no result dictionary is returned
    and nothing is done to the world. *)
Theorem restore_pbix_files_raises {W : Type} `{World W}
    (unicode_digit : string -> bool)
    (backup_folder target_workspace_id : string) (s : st W) :
  Complete.restore_pbix_files unicode_digit backup_folder target_workspace_id s
  = (Raise (TypeError
       "ReportsRestoreService.restore_reports_pbix() takes 3 positional arguments but 4 were given"),
     s).
Proof. reflexivity. Qed.

Section Orchestrator.
Context {W : Type} `{World W} {Item Doc : Type}.
Variable svc : Complete.services W Item Doc.
Import Complete.

Lemma phase_reports_eq ws (bd : backup_data Item) (s : st W)
    (l : locals Doc) :
  let r := reports_service svc ws (get_or (reports bd) []) s in
  phase_reports svc ws bd (s, l) =
  (Ok tt,
   (snd r,
    match fst r with
    | Ok v =>
        match get_dataset_id_mapping v with
        | Ok m =>
            set_dataset_id_mapping m
              (set_component "reports" (OfReports v) l)
        | Raise e =>
            set_component "reports" (PhaseFailed (str_exn e))
              (set_component "reports" (OfReports v) l)
        end
    | Raise e => set_component "reports" (PhaseFailed (str_exn e)) l
    end)).
Proof.
  unfold phase_reports, try_except, bind, api, store, lift_res. simpl.
  destruct (reports_service svc ws (get_or (reports bd) []) s)
    as [[v|e] s1]; simpl; [|reflexivity].
  destruct (get_dataset_id_mapping v); reflexivity.
Qed.

Lemma phase_datasets_eq ws (bd : backup_data Item) (s : st W)
    (l : locals Doc) :
  let r := datasets_service svc ws (get_or (datasets bd) []) s in
  phase_datasets svc ws bd (s, l) =
  (Ok tt, (snd r, set_component "datasets" (doc_component (fst r)) l)).
Proof.
  unfold phase_datasets, try_except, bind, api, store. simpl.
  by destruct (datasets_service svc ws (get_or (datasets bd) []) s)
    as [[v|e] s1].
Qed.

Lemma phase_refresh_schedules_eq ws (bd : backup_data Item) (s : st W)
    (l : locals Doc) :
  let r := refresh_schedules_service svc ws
             (get_or (refresh_schedules bd) [])
             (Some (dataset_id_mapping l)) s in
  phase_refresh_schedules svc ws bd (s, l) =
  (Ok tt,
   (snd r,
    set_component "refresh_schedules" (schedules_component (fst r)) l)).
Proof.
  unfold phase_refresh_schedules, try_except, bind, api, store, load. simpl.
  by destruct (refresh_schedules_service svc ws _ _ s) as [[v|e] s1].
Qed.

Lemma phase_dashboards_eq ws (bd : backup_data Item) (s : st W)
    (l : locals Doc) :
  let r := dashboards_service svc ws (get_or (dashboards bd) []) s in
  phase_dashboards svc ws bd (s, l) =
  (Ok tt, (snd r, set_component "dashboards" (doc_component (fst r)) l)).
Proof.
  unfold phase_dashboards, try_except, bind, api, store. simpl.
  by destruct (dashboards_service svc ws (get_or (dashboards bd) []) s)
    as [[v|e] s1].
Qed.

Lemma phase_dataflows_eq ws (bd : backup_data Item) (s : st W)
    (l : locals Doc) :
  let r := dataflows_service svc ws (get_or (dataflows bd) []) s in
  phase_dataflows svc ws bd (s, l) =
  (Ok tt, (snd r, set_component "dataflows" (doc_component (fst r)) l)).
Proof.
  unfold phase_dataflows, try_except, bind, api, store. simpl.
  by destruct (dataflows_service svc ws (get_or (dataflows bd) []) s)
    as [[v|e] s1].
Qed.

Lemma phase_apps_eq ws (bd : backup_data Item) (s : st W)
    (l : locals Doc) :
  let r := apps_service svc ws (get_or (apps bd) []) s in
  phase_apps svc ws bd (s, l) =
  (Ok tt, (snd r, set_component "apps" (doc_component (fst r)) l)).
Proof.
  unfold phase_apps, try_except, bind, api, store. simpl.
  by destruct (apps_service svc ws (get_or (apps bd) []) s)
    as [[v|e] s1].
Qed.

End Orchestrator.

Section OrchestratorRun.
Context {W : Type} `{World W} {Item Doc : Type}.
Variable svc : Complete.services W Item Doc.
Import Complete.

Lemma locals_after_reports (r : res reports_value) (l : locals Doc) :
  components (items l) = ∅ ->
  let l' :=
    match r with
    | Ok v =>
        match get_dataset_id_mapping v with
        | Ok m =>
            set_dataset_id_mapping m (set_component "reports" (OfReports v) l)
        | Raise e =>
            set_component "reports" (PhaseFailed (str_exn e))
              (set_component "reports" (OfReports v) l)
        end
    | Raise e => set_component "reports" (PhaseFailed (str_exn e)) l
    end in
  components (items l') = {["reports" := reports_component r]} /\
  status (items l') = status (items l) /\
  workspace_id (items l') = workspace_id (items l) /\
  (dataset_id_mapping l = ∅ -> dataset_id_mapping l' = captured_mapping r).
Proof.
  intros Hc. unfold reports_component, captured_mapping.
  destruct r as [v|e]; [destruct (get_dataset_id_mapping v)|]; simpl;
    rewrite Hc, ?insert_insert_eq, ?insert_empty; repeat split; auto.
Qed.

(** The run of the orchestrator, phase by phase: every service is called on
    the state its predecessor left, whatever the predecessor did. *)
Lemma restore_all_components_eq ws (bd : backup_data Item) (s : st W) :
  let r1 := reports_service svc ws (get_or (reports bd) []) s in
  let r2 := datasets_service svc ws (get_or (datasets bd) []) (snd r1) in
  let r3 := refresh_schedules_service svc ws
              (get_or (refresh_schedules bd) [])
              (Some (captured_mapping (fst r1))) (snd r2) in
  let r4 := dashboards_service svc ws (get_or (dashboards bd) []) (snd r3) in
  let r5 := dataflows_service svc ws (get_or (dataflows bd) []) (snd r4) in
  let r6 := apps_service svc ws (get_or (apps bd) []) (snd r5) in
  exists its,
    restore_all_components svc ws bd s = (Ok its, snd r6) /\
    status its = "completed" /\
    workspace_id its = ws /\
    components its =
      <["apps" := doc_component (fst r6)]>
        (<["dataflows" := doc_component (fst r5)]>
           (<["dashboards" := doc_component (fst r4)]>
              (<["refresh_schedules" := schedules_component (fst r3)]>
                 (<["datasets" := doc_component (fst r2)]>
                    {["reports" := reports_component (fst r1)]})))).
Proof.
  intros r1 r2 r3 r4 r5 r6.
  unfold restore_all_components, try_except.
  unfold bind at 1. rewrite phase_reports_eq. cbv zeta. fold r1.
  set (l0 := Locals (RestoredItems "in_progress" ws (clock_now (world s)) ∅
                       (0%nat, 0%nat, 0%nat)) ∅).
  destruct (locals_after_reports (fst r1) l0 eq_refl) as (Hc & Hs & Hw & Hm).
  set (l1 := match fst r1 with Ok _ => _ | Raise _ => _ end) in *.
  specialize (Hm eq_refl).
  unfold bind at 1. rewrite phase_datasets_eq. cbv zeta. fold r2.
  unfold bind at 1. rewrite phase_refresh_schedules_eq. cbv zeta.
  cbn [dataset_id_mapping set_component]. rewrite Hm. fold r3.
  unfold bind at 1. rewrite phase_dashboards_eq. cbv zeta. fold r4.
  unfold bind at 1. rewrite phase_dataflows_eq. cbv zeta. fold r5.
  unfold bind at 1. rewrite phase_apps_eq. cbv zeta. fold r6.
  unfold bind, store, load. simpl.
  eexists. split; [reflexivity|]. simpl. rewrite Hc, Hw. by repeat split.
Qed.

End OrchestratorRun.

(** C4: whatever the six phase services do, [restore_all_components]
    returns a report with status ["completed"]; each service is run on the
    state its predecessor left, so a phase that raises stops no later
    phase; the report holds, for every phase, the result of its service
    when it returned and the dictionary with status ["failed"] and the
    error text when it raised (for the reports phase also when reading the
    mapping from its result raised). *)
Theorem phase_failures_are_isolated {W : Type} `{World W} {Item Doc : Type}
    (svc : Complete.services W Item Doc) (ws : string)
    (bd : Complete.backup_data Item) (s : st W) :
  let r1 := Complete.reports_service svc ws (get_or (Complete.reports bd) []) s in
  let r2 := Complete.datasets_service svc ws
              (get_or (Complete.datasets bd) []) (snd r1) in
  let r3 := Complete.refresh_schedules_service svc ws
              (get_or (Complete.refresh_schedules bd) [])
              (Some (Complete.captured_mapping (fst r1))) (snd r2) in
  let r4 := Complete.dashboards_service svc ws
              (get_or (Complete.dashboards bd) []) (snd r3) in
  let r5 := Complete.dataflows_service svc ws
              (get_or (Complete.dataflows bd) []) (snd r4) in
  let r6 := Complete.apps_service svc ws
              (get_or (Complete.apps bd) []) (snd r5) in
  let doc (r : res Doc) :=
    match r with
    | Ok d => Complete.OfDoc d
    | Raise e => Complete.PhaseFailed (str_exn e)
    end in
  exists its,
    Complete.restore_all_components svc ws bd s = (Ok its, snd r6) /\
    Complete.status its = "completed" /\
    Complete.components its !! "reports" =
      Some (match fst r1 with
            | Ok v =>
                match Complete.get_dataset_id_mapping v with
                | Ok _ => Complete.OfReports v
                | Raise e => Complete.PhaseFailed (str_exn e)
                end
            | Raise e => Complete.PhaseFailed (str_exn e)
            end) /\
    Complete.components its !! "datasets" = Some (doc (fst r2)) /\
    Complete.components its !! "refresh_schedules" =
      Some (match fst r3 with
            | Ok d => Complete.OfSchedules d
            | Raise e => Complete.PhaseFailed (str_exn e)
            end) /\
    Complete.components its !! "dashboards" = Some (doc (fst r4)) /\
    Complete.components its !! "dataflows" = Some (doc (fst r5)) /\
    Complete.components its !! "apps" = Some (doc (fst r6)).
Proof.
  intros r1 r2 r3 r4 r5 r6 doc.
  destruct (restore_all_components_eq svc ws bd s)
    as (its & Hrun & Hst & _ & Hc).
  exists its. split; [exact Hrun|]. split; [exact Hst|].
  rewrite Hc. repeat split; by simplify_map_eq.
Qed.

(** C3: with the services as the orchestrator wires them, phase 1 calls the
    legacy [restore_reports], whose result is an [int]; reading the mapping
    from it raises, the reports component is the failure dictionary, and
    for every input the refresh-schedules phase is run with the empty
    mapping. *)
Theorem wired_reports_phase_yields_no_mapping {W : Type} `{World W}
    {Item Doc : Type}
    (restore_datasets restore_dashboards restore_dataflows restore_apps :
       string -> list Item -> M (st W) Doc)
    (ws : string) (bd : Complete.backup_data Item) (s : st W) :
  let svc :=
    Complete.wired restore_datasets restore_dashboards restore_dataflows
      restore_apps in
  let r2 := restore_datasets ws (get_or (Complete.datasets bd) []) s in
  let r3 := Schedules.restore_refresh_schedules ws
              (get_or (Complete.refresh_schedules bd) []) (Some ∅) (snd r2) in
  exists its,
    fst (Complete.restore_all_components svc ws bd s) = Ok its /\
    Complete.components its !! "reports" =
      Some (Complete.PhaseFailed "'int' object has no attribute 'get'") /\
    Complete.components its !! "refresh_schedules" =
      Some (match fst r3 with
            | Ok d => Complete.OfSchedules d
            | Raise e => Complete.PhaseFailed (str_exn e)
            end).
Proof.
  intros svc r2 r3.
  destruct (restore_all_components_eq svc ws bd s)
    as (its & Hrun & _ & _ & Hc).
  exists its. rewrite Hrun. split; [reflexivity|].
  rewrite Hc. split; by simplify_map_eq.
Qed.

(** ** The reports phase, item by item *)

Section ReportsFacts.
Context {W : Type} `{World W}.
Variable unicode_digit : string -> bool.
Import Reports.


Local Opaque import_pbix.










End ReportsFacts.



(** The run of the witness above: the second of three items raises when
    its record is built; the first and the third get their records all the
    same, and the second is counted as imported and as failed. *)
Example reports_second_item_raises :
  fst (Reports.restore_reports_pbix Sim.no_unicode_digit "ws"
         "backup/reports" (St Ex.w_three [])) =
  Ok (Reports.Results "completed" 3 1 0
        [Reports.Imported "A.pbix" "A" "A" "id-A" 1024;
         Reports.Error "B.pbix" "[Errno 2] No such file or directory";
         Reports.Imported "C.pbix" "C" "C" "id-C" 4096]
        3 "ws" {["A" := "id-A"; "B" := "id-B"; "C" := "id-C"]} None
        (Some "Imported 3/3 PBIX files")).
Proof. vm_compute. reflexivity. Qed.



(** Nor is an item's record independent of the item before it: when the
    listing read after the second import raises, the record of the second
    package shows the dataset id found for the first. *)
Example reports_record_carries_previous_id :
  fst (Reports.restore_reports_pbix Sim.no_unicode_digit "ws"
         "backup/reports" (St Flaky.w_two [])) =
  Ok (Reports.Results "completed" 2 0 0
        [Reports.Imported "A.pbix" "A" "A" "id-A" 1024;
         Reports.Imported "B.pbix" "B" "B" "id-A" 2048]
        2 "ws" {["A" := "id-A"]} None
        (Some "Imported 2/2 PBIX files")).
Proof. vm_compute. reflexivity. Qed.

(** A run of the orchestrator as wired, with a datasets service that raises:
    the reports and datasets components are failure dictionaries, and the
    four later phases have run; the schedule for ["X"] is restored through
    the live listing. *)
Example orchestrator_run_with_failing_phase :
  let svc :=
    Complete.wired (Item := string) (Doc := string)
      (fun _ _ => raise (Exception "datasets unavailable"))
      (fun _ _ => ret "documented")
      (fun _ _ => ret "documented")
      (fun _ _ => ret "documented") in
  let bd :=
    Complete.BackupData (Some ["Sales"]) None (Some [Ex.entry_x_weekly])
      None None None in
  exists its,
    fst (Complete.restore_all_components svc "ws" bd (St Ex.w_x [])) = Ok its /\
    Complete.status its = "completed" /\
    Complete.components its !! "reports" =
      Some (Complete.PhaseFailed "'int' object has no attribute 'get'") /\
    Complete.components its !! "datasets" =
      Some (Complete.PhaseFailed "datasets unavailable") /\
    Complete.components its !! "refresh_schedules" =
      Some (Complete.OfSchedules
              (Schedules.Results "completed" 1 0 0
                 [Schedules.Configured (Some "X") "id-x" "weekly" ["01:00"]
                    ["Monday"]])) /\
    Complete.components its !! "dashboards" = Some (Complete.OfDoc "documented") /\
    Complete.components its !! "dataflows" = Some (Complete.OfDoc "documented") /\
    Complete.components its !! "apps" = Some (Complete.OfDoc "documented").
Proof.
  eexists. split; [vm_compute; reflexivity|].
  vm_compute. repeat split; reflexivity.
Qed.

(** * Further properties *)

(** ** The client's schedule update *)

Section UpdateCalls.
Context {W : Type} `{World W}.

(** X1: [update_refresh_schedule] never raises.  For a schedule that is
    disabled or has no days or no times it answers [True] and leaves the
    state as it was: nothing is sent.  Otherwise it asks for a token and,
    if it gets one, sends one PATCH for the given dataset whose body has
    [enabled = True] and the days and times of the configuration; the
    answer is [True] exactly when that request returned 200, 201 or 202. *)
Theorem update_refresh_schedule_calls (ws id : string) (cfg : api_schedule)
    (s : st W) :
  exists b s',
    update_refresh_schedule ws id cfg s = (Ok b, s') /\
    if Schedules.actionable cfg then
      match fst (access_token (world s)) with
      | Raise _ => b = false /\ calls s' = (calls s ++ [CallToken])%list
      | Ok _ =>
          calls s' =
            (calls s ++
             [CallToken; CallPatchSchedule ws id (payload_of cfg)])%list /\
          b = match fst (patch_schedule ws id (payload_of cfg)
                           (snd (access_token (world s)))) with
              | Ok status => accepted status
              | Raise _ => false
              end
      end
    else b = true /\ s' = s.
Proof.
  rewrite update_refresh_schedule_total.
  exists (fst (Schedules.run_update ws id cfg s)),
    (snd (Schedules.run_update ws id cfg s)).
  split; [reflexivity|].
  destruct (Schedules.actionable cfg) eqn:Ha.
  - rewrite run_update_actionable by exact Ha. cbv zeta.
    fold (payload_of cfg).
    destruct (fst (access_token (world s))); simpl.
    + destruct (fst (patch_schedule ws id (payload_of cfg)
                       (snd (access_token (world s))))); simpl;
        by rewrite <- app_assoc.
    + by split.
  - by rewrite run_update_noop.
Qed.

End UpdateCalls.

(** ** Accounting and calls of the refresh-schedules phase *)

Section SchedulesAccounting.
Context {W : Type} `{World W}.
Import Schedules.

Lemma count_status_partition (ds : list detail) :
  (count_status "configured" ds + count_status "failed" ds
   + count_status "skipped" ds)%nat = length ds.
Proof.
  induction ds as [|d ds IH]; [reflexivity|].
  change (d :: ds) with ([d] ++ ds)%list.
  rewrite !count_status_app, length_app. simpl length. rewrite <- IH.
  destruct d; unfold count_status; simpl; lia.
Qed.

Lemma outcomes_length ws mapping datasets l (s : st W) :
  length (fst (outcomes ws mapping datasets l s)) = length l.
Proof.
  symmetry. eapply Forall2_length, outcomes_classified.
Qed.

(** X2: the phase returns one record per schedule entry, and every entry is
    counted exactly once: restored + failed + skipped is the number of
    entries. *)
Theorem refresh_schedules_accounting (ws : string)
    (schedules : list schedule_entry)
    (mapping : option (gmap string string)) (s : st W) :
  exists res,
    fst (restore_refresh_schedules ws schedules mapping s) = Ok res /\
    length (details res) = length schedules /\
    (restored res + failed res + skipped res)%nat = length schedules.
Proof.
  destruct (restore_refresh_schedules_summary ws schedules mapping s)
    as (res & Hres & _ & Hall & Hr & Hf & Hs).
  exists res. split; [exact Hres|].
  apply Forall2_length in Hall.
  split; [by symmetry|].
  rewrite Hr, Hf, Hs, count_status_partition. by symmetry.
Qed.

Lemma run_update_calls ws id cfg (s : st W) :
  exists evs,
    calls (snd (run_update ws id cfg s)) = (calls s ++ evs)%list /\
    Forall (schedules_call ws) evs /\
    (length (List.filter is_patch evs) <= 1)%nat.
Proof.
  destruct (actionable cfg) eqn:Ha.
  - rewrite run_update_actionable by exact Ha. cbv zeta.
    assert (Hp : schedules_call ws
                   (CallPatchSchedule ws id
                      (ApiSchedule (a_days cfg) (a_times cfg) true
                         (a_localTimeZoneId cfg) (a_notifyOption cfg)))).
    { unfold actionable in Ha. simpl.
      destruct (a_enabled cfg), (a_days cfg), (a_times cfg);
        try discriminate; by repeat split. }
    destruct (fst (access_token (world s))); simpl.
    + exists [CallToken; CallPatchSchedule ws id
                (ApiSchedule (a_days cfg) (a_times cfg) true
                   (a_localTimeZoneId cfg) (a_notifyOption cfg))].
      split.
      * destruct (fst (patch_schedule ws id _ (snd (access_token (world s)))));
          simpl; by rewrite <- app_assoc.
      * split; [|simpl; lia].
        constructor; [exact I|]. constructor; [exact Hp|constructor].
    + exists [CallToken]. split; [reflexivity|].
      split; [|simpl; lia]. constructor; [exact I|constructor].
  - rewrite run_update_noop by exact Ha. exists [].
    rewrite app_nil_r. split; [reflexivity|]. split; [constructor|simpl; lia].
Qed.

Lemma outcome_calls ws mapping datasets e (s : st W) :
  exists evs,
    calls (snd (outcome ws mapping datasets e s)) = (calls s ++ evs)%list /\
    Forall (schedules_call ws) evs /\
    (length (List.filter is_patch evs)
     + count_status "skipped" [fst (outcome ws mapping datasets e s)]
     <= 1)%nat.
Proof.
  unfold outcome.
  destruct (negb (truthy_opt (find_dataset_id mapping datasets (e_dataset_name e)))).
  - exists []. rewrite app_nil_r. split; [reflexivity|].
    split; [constructor|]. unfold count_status. simpl. lia.
  - destruct (run_update_calls ws
                (get_or (find_dataset_id mapping datasets (e_dataset_name e))
                   EmptyString) (api_config_of e) s) as (evs & Hc & Hall & Hn).
    destruct (run_update _ _ _ s) as [b s']. simpl in *.
    exists evs. split; [exact Hc|]. split; [exact Hall|].
    unfold found_record, count_status. destruct b; simpl; lia.
Qed.

Lemma outcomes_calls ws mapping datasets l (s : st W) :
  exists evs,
    calls (snd (outcomes ws mapping datasets l s)) = (calls s ++ evs)%list /\
    Forall (schedules_call ws) evs /\
    (length (List.filter is_patch evs)
     + count_status "skipped" (fst (outcomes ws mapping datasets l s))
     <= length l)%nat.
Proof.
  revert s. induction l as [|e l IH]; intros s.
  - exists []. simpl. rewrite app_nil_r. split; [reflexivity|].
    split; [constructor|]. unfold count_status. simpl. lia.
  - simpl.
    destruct (outcome_calls ws mapping datasets e s) as (ev1 & Hc1 & Ha1 & Hn1).
    destruct (outcome ws mapping datasets e s) as [d s1]. simpl in *.
    destruct (IH s1) as (ev2 & Hc2 & Ha2 & Hn2).
    destruct (outcomes ws mapping datasets l s1) as [ds s2]. simpl in *.
    exists (ev1 ++ ev2)%list. split; [by rewrite Hc2, Hc1, app_assoc|].
    split; [by apply Forall_app|].
    rewrite List.filter_app, length_app.
    change (d :: ds) with ([d] ++ ds)%list. rewrite count_status_app. lia.
Qed.

(** X3: the calls of the phase are the dataset listing, once and first,
    then only token requests and schedule updates for the same workspace
    whose body is enabled and has days and times; there is at most one
    update per entry that was not skipped. *)
Theorem refresh_schedules_calls (ws : string)
    (schedules : list schedule_entry)
    (mapping : option (gmap string string)) (s : st W) :
  exists res evs,
    fst (restore_refresh_schedules ws schedules mapping s) = Ok res /\
    calls (snd (restore_refresh_schedules ws schedules mapping s)) =
      (calls s ++ CallListDatasets ws :: evs)%list /\
    Forall (schedules_call ws) evs /\
    (length (List.filter is_patch evs) + skipped res <= length schedules)%nat.
Proof.
  destruct (restore_refresh_schedules_summary ws schedules mapping s)
    as (res & Hres & _ & _ & _ & _ & Hs).
  destruct (details_of_phase ws schedules mapping s) as (res' & Hres' & Hds).
  rewrite Hres in Hres'. injection Hres' as <-.
  destruct (outcomes_calls ws mapping (table_at ws mapping s) schedules
              (after_listing ws s)) as (evs & Hc & Ha & Hn).
  exists res, evs. split; [exact Hres|].
  rewrite restore_refresh_schedules_eq. simpl. rewrite Hc. simpl.
  split; [by rewrite <- app_assoc|]. split; [exact Ha|].
  by rewrite Hs, Hds.
Qed.

End SchedulesAccounting.

(** ** Unique names *)

Lemma first_unused_least (fuel : nat) original names (c : nat) display :
  name_in display names = true ->
  Exists (fun k => name_in (suffixed original k) names = false)
    (seq (S c) fuel) ->
  exists k,
    (S c <= k)%nat /\
    first_unused (S fuel) original names c display = suffixed original k /\
    name_in (suffixed original k) names = false /\
    Forall (fun j => name_in (suffixed original j) names = true)
      (seq (S c) (k - S c)).
Proof.
  revert c display. induction fuel as [|fuel IH]; intros c display Hd Hex.
  - by apply Exists_nil in Hex.
  - cbn [first_unused]. rewrite Hd.
    destruct (name_in (suffixed original (S c)) names) eqn:Hc.
    + apply Exists_cons in Hex as [Hex|Hex]; [congruence|].
      destruct (IH (S c) (suffixed original (S c)) Hc Hex)
        as (k & Hk & Hres & Hfree & Htaken).
      cbn [first_unused] in Hres. rewrite Hc in Hres.
      exists k. split; [lia|]. split; [exact Hres|]. split; [exact Hfree|].
      replace (k - S c)%nat with (S (k - S (S c))) by lia.
      simpl. constructor; [exact Hc|exact Htaken].
    + exists (S c). split; [lia|]. split; [reflexivity|].
      split; [exact Hc|]. rewrite Nat.sub_diag. constructor.
Qed.

(** X4: the display name [import_pbix] sends is never a name of the listing
    it read.  It is the file stem when the stem is unused; otherwise it is
    the stem with the suffix [_k] for the least [k >= 2] whose suffixed
    name is unused. *)
Theorem display_name_is_least_unused (stem : string) (names : list string) :
  name_in (display_name_for stem names) names = false /\
  if name_in stem names then
    exists k,
      (2 <= k)%nat /\
      display_name_for stem names = suffixed stem k /\
      Forall (fun j => name_in (suffixed stem j) names = true)
        (seq 2 (k - 2))
  else display_name_for stem names = stem.
Proof.
  split; [apply display_name_for_fresh|].
  destruct (name_in stem names) eqn:E.
  - unfold display_name_for.
    destruct (first_unused_least (length names) stem names 1 stem E)
      as (k & Hk & Hres & _ & Htaken).
    + pose proof (some_candidate_free
                    (stem :: (suffixed stem <$> seq 2 (length names))) names)
        as Hex.
      apply Exists_cons in Hex as [Hex|Hex].
      * congruence.
      * by rewrite Exists_fmap in Hex.
      * apply NoDup_cons. split.
        -- intros Hin. apply list_elem_of_fmap in Hin as (j & Hj & _).
           symmetry in Hj. by apply suffixed_ne in Hj.
        -- apply (NoDup_fmap_2 _), NoDup_seq.
      * simpl. rewrite length_fmap, length_seq. lia.
    + exists k. by repeat split.
  - unfold display_name_for. simpl. by rewrite E.
Qed.

(** X5: the name [restore_reports_pbix] resolves for a package is never in
    its list of known dataset names; it is the file stem itself exactly
    when the stem is not in the list, and a duplicate is counted exactly
    when it is. *)
Theorem resolved_name_is_unused (report_name : string)
    (existing : list string) :
  name_in (fst (resolve_final_name report_name existing)) existing = false /\
  snd (resolve_final_name report_name existing) = name_in report_name existing /\
  if name_in report_name existing
  then fst (resolve_final_name report_name existing) <> report_name
  else fst (resolve_final_name report_name existing) = report_name.
Proof.
  split; [apply resolve_final_name_fresh|].
  unfold resolve_final_name.
  destruct (name_in report_name existing) eqn:E; simpl.
  - split; [reflexivity|]. apply suffixed_ne.
  - by split.
Qed.

(** ** Calls and results of [import_pbix] *)

Section ImportCalls.
Context {W : Type} `{World W}.
Variable unicode_digit : string -> bool.

Ltac split_cases :=
  repeat match goal with
         | |- context [match ?x with _ => _ end] =>
             lazymatch x with
             | context [match _ with _ => _ end] => fail
             | _ => destruct x eqn:?; simpl
             end
         end.

Ltac solve_calls :=
  first [ by (rewrite <- ?app_assoc; reflexivity)
        | by (symmetry; apply app_nil_r) ].

Ltac solve_forall :=
  repeat (constructor; [simpl; auto|]); constructor.

(** [import_pbix] never raises; what it sends is a token request, then a
    listing, then at most one import, all for the given workspace, and it
    answers [True] only after an import request. *)
Lemma import_pbix_trace ws f n (s : st W) :
  exists b s' evs,
    import_pbix unicode_digit ws f n s = (Ok b, s') /\
    calls s' = (calls s ++ evs)%list /\
    Forall (reports_call ws) evs /\
    (length (List.filter is_import evs) <= 1)%nat /\
    (if b then length (List.filter is_import evs) = 1%nat else True).
Proof.
  unfold import_pbix, try_except, bind, local, ret, lift_res, get_access_token,
    get_datasets, remote, try_except, bind, ret, lift_res.
  simpl. split_cases.
  all: do 3 eexists; (split; [reflexivity|]); simpl.
  all: (split; [solve_calls|]).
  all: (split; [solve_forall|]).
  all: simpl; split; try lia; try reflexivity; exact I.
Qed.

(** X6: [import_pbix] never raises.  All it sends is for the given
    workspace: token request, dataset listing and at most one import, and
    it answers [True] only when it sent an import.  The [report_name]
    argument changes neither the answer nor the calls: the name sent comes
    from the file stem. *)
Theorem import_pbix_calls (ws : string) (f : path) (n : option string)
    (s : st W) :
  exists b s' evs,
    import_pbix unicode_digit ws f n s = (Ok b, s') /\
    calls s' = (calls s ++ evs)%list /\
    Forall (reports_call ws) evs /\
    (length (List.filter is_import evs) <= 1)%nat /\
    (if b then length (List.filter is_import evs) = 1%nat else True) /\
    import_pbix unicode_digit ws f None s = (Ok b, s').
Proof.
  destruct (import_pbix_trace ws f n s) as (b & s' & evs & Hrun & Hc & Ha & Hn & Hb).
  exists b, s', evs. repeat split; try assumption.
Qed.

(** X7: the guards of [import_pbix].  When the package file does not exist
    it answers [False] and sends nothing.  When the token request fails, or
    the token is empty or shorter than 100 characters, it answers [False]
    after the token request alone: no listing and no import is sent. *)
Theorem import_pbix_guards (ws : string) (f : path) (n : option string)
    (s : st W) :
  if negb (os_path_exists (path_str f) (world s)) then
    import_pbix unicode_digit ws f n s = (Ok false, s)
  else
    match fst (access_token (world s)) with
    | Ok token =>
        if negb (PyStr.truthy token) || (PyStr.len token <? 100)%nat
        then
          import_pbix unicode_digit ws f n s =
          (Ok false,
           St (snd (access_token (world s))) (calls s ++ [CallToken])%list)
        else True
    | Raise _ =>
        import_pbix unicode_digit ws f n s =
        (Ok false,
         St (snd (access_token (world s))) (calls s ++ [CallToken])%list)
    end.
Proof.
  unfold import_pbix, try_except, bind, local, ret, lift_res, get_access_token,
    remote.
  simpl.
  destruct (os_path_exists (path_str f) (world s)); simpl.
  - destruct (access_token (world s)) as [[token|e] w1]; simpl; [|reflexivity].
    destruct (negb (PyStr.truthy token) || (PyStr.len token <? 100)%nat);
      simpl; [reflexivity|exact I].
  - destruct s. reflexivity.
Qed.

(** X8: the successful path of [import_pbix].  With the file present and
    readable, a token of at least 100 characters, and a listing whose
    entries all have a name, it sends exactly a token request, a listing
    and one import under the least unused name built from the file stem;
    the answer is [True] exactly for status 200, 201 or 202. *)
Theorem import_pbix_sends_unused_name (ws : string) (f : path)
    (n : option string) (s : st W) (token data : string) (w1 w2 w3 : W)
    (listing : list dataset) (names : list string) (status : Z) :
  os_path_exists (path_str f) (world s) = true ->
  access_token (world s) = (Ok token, w1) ->
  PyStr.truthy token = true ->
  (100 <= PyStr.len token)%nat ->
  read_file (path_str f) w1 = Ok data ->
  fetch_datasets ws w1 = (Ok listing, w2) ->
  names_strict listing = Ok names ->
  post_import ws (display_name_for (path_stem f) names) data w2
    = (Ok status, w3) ->
  import_pbix unicode_digit ws f n s =
  (Ok (accepted status),
   St w3 (calls s ++
          [CallToken; CallListDatasets ws;
           CallImport ws (display_name_for (path_stem f) names)])%list) /\
  name_in (display_name_for (path_stem f) names) names = false.
Proof.
  intros Hex Htok Htruthy Hlen Hread Hlist Hnames Hpost.
  split; [|apply display_name_for_fresh].
  unfold import_pbix, try_except, bind, local, ret, lift_res, get_access_token,
    get_datasets, remote, try_except, bind, ret, lift_res.
  simpl. rewrite Hex. simpl. rewrite Htok. simpl. rewrite Htruthy. simpl.
  apply Nat.ltb_ge in Hlen. rewrite Hlen. simpl.
  rewrite Hread. simpl. rewrite Hlist. simpl. rewrite Hnames. simpl.
  rewrite Hpost. simpl. rewrite <- !app_assoc. simpl.
  by destruct (accepted status).
Qed.

End ImportCalls.

Lemma import_pbix_sends_unused_name_witness :
  os_path_exists "backup/reports/A.pbix" (world (St Ex.w_dup [])) = true /\
  display_name_for "A" ["A"; "A_2"] = "A_3" /\
  fst (import_pbix Sim.no_unicode_digit "ws" (Sim.pbix "backup/reports" "A")
         (Some "A_1") (St Ex.w_dup [])) = Ok true /\
  name_in (display_name_for "A" ["A"; "A_2"]) ["A"; "A_2"] = false.
Proof.
  assert (H1 : os_path_exists (path_str (Sim.pbix "backup/reports" "A"))
                 (world (St Ex.w_dup [])) = true) by reflexivity.
  assert (H2 : access_token (world (St Ex.w_dup []))
               = (Ok Sim.long_token, Ex.w_dup)) by reflexivity.
  assert (H3 : PyStr.truthy Sim.long_token = true) by reflexivity.
  assert (H4 : (100 <= PyStr.len Sim.long_token)%nat)
    by (vm_compute; lia).
  assert (H5 : read_file (path_str (Sim.pbix "backup/reports" "A")) Ex.w_dup
               = Ok "PBIX") by reflexivity.
  assert (H6 : fetch_datasets "ws" Ex.w_dup = (Ok (Sim.target Ex.w_dup), Ex.w_dup))
    by reflexivity.
  assert (H7 : names_strict (Sim.target Ex.w_dup) = Ok ["A"; "A_2"])
    by reflexivity.
  assert (H8 : post_import "ws" (display_name_for "A" ["A"; "A_2"]) "PBIX"
                 Ex.w_dup
               = (Ok 202,
                  snd (Sim.sim_import "ws" "A_3" "PBIX" Ex.w_dup)))
    by (vm_compute; reflexivity).
  destruct (import_pbix_sends_unused_name (W := Sim.world)
              Sim.no_unicode_digit "ws" (Sim.pbix "backup/reports" "A")
              (Some "A_1") (St Ex.w_dup []) Sim.long_token "PBIX"
              Ex.w_dup Ex.w_dup _ _ _ 202 H1 H2 H3 H4 H5 H6 H7 H8)
    as [Hrun Hfresh].
  split; [exact H1|]. split; [vm_compute; reflexivity|].
  split; [by rewrite Hrun|exact Hfresh].
Defined.


(** The length test counts characters: a token of sixty characters is
    refused after the token request although it takes 120 bytes. *)
Example import_pbix_refuses_short_token :
  PyStr.len Ex2.accented_token = 60%nat /\
  String.length Ex2.accented_token = 120%nat /\
  import_pbix Sim.no_unicode_digit "ws" (Sim.pbix "backup/reports" "A") None
    (St Ex2.w_accented []) =
  (Ok false, St Ex2.w_accented [CallToken]).
Proof. vm_compute. repeat split; reflexivity. Qed.

(** ** Calls, mapping and edge cases of the reports phase *)

Section ReportsEffects.
Context {W : Type} `{World W}.
Variable unicode_digit : string -> bool.
Import Reports.

Local Opaque import_pbix.

Lemma import_one_effects ws f (s : st W) (l : locals) :
  exists s' l' evs,
    import_one unicode_digit ws f (s, l) = (Ok tt, (s', l')) /\
    calls s' = (calls s ++ evs)%list /\
    Forall (reports_call ws) evs /\
    (length (List.filter is_import evs) <= 1)%nat /\
    (imported (res_ l') <=
     imported (res_ l) + length (List.filter is_import evs))%nat /\
    (dataset_id_mapping (res_ l') = dataset_id_mapping (res_ l) \/
     exists id, PyStr.truthy id = true /\
       dataset_id_mapping (res_ l') =
       <[path_stem f := id]> (dataset_id_mapping (res_ l))) /\
    (duplicate_handled (res_ l') <= S (duplicate_handled (res_ l)))%nat /\
    pbix_files_found (res_ l') = pbix_files_found (res_ l).
Proof.
  unfold import_one, try_except, import_body, import_failed.
  unfold bind, load, store, api, ret, raise, lift_res, read_new_dataset_id,
    get_datasets, remote, local, try_except, bind, load, ret, raise.
  simpl.
  destruct (resolve_final_name (path_stem f) (existing_datasets l))
    as [final dup].
  destruct (import_pbix_trace unicode_digit ws f (Some final) s)
    as (b & s1 & evs0 & Himp & Hc & Ha & Hn & Hb).
  destruct dup; simpl; rewrite Himp; simpl.
  all: repeat match goal with
       | |- context [match ?x with _ => _ end] =>
           lazymatch x with
           | context [match _ with _ => _ end] => fail
           | _ => destruct x eqn:?; simpl
           end
       end.
  all: do 3 eexists; (split; [reflexivity|]).
  all: destruct l as [rr ex nid]; destruct rr; simpl in *.
  all: (split;
        [first [exact Hc | by (rewrite Hc, <- ?app_assoc; reflexivity)]|]).
  all: (split;
        [first [exact Ha
               | apply Forall_app; split; [exact Ha|];
                 repeat (constructor; [simpl; auto|]); constructor]|]).
  all: rewrite ?List.filter_app, ?length_app; simpl.
  all: (split; [lia|]); (split; [lia|]).
  all: (split; [first [by left | right; eexists; split; [eassumption|reflexivity]]|]).
  all: split; [lia|reflexivity].
Qed.

Lemma import_loop_effects ws (files : list path) (s : st W) (l : locals) :
  exists s' l' evs,
    for_each files (import_one unicode_digit ws) (s, l) = (Ok tt, (s', l')) /\
    calls s' = (calls s ++ evs)%list /\
    Forall (reports_call ws) evs /\
    (length (List.filter is_import evs) <= length files)%nat /\
    (imported (res_ l') <=
     imported (res_ l) + length (List.filter is_import evs))%nat /\
    (forall k v, dataset_id_mapping (res_ l') !! k = Some v ->
       dataset_id_mapping (res_ l) !! k = Some v \/
       (k ∈ map path_stem files /\ PyStr.truthy v = true)) /\
    (duplicate_handled (res_ l') <=
     duplicate_handled (res_ l) + length files)%nat /\
    pbix_files_found (res_ l') = pbix_files_found (res_ l).
Proof.
  revert s l. induction files as [|f files IH]; intros s l.
  - exists s, l, []. simpl. rewrite app_nil_r.
    repeat split; try lia; auto.
  - destruct (import_one_effects ws f s l)
      as (s1 & l1 & ev1 & Hstep & Hc1 & Ha1 & Hn1 & Hi1 & Hm1 & Hd1 & Hp1).
    destruct (IH s1 l1)
      as (s2 & l2 & ev2 & Hloop & Hc2 & Ha2 & Hn2 & Hi2 & Hm2 & Hd2 & Hp2).
    exists s2, l2, (ev1 ++ ev2)%list.
    cbn [for_each]. unfold bind at 1. rewrite Hstep, Hloop.
    split; [reflexivity|]. split; [by rewrite Hc2, Hc1, app_assoc|].
    split; [by apply Forall_app|].
    rewrite List.filter_app, length_app. simpl length.
    split; [lia|]. split; [lia|]. split; [|split; [lia|congruence]].
    intros k v Hkv. destruct (Hm2 k v Hkv) as [Hold|[Hin Ht]].
    + destruct Hm1 as [Hsame|(id & Ht & Hins)].
      * left. by rewrite <- Hsame.
      * rewrite Hins in Hold.
        destruct (decide (path_stem f = k)) as [<-|Hne].
        -- rewrite lookup_insert_eq in Hold. injection Hold as <-.
           right. split; [|exact Ht]. simpl. apply list_elem_of_here.
        -- rewrite lookup_insert_ne in Hold by exact Hne. by left.
    + right. split; [|exact Ht]. simpl. by apply list_elem_of_further.
Qed.

End ReportsEffects.

Section ReportsPhase.
Context {W : Type} `{World W}.
Variable unicode_digit : string -> bool.
Import Reports.

Lemma reports_without_files (ws dir : string) (s : st W) :
  if negb (os_path_exists dir (world s)) then
    restore_reports_pbix unicode_digit ws dir s =
    (Ok (Results "failed" 0 0 0 [] 0 ws ∅
           (Some ("Directory not found: " +:+ dir)) None), s)
  else if is_empty (glob_pbix dir (world s)) then
    restore_reports_pbix unicode_digit ws dir s =
    (Ok (Results "completed" 0 0 0 [] 0 ws ∅ None
           (Some "No PBIX files to restore")), s)
  else True.
Proof.
  unfold restore_reports_pbix.
  unfold try_except, bind, api, local, store, load, ret. simpl.
  destruct (os_path_exists dir (world s)); simpl.
  - destruct (glob_pbix dir (world s)) as [|f fs]; simpl; [|exact I].
    by destruct s.
  - by destruct s.
Qed.

(** X9: nothing to import.  When the directory does not exist the phase
    returns the result with status ["failed"] and the error text, and when
    it holds no package file the result with status ["completed"] and the
    message; in both cases all counters are zero, the mapping is empty and
    nothing is sent: the state is as before. *)
Theorem reports_nothing_to_import (ws dir : string) (s : st W) :
  if negb (os_path_exists dir (world s)) then
    restore_reports_pbix unicode_digit ws dir s =
    (Ok (Results "failed" 0 0 0 [] 0 ws ∅
           (Some ("Directory not found: " +:+ dir)) None), s)
  else if is_empty (glob_pbix dir (world s)) then
    restore_reports_pbix unicode_digit ws dir s =
    (Ok (Results "completed" 0 0 0 [] 0 ws ∅ None
           (Some "No PBIX files to restore")), s)
  else True.
Proof.
  unfold restore_reports_pbix.
  unfold try_except, bind, api, local, store, load, ret. simpl.
  destruct (os_path_exists dir (world s)); simpl.
  - destruct (glob_pbix dir (world s)) as [|f fs]; simpl; [|exact I].
    by destruct s.
  - by destruct s.
Qed.

Lemma reports_phase_effects (ws dir : string) (s : st W) :
  let files :=
    if os_path_exists dir (world s) then glob_pbix dir (world s) else [] in
  exists res s' evs,
    restore_reports_pbix unicode_digit ws dir s = (Ok res, s') /\
    calls s' = (calls s ++ evs)%list /\
    Forall (reports_call ws) evs /\
    (length (List.filter is_import evs) <= length files)%nat /\
    (imported res <= length (List.filter is_import evs))%nat /\
    map_Forall (fun k v => k ∈ map path_stem files /\ PyStr.truthy v = true)
      (dataset_id_mapping res) /\
    (duplicate_handled res <= length files)%nat /\
    pbix_files_found res = length files /\
    status res = (if os_path_exists dir (world s) then "completed" else "failed").
Proof.
  intros files. subst files.
  pose proof (reports_without_files ws dir s) as Hedge.
  destruct (os_path_exists dir (world s)) eqn:Hdir; simpl in Hedge.
  2: { rewrite Hedge. exists (Results "failed" 0 0 0 [] 0 ws ∅
         (Some ("Directory not found: " +:+ dir)) None), s, [].
       rewrite app_nil_r. simpl.
       split; [reflexivity|]. split; [reflexivity|].
       split; [constructor|]. split; [simpl; lia|]. split; [simpl; lia|].
       split; [apply map_Forall_empty|]. split; [simpl; lia|].
       split; reflexivity. }
  destruct (glob_pbix dir (world s)) as [|f0 fs] eqn:Hglob; simpl in Hedge.
  { rewrite Hedge. exists (Results "completed" 0 0 0 [] 0 ws ∅ None
      (Some "No PBIX files to restore")), s, [].
    rewrite app_nil_r. simpl.
    split; [reflexivity|]. split; [reflexivity|].
       split; [constructor|]. split; [simpl; lia|]. split; [simpl; lia|].
       split; [apply map_Forall_empty|]. split; [simpl; lia|].
       split; reflexivity. }
  clear Hedge. rewrite <- Hglob.
  assert (Hlen : (length (glob_pbix dir (world s)) =? 0)%nat = false)
    by (rewrite Hglob; reflexivity).
  unfold restore_reports_pbix.
  unfold try_except, bind, api, local, store, load, ret, get_datasets, remote.
  simpl. rewrite Hdir. simpl. rewrite Hlen. simpl.
  destruct (fetch_datasets ws (world s)) as [[ds|e] w1]; simpl.
  all: match goal with
       | |- context [for_each _ _ (?s1, ?l1)] =>
           destruct (import_loop_effects unicode_digit ws
                       (glob_pbix dir (world s)) s1 l1)
             as (s2 & l2 & evs & Hrun & Hc & Ha & Hn & Hi & Hm & Hd & Hp)
       end.
  all: rewrite Hrun; simpl.
  all: exists (set_message
                 ("Imported " +:+ pretty (imported (res_ l2)) +:+ "/" +:+
                  pretty (length (glob_pbix dir (world s))) +:+ " PBIX files")
                 (set_status "completed" (res_ l2))), s2,
         (CallListDatasets ws :: evs).
  all: simpl in *.
  all: split; [reflexivity|].
  all: split; [by rewrite Hc, <- app_assoc|].
  all: split; [by constructor|].
  all: split; [lia|]. all: split; [lia|].
  all: split; [|split; [lia|split; [exact Hp|reflexivity]]].
  all: intros k v Hkv; destruct (Hm k v Hkv) as [Hold|Hnew];
    [by rewrite lookup_empty in Hold|exact Hnew].
Qed.

(** X10: the reports phase always returns a result.  Everything it sends
    is for the target workspace and is a token request, a dataset listing
    or an import: it never updates a schedule.  It sends at most one import
    per package file, and [imported] never exceeds the number of imports
    sent. *)
Theorem reports_phase_calls (ws dir : string) (s : st W) :
  exists res s' evs,
    restore_reports_pbix unicode_digit ws dir s = (Ok res, s') /\
    calls s' = (calls s ++ evs)%list /\
    Forall (reports_call ws) evs /\
    (length (List.filter is_import evs) <= pbix_files_found res)%nat /\
    (imported res <= length (List.filter is_import evs))%nat.
Proof.
  destruct (reports_phase_effects ws dir s)
    as (res & s' & evs & Hrun & Hc & Ha & Hn & Hi & _ & _ & Hp & _).
  exists res, s', evs.
  split; [exact Hrun|]. split; [exact Hc|]. split; [exact Ha|].
  split; [by rewrite Hp|exact Hi].
Qed.

(** X11: the result of the reports phase.  Its status is ["failed"] when
    the directory is missing and ["completed"] otherwise;
    [pbix_files_found] is the number of package files; every entry of
    [dataset_id_mapping] maps the stem of one of the package files to a
    non-empty dataset id; and [duplicate_handled] is at most the number of
    files. *)
Theorem reports_phase_mapping (ws dir : string) (s : st W) :
  let files :=
    if os_path_exists dir (world s) then glob_pbix dir (world s) else [] in
  exists res,
    fst (restore_reports_pbix unicode_digit ws dir s) = Ok res /\
    status res =
      (if os_path_exists dir (world s) then "completed" else "failed") /\
    pbix_files_found res = length files /\
    map_Forall (fun k v => k ∈ map path_stem files /\ PyStr.truthy v = true)
      (dataset_id_mapping res) /\
    (duplicate_handled res <= pbix_files_found res)%nat.
Proof.
  intros files.
  destruct (reports_phase_effects ws dir s)
    as (res & s' & evs & Hrun & _ & _ & _ & _ & Hm & Hd & Hp & Hst).
  exists res. rewrite Hrun.
  split; [reflexivity|]. split; [exact Hst|]. split; [exact Hp|].
  split; [exact Hm|]. by rewrite Hp.
Qed.

End ReportsPhase.

(** ** The documentation-only phases *)

Lemma truthy_list_length {A} (l : option (list A)) :
  truthy_list l = true -> (1 <= len_or_empty l)%nat.
Proof.
  unfold truthy_list, len_or_empty.
  destruct (get_or l []); simpl; [discriminate|lia].
Qed.

Lemma datasets_restore_one (d : Datasets.item) (r : Datasets.results) :
  Datasets.restore_one d r =
  (Ok tt,
   if Datasets.has_id d then
     Datasets.Results (Datasets.status r) (S (Datasets.restored r))
       (Datasets.failed r) (Datasets.details r ++ datasets_records d)
   else r).
Proof.
  unfold Datasets.restore_one, Datasets.has_id, datasets_records, try_except,
    bind, ret, modify_state.
  destruct (truthy_opt (Datasets.id d)); simpl; [|reflexivity].
  destruct (truthy_list (Datasets.parameters d)),
    (truthy_list (Datasets.gateway_connections d)), r;
    unfold Datasets.incr_restored, Datasets.append_detail; simpl;
    rewrite <- ?app_assoc, ?app_nil_r; reflexivity.
Qed.

Lemma datasets_loop (l : list Datasets.item) (r : Datasets.results) :
  for_each l Datasets.restore_one r =
  (Ok tt,
   Datasets.Results (Datasets.status r)
     (Datasets.restored r + length (List.filter Datasets.has_id l))
     (Datasets.failed r)
     (Datasets.details r ++
      flat_map datasets_records (List.filter Datasets.has_id l))).
Proof.
  revert r. induction l as [|d l IH]; intros r.
  - simpl. unfold ret. destruct r. simpl.
    by rewrite Nat.add_0_r, app_nil_r.
  - cbn [for_each]. unfold bind at 1. rewrite datasets_restore_one, IH.
    cbn [List.filter]. destruct (Datasets.has_id d); simpl.
    + rewrite <- app_assoc. do 3 f_equal. lia.
    + reflexivity.
Qed.

(** X12: [restore_datasets] sends nothing and never fails an item: the
    state is unchanged, [failed] is 0 and [restored] is the number of
    datasets that have a non-empty id; a dataset without id is passed over
    without any record.  Every record has status ["documented"] with a
    count of at least one, and a dataset with an id contributes one record
    for its parameters and one for its gateway connections when it has
    any. *)
Theorem restore_datasets_documents {W : Type} (ws : string)
    (datasets : list Datasets.item) (s : st W) :
  exists res,
    Datasets.restore_datasets ws datasets s = (Ok res, s) /\
    Datasets.status res = "completed" /\
    Datasets.failed res = 0%nat /\
    Datasets.restored res = length (List.filter Datasets.has_id datasets) /\
    length (Datasets.details res) =
      sum_nat (map Datasets.documented_kinds
                 (List.filter Datasets.has_id datasets)) /\
    Forall (fun d =>
              match d with
              | Datasets.Documented _ _ n => (1 <= n)%nat
              | Datasets.Failed _ _ => False
              end) (Datasets.details res).
Proof.
  unfold Datasets.restore_datasets, try_except, bind, read_state.
  rewrite datasets_loop. simpl. eexists. split; [reflexivity|]. simpl.
  repeat split.
  - induction (List.filter Datasets.has_id datasets) as [|d l IH];
      [reflexivity|].
    simpl. rewrite length_app, IH. f_equal.
    unfold datasets_records, Datasets.documented_kinds.
    by destruct (truthy_list (Datasets.parameters d)),
      (truthy_list (Datasets.gateway_connections d)).
  - induction (List.filter Datasets.has_id datasets) as [|d l IH];
      [constructor|].
    simpl. apply Forall_app. split; [|exact IH].
    unfold datasets_records.
    destruct (truthy_list (Datasets.parameters d)) eqn:Hp,
      (truthy_list (Datasets.gateway_connections d)) eqn:Hg; simpl;
      repeat constructor; by apply truthy_list_length.
Qed.

Lemma dataflows_restore_one (d : Dataflows.item) (r : Dataflows.results) :
  exists rec,
    Dataflows.restore_one d r =
    (Ok tt,
     Dataflows.Results (Dataflows.status r) (Dataflows.restorable r)
       (S (Dataflows.manual_recreation_required r))
       (Dataflows.details r ++ [rec])) /\
    Dataflows.detail_status rec = "requires_manual_recreation" /\
    Dataflows.detail_name rec = get_or (Dataflows.name d) "unknown".
Proof.
  unfold Dataflows.restore_one, try_except, bind, modify_state. simpl.
  eexists. split; [reflexivity|]. by split.
Qed.

Lemma dataflows_loop (l : list Dataflows.item) (r : Dataflows.results) :
  exists recs,
    for_each l Dataflows.restore_one r =
    (Ok tt,
     Dataflows.Results (Dataflows.status r) (Dataflows.restorable r)
       (Dataflows.manual_recreation_required r + length l)
       (Dataflows.details r ++ recs)) /\
    Forall (fun d => Dataflows.detail_status d = "requires_manual_recreation")
      recs /\
    map Dataflows.detail_name recs =
      map (fun d => get_or (Dataflows.name d) "unknown") l.
Proof.
  revert r. induction l as [|d l IH]; intros r.
  - exists []. simpl. unfold ret. destruct r. simpl.
    rewrite Nat.add_0_r, app_nil_r. by repeat split.
  - destruct (dataflows_restore_one d r) as (rec & Hone & Hst & Hn).
    destruct (IH (Dataflows.Results (Dataflows.status r)
                    (Dataflows.restorable r)
                    (S (Dataflows.manual_recreation_required r))
                    (Dataflows.details r ++ [rec])))
      as (recs & Hloop & Hall & Hnames).
    exists (rec :: recs). cbn [for_each]. unfold bind at 1.
    rewrite Hone, Hloop. simpl. rewrite <- app_assoc. simpl.
    split; [do 3 f_equal; lia|]. split; [by constructor|].
    by rewrite Hn, Hnames.
Qed.

(** X13: [restore_dataflows] sends nothing; it returns status
    ["documented"] with one record per dataflow, in order and under the
    dataflow's name (["unknown"] when it has none), every record having
    status ["requires_manual_recreation"]; [manual_recreation_required] is
    the number of dataflows and [restorable] stays 0. *)
Theorem restore_dataflows_documents {W : Type} (ws : string)
    (dataflows : list Dataflows.item) (s : st W) :
  exists res,
    Dataflows.restore_dataflows ws dataflows s = (Ok res, s) /\
    Dataflows.status res = "documented" /\
    Dataflows.restorable res = 0%nat /\
    Dataflows.manual_recreation_required res = length dataflows /\
    map Dataflows.detail_name (Dataflows.details res) =
      map (fun d => get_or (Dataflows.name d) "unknown") dataflows /\
    Forall (fun d => Dataflows.detail_status d = "requires_manual_recreation")
      (Dataflows.details res).
Proof.
  unfold Dataflows.restore_dataflows, try_except, bind, read_state.
  destruct (dataflows_loop dataflows (Dataflows.Results "documented" 0 0 []))
    as (recs & Hloop & Hall & Hnames).
  rewrite Hloop. simpl. eexists. split; [reflexivity|]. simpl.
  by repeat split.
Qed.

Lemma document_tiles_length (ts : list Dashboards.tile)
    (acc : list Dashboards.tile_detail) :
  length (Dashboards.document_tiles ts acc) = (length acc + length ts)%nat.
Proof.
  revert acc. induction ts as [|t ts IH]; intros acc; simpl; [lia|].
  rewrite IH, length_app. simpl. lia.
Qed.

Lemma dashboards_loop (l : list Dashboards.item) (r : Dashboards.results) :
  exists recs,
    for_each l Dashboards.restore_one r =
    (Ok tt,
     Dashboards.Results (Dashboards.status r) (Dashboards.total_dashboards r)
       (Dashboards.total_tiles r
        + sum_nat (map (fun d => len_or_empty (Dashboards.tiles d)) l))
       (Dashboards.details r ++ recs)) /\
    map Dashboards.detail_tiles_count recs =
      map (fun d => len_or_empty (Dashboards.tiles d)) l /\
    Forall (fun d =>
              Dashboards.detail_status d = "requires_manual_recreation" /\
              length (Dashboards.detail_tiles d) =
                Dashboards.detail_tiles_count d) recs.
Proof.
  revert r. induction l as [|d l IH]; intros r.
  - exists []. simpl. unfold ret. destruct r. simpl.
    rewrite Nat.add_0_r, app_nil_r. by repeat split.
  - set (rec := Dashboards.Manual (get_or (Dashboards.name d) "unknown")
                  (Dashboards.id d) (length (get_or (Dashboards.tiles d) []))
                  (Dashboards.document_tiles (get_or (Dashboards.tiles d) []) [])).
    destruct (IH (Dashboards.append_detail rec
                    (Dashboards.add_tiles
                       (length (get_or (Dashboards.tiles d) [])) r)))
      as (recs & Hloop & Hcounts & Hall).
    exists (rec :: recs). cbn [for_each]. unfold bind at 1.
    unfold Dashboards.restore_one at 1, try_except, bind, modify_state.
    fold rec. rewrite Hloop. simpl. rewrite <- app_assoc. simpl.
    split; [do 2 f_equal; unfold len_or_empty; simpl; lia|].
    split; [by rewrite Hcounts|].
    constructor; [|exact Hall]. split; [reflexivity|].
    subst rec. simpl. by rewrite document_tiles_length.
Qed.

(** X14: [restore_dashboards] sends nothing; it returns status
    ["documented"] with one record per dashboard, in order;
    [total_dashboards] is the number of dashboards and [total_tiles] the
    sum of the tile counts of the records; every record has status
    ["requires_manual_recreation"] and lists as many tiles as its
    [tiles_count] says. *)
Theorem restore_dashboards_documents {W : Type} (ws : string)
    (dashboards : list Dashboards.item) (s : st W) :
  exists res,
    Dashboards.restore_dashboards ws dashboards s = (Ok res, s) /\
    Dashboards.status res = "documented" /\
    Dashboards.total_dashboards res = length dashboards /\
    length (Dashboards.details res) = length dashboards /\
    map Dashboards.detail_tiles_count (Dashboards.details res) =
      map (fun d => len_or_empty (Dashboards.tiles d)) dashboards /\
    Dashboards.total_tiles res =
      sum_nat (map Dashboards.detail_tiles_count (Dashboards.details res)) /\
    Forall (fun d =>
              Dashboards.detail_status d = "requires_manual_recreation" /\
              length (Dashboards.detail_tiles d) =
                Dashboards.detail_tiles_count d) (Dashboards.details res).
Proof.
  unfold Dashboards.restore_dashboards, try_except, bind, read_state.
  destruct (dashboards_loop dashboards
              (Dashboards.Results "documented" (length dashboards) 0 []))
    as (recs & Hloop & Hcounts & Hall).
  rewrite Hloop. simpl. eexists. split; [reflexivity|]. simpl.
  split; [reflexivity|]. split; [reflexivity|].
  split; [by rewrite <- (length_map Dashboards.detail_tiles_count), Hcounts,
            length_map|].
  split; [exact Hcounts|]. split; [by rewrite Hcounts|exact Hall].
Qed.

Lemma apps_loop (l : list Apps.item) (r : Apps.results) :
  exists recs,
    for_each l Apps.restore_one r =
    (Ok tt,
     Apps.Results (Apps.status r) (Apps.total_apps r) (Apps.details r ++ recs)) /\
    Forall2 (fun app d =>
               d = Apps.Manual (get_or (Apps.name app) "unknown") (Apps.id app)
                     (len_or_empty (Apps.reports app))
                     (len_or_empty (Apps.dashboards app))
                     (map Apps.member_name (get_or (Apps.reports app) []))
                     (map Apps.member_name (get_or (Apps.dashboards app) [])))
      l recs.
Proof.
  revert r. induction l as [|a l IH]; intros r.
  - exists []. simpl. unfold ret. destruct r. simpl.
    rewrite app_nil_r. by split.
  - set (rec := Apps.Manual (get_or (Apps.name a) "unknown") (Apps.id a)
                  (len_or_empty (Apps.reports a))
                  (len_or_empty (Apps.dashboards a))
                  (map Apps.member_name (get_or (Apps.reports a) []))
                  (map Apps.member_name (get_or (Apps.dashboards a) []))).
    destruct (IH (Apps.append_detail rec r)) as (recs & Hloop & Hall).
    exists (rec :: recs). cbn [for_each]. unfold bind at 1.
    unfold Apps.restore_one at 1, try_except, bind, modify_state.
    fold (len_or_empty (Apps.reports a)) (len_or_empty (Apps.dashboards a)).
    fold rec. rewrite Hloop. simpl. rewrite <- app_assoc.
    split; [reflexivity|]. by constructor.
Qed.

(** X15: [restore_apps] sends nothing; it returns status ["documented"]
    with [total_apps] the number of apps and one record per app, in order:
    the record has status ["requires_manual_recreation"], the app's name
    (["unknown"] when it has none) and id, the numbers of its reports and
    dashboards, and their names in order. *)
Theorem restore_apps_documents {W : Type} (ws : string)
    (apps : list Apps.item) (s : st W) :
  exists res,
    Apps.restore_apps ws apps s = (Ok res, s) /\
    Apps.status res = "documented" /\
    Apps.total_apps res = length apps /\
    Forall2 (fun app d =>
               d = Apps.Manual (get_or (Apps.name app) "unknown") (Apps.id app)
                     (len_or_empty (Apps.reports app))
                     (len_or_empty (Apps.dashboards app))
                     (map Apps.member_name (get_or (Apps.reports app) []))
                     (map Apps.member_name (get_or (Apps.dashboards app) [])))
      apps (Apps.details res).
Proof.
  unfold Apps.restore_apps, try_except, bind, read_state.
  destruct (apps_loop apps (Apps.Results "documented" (length apps) []))
    as (recs & Hloop & Hall).
  rewrite Hloop. simpl. eexists. by repeat split.
Qed.

(** ** The selective restore *)

Section SelectiveRun.
Context {W : Type} `{World W} `{Selective.BackupFiles W}.
Variable svc : Selective.services W.
Variable f : Selective.flags.
Variables jid ws bid backup_folder backup_file : string.
Import Selective.

Lemma phase_reports_run (s : st W) (l : locals) :
  let path := Complete.os_path_join backup_folder "reports" in
  let present := os_path_exists path (world s) in
  let r := reports_service svc ws path s in
  let ran := restore_reports f && present in
  phase_reports svc f ws backup_folder (s, l) =
  (Ok tt,
   (if ran then snd r else s,
    Locals (settle_reports (restore_reports f) present (fst r) (results l))
      (if ran && returned (fst r)
       then mapping_after_reports (restore_reports f) present (fst r)
       else dataset_id_mapping l))).
Proof.
  unfold phase_reports, phase_failed, settle_reports, settle,
    mapping_after_reports, outcome_component.
  destruct (restore_reports f); simpl; [|by destruct l].
  unfold try_except, bind, api, local, store, ret. simpl.
  destruct (os_path_exists _ (world s)); simpl; [|by destruct l].
  destruct (reports_service svc ws _ s) as [[r|e] s1]; simpl; by destruct l.
Qed.

Lemma phase_datasets_run bd (s : st W) (l : locals) :
  let r := datasets_service svc ws (get_or (datasets bd) []) s in
  phase_datasets svc f ws bd (s, l) =
  (Ok tt,
   (if restore_datasets f then snd r else s,
    on_results (settle (restore_datasets f) "datasets" OfDatasets (fst r)) l)).
Proof.
  unfold phase_datasets, phase_failed, settle, outcome_component.
  destruct (restore_datasets f); simpl; [|by destruct l].
  unfold try_except, bind, api, store. simpl.
  by destruct (datasets_service svc ws _ s) as [[r|e] s1].
Qed.

Lemma phase_refresh_schedules_run bd (s : st W) (l : locals) :
  let r := refresh_schedules_service svc ws
             (get_or (refresh_schedules bd) [])
             (Some (dataset_id_mapping l)) s in
  phase_refresh_schedules svc f ws bd (s, l) =
  (Ok tt,
   (if restore_refresh_schedules f then snd r else s,
    on_results
      (settle (restore_refresh_schedules f) "refresh_schedules" OfSchedules
         (fst r)) l)).
Proof.
  unfold phase_refresh_schedules, phase_failed, settle, outcome_component.
  destruct (restore_refresh_schedules f); simpl; [|by destruct l].
  unfold try_except, bind, api, store, load. simpl.
  by destruct (refresh_schedules_service svc ws _ _ s) as [[r|e] s1].
Qed.

Lemma phase_dashboards_run bd (s : st W) (l : locals) :
  let r := dashboards_service svc ws (get_or (dashboards bd) []) s in
  phase_dashboards svc f ws bd (s, l) =
  (Ok tt,
   (if restore_dashboards f then snd r else s,
    on_results
      (settle (restore_dashboards f) "dashboards" OfDashboards (fst r)) l)).
Proof.
  unfold phase_dashboards, phase_failed, settle, outcome_component.
  destruct (restore_dashboards f); simpl; [|by destruct l].
  unfold try_except, bind, api, store. simpl.
  by destruct (dashboards_service svc ws _ s) as [[r|e] s1].
Qed.

Lemma phase_dataflows_run bd (s : st W) (l : locals) :
  let r := dataflows_service svc ws (get_or (dataflows bd) []) s in
  phase_dataflows svc f ws bd (s, l) =
  (Ok tt,
   (if restore_dataflows f then snd r else s,
    on_results
      (settle (restore_dataflows f) "dataflows" OfDataflows (fst r)) l)).
Proof.
  unfold phase_dataflows, phase_failed, settle, outcome_component.
  destruct (restore_dataflows f); simpl; [|by destruct l].
  unfold try_except, bind, api, store. simpl.
  by destruct (dataflows_service svc ws _ s) as [[r|e] s1].
Qed.

Lemma phase_apps_run bd (s : st W) (l : locals) :
  let r := apps_service svc ws (get_or (apps bd) []) s in
  phase_apps svc f ws bd (s, l) =
  (Ok tt,
   (if restore_apps f then snd r else s,
    on_results (settle (restore_apps f) "apps" OfApps (fst r)) l)).
Proof.
  unfold phase_apps, phase_failed, settle, outcome_component.
  destruct (restore_apps f); simpl; [|by destruct l].
  unfold try_except, bind, api, store. simpl.
  by destruct (apps_service svc ws _ s) as [[r|e] s1].
Qed.

(** The task as a sequence of service calls. *)
Lemma run_unified_restore_eq (s : st W) (jobs : gmap string Selective.job) :
  run_unified_restore svc f jid ws bid backup_folder backup_file (s, jobs) =
  match load_json backup_file (world s) with
  | Ok bd =>
      (Ok tt,
       (state6 svc f ws backup_folder bd s,
        <[jid := Finished (final_report svc f ws backup_folder bd s jid bid)]>
          jobs))
  | Raise e =>
      (Ok tt, (s, <[jid := JobFailed (str_exn e) (clock_now (world s))]> jobs))
  end.
Proof.
  unfold run_unified_restore, unified_body.
  unfold bind at 1. unfold api at 1, local at 1. simpl.
  destruct (load_json backup_file (world s)) as [bd|e]; simpl;
    [|by destruct s].
  unfold bind at 1. unfold lift_res at 1.
  unfold bind at 1. unfold store at 1. simpl.
  unfold bind at 1. rewrite phase_reports_run. cbv zeta.
  unfold bind at 1. rewrite phase_datasets_run. cbv zeta.
  unfold bind at 1. rewrite phase_refresh_schedules_run. cbv zeta.
  unfold bind at 1. rewrite phase_dashboards_run. cbv zeta.
  unfold bind at 1. rewrite phase_dataflows_run. cbv zeta.
  unfold bind at 1. rewrite phase_apps_run. cbv zeta.
  unfold bind, store, load, api, local, on_results. simpl.
  assert (Hm : (if restore_reports f
                   && os_path_exists
                        (Complete.os_path_join backup_folder "reports")
                        (world s)
                   && returned
                        (fst (reports_service svc ws
                                (Complete.os_path_join backup_folder "reports")
                                s))
                then mapping_after_reports (restore_reports f)
                       (os_path_exists
                          (Complete.os_path_join backup_folder "reports")
                          (world s))
                       (fst (reports_service svc ws
                               (Complete.os_path_join backup_folder "reports")
                               s))
                else ∅)
               = passed_mapping svc f ws backup_folder s).
  { unfold passed_mapping, mapping_after_reports, reports_present, run1,
      reports_path.
    destruct (restore_reports f), (os_path_exists _ (world s)); simpl;
      try reflexivity.
    by destruct (fst (reports_service svc ws _ s)). }
  rewrite Hm. reflexivity.
Qed.

End SelectiveRun.

Section SelectiveReport.
Context {W : Type} `{World W} `{Selective.BackupFiles W}.
Variable svc : Selective.services W.
Variable f : Selective.flags.
Variables jid ws bid backup_folder backup_file : string.
Import Selective.

Lemma settle_components {R : Type} sel key (wrap : R -> component) r rr :
  components (settle sel key wrap r rr) =
  if sel then <[key := outcome_component wrap r]> (components rr)
  else components rr.
Proof. unfold settle. by destruct sel, (returned r). Qed.

Lemma settle_counts {R : Type} sel key (wrap : R -> component) r rr :
  successful (settle sel key wrap r rr) =
    (successful rr + bool_count (sel && returned r))%nat /\
  failed (settle sel key wrap r rr) =
    (failed rr + bool_count (sel && negb (returned r)))%nat /\
  total_components (settle sel key wrap r rr) = total_components rr.
Proof. unfold settle. destruct sel, (returned r); simpl; repeat split; lia. Qed.

Lemma settle_reports_components sel present r rr :
  components (settle_reports sel present r rr) =
  if sel then
    <["reports" := if present then outcome_component OfReports r
                   else ReportsSkipped]> (components rr)
  else components rr.
Proof.
  unfold settle_reports. destruct sel, present; try reflexivity.
  by rewrite settle_components.
Qed.

Lemma settle_reports_counts sel present r rr :
  successful (settle_reports sel present r rr) =
    (successful rr + bool_count (sel && present && returned r))%nat /\
  failed (settle_reports sel present r rr) =
    (failed rr + bool_count (sel && present && negb (returned r)))%nat /\
  total_components (settle_reports sel present r rr) = total_components rr.
Proof.
  unfold settle_reports, settle.
  destruct sel, present, (returned r); simpl; repeat split; lia.
Qed.

Lemma selected_components_length :
  length (selected_components f) =
  (bool_count (restore_reports f) + bool_count (restore_datasets f)
   + bool_count (restore_refresh_schedules f)
   + bool_count (restore_dashboards f) + bool_count (restore_dataflows f)
   + bool_count (restore_apps f))%nat.
Proof.
  unfold selected_components.
  by destruct (restore_reports f), (restore_datasets f),
    (restore_refresh_schedules f), (restore_dashboards f),
    (restore_dataflows f), (restore_apps f).
Qed.

Lemma bool_count_split (a b : bool) :
  (bool_count (a && b) + bool_count (a && negb b))%nat = bool_count a.
Proof. by destruct a, b. Qed.

(** X16: what the task stores.  When the backup file cannot be loaded, the
    job is stored as failed with the error text and no phase runs: the
    state is unchanged.  Otherwise the stored report has status
    ["completed"], and it holds a component for exactly the selected
    phases: the result of the phase's service, or the failure dictionary
    with the error text when the service raised, or for the reports phase
    the ["skipped"] dictionary when the backup has no reports directory. *)
Theorem selective_restore_report (s : st W)
    (jobs : gmap string Selective.job) :
  match load_json backup_file (world s) with
  | Raise e =>
      run_unified_restore svc f jid ws bid backup_folder backup_file (s, jobs)
      = (Ok tt, (s, <[jid := JobFailed (str_exn e) (clock_now (world s))]> jobs))
  | Ok bd =>
      exists rep,
        run_unified_restore svc f jid ws bid backup_folder backup_file (s, jobs)
        = (Ok tt,
           (state6 svc f ws backup_folder bd s, <[jid := Finished rep]> jobs)) /\
        status rep = Some "completed" /\
        components rep !! "reports" =
          (if restore_reports f then
             Some (if reports_present backup_folder s
                   then outcome_component OfReports
                          (fst (run1 svc ws backup_folder s))
                   else ReportsSkipped)
           else None) /\
        components rep !! "datasets" =
          (if restore_datasets f then
             Some (outcome_component OfDatasets
                     (fst (run2 svc f ws backup_folder bd s)))
           else None) /\
        components rep !! "refresh_schedules" =
          (if restore_refresh_schedules f then
             Some (outcome_component OfSchedules
                     (fst (run3 svc f ws backup_folder bd s)))
           else None) /\
        components rep !! "dashboards" =
          (if restore_dashboards f then
             Some (outcome_component OfDashboards
                     (fst (run4 svc f ws backup_folder bd s)))
           else None) /\
        components rep !! "dataflows" =
          (if restore_dataflows f then
             Some (outcome_component OfDataflows
                     (fst (run5 svc f ws backup_folder bd s)))
           else None) /\
        components rep !! "apps" =
          (if restore_apps f then
             Some (outcome_component OfApps
                     (fst (run6 svc f ws backup_folder bd s)))
           else None)
  end.
Proof.
  rewrite run_unified_restore_eq.
  destruct (load_json backup_file (world s)) as [bd|e]; [|reflexivity].
  eexists. split; [reflexivity|]. split; [reflexivity|].
  unfold final_report. cbn [components set_timestamp set_status].
  rewrite !settle_components, settle_reports_components.
  destruct (restore_reports f), (restore_datasets f),
    (restore_refresh_schedules f), (restore_dashboards f),
    (restore_dataflows f), (restore_apps f);
    repeat split; by simplify_map_eq.
Qed.

(** X17: the mapping reaches the schedules phase.  When reports and refresh
    schedules are both selected, the backup has a reports directory and
    the reports service returned, the refresh-schedules service is called
    with the [dataset_id_mapping] of that result, on the state the
    datasets phase left. *)
Theorem selective_restore_passes_mapping (s : st W)
    (jobs : gmap string Selective.job) (bd : backup) (r : Reports.results) :
  load_json backup_file (world s) = Ok bd ->
  restore_reports f = true ->
  restore_refresh_schedules f = true ->
  reports_present backup_folder s = true ->
  fst (run1 svc ws backup_folder s) = Ok r ->
  exists rep,
    snd (snd (run_unified_restore svc f jid ws bid backup_folder backup_file
                (s, jobs))) !! jid = Some (Finished rep) /\
    components rep !! "reports" = Some (OfReports r) /\
    components rep !! "refresh_schedules" =
      Some (outcome_component OfSchedules
              (fst (refresh_schedules_service svc ws
                      (get_or (refresh_schedules bd) [])
                      (Some (Reports.dataset_id_mapping r))
                      (state2 svc f ws backup_folder bd s)))).
Proof.
  intros Hload Hrep Hsch Hpresent Hrun.
  rewrite run_unified_restore_eq, Hload. simpl.
  eexists. rewrite lookup_insert_eq. split; [reflexivity|].
  unfold final_report. cbn [components set_timestamp set_status].
  rewrite !settle_components, settle_reports_components.
  assert (Hr3 : run3 svc f ws backup_folder bd s =
                refresh_schedules_service svc ws
                  (get_or (refresh_schedules bd) [])
                  (Some (Reports.dataset_id_mapping r))
                  (state2 svc f ws backup_folder bd s)).
  { unfold run3, passed_mapping, mapping_after_reports.
    by rewrite Hrep, Hpresent, Hrun. }
  rewrite Hr3, Hrep, Hsch, Hpresent, Hrun.
  destruct (restore_datasets f), (restore_dashboards f),
    (restore_dataflows f), (restore_apps f);
    split; by simplify_map_eq.
Qed.

(** X18: the summary of the stored report.  [total_components] is the
    number of selected phases; every selected phase is counted once, as
    successful when its service returned and as failed when it raised,
    except the reports phase when the backup has no reports directory,
    which is counted in neither. *)
Theorem selective_restore_summary (s : st W)
    (jobs : gmap string Selective.job) (bd : backup) :
  load_json backup_file (world s) = Ok bd ->
  exists rep,
    snd (snd (run_unified_restore svc f jid ws bid backup_folder backup_file
                (s, jobs))) !! jid = Some (Finished rep) /\
    total_components rep = length (selected_components f) /\
    (successful rep + failed rep
     + bool_count (restore_reports f && negb (reports_present backup_folder s))
     = total_components rep)%nat /\
    failed rep =
      (bool_count (restore_reports f && reports_present backup_folder s
                   && negb (returned (fst (run1 svc ws backup_folder s))))
       + bool_count (restore_datasets f
                     && negb (returned (fst (run2 svc f ws backup_folder bd s))))
       + bool_count (restore_refresh_schedules f
                     && negb (returned (fst (run3 svc f ws backup_folder bd s))))
       + bool_count (restore_dashboards f
                     && negb (returned (fst (run4 svc f ws backup_folder bd s))))
       + bool_count (restore_dataflows f
                     && negb (returned (fst (run5 svc f ws backup_folder bd s))))
       + bool_count (restore_apps f
                     && negb (returned (fst (run6 svc f ws backup_folder bd s)))))%nat.
Proof.
  intros Hload. rewrite run_unified_restore_eq, Hload. simpl.
  eexists. rewrite lookup_insert_eq. split; [reflexivity|].
  unfold final_report.
  cbn [total_components successful failed set_timestamp set_status].
  repeat match goal with
         | |- context [settle ?sel ?k ?w ?r ?rr] =>
             let Hs := fresh "Hs" in
             let Hf := fresh "Hf" in
             let Ht := fresh "Ht" in
             destruct (settle_counts sel k w r rr) as (Hs & Hf & Ht);
             rewrite ?Hs, ?Hf, ?Ht; clear Hs Hf Ht
         end.
  destruct (settle_reports_counts (restore_reports f)
              (reports_present backup_folder s)
              (fst (run1 svc ws backup_folder s))
              (RestorationResults jid ws bid ∅
                 (length (selected_components f)) 0 0 None None))
    as (Hs & Hf & Ht).
  rewrite Hs, Hf, Ht. cbn [total_components successful failed].
  split; [reflexivity|]. split; [|lia].
  rewrite selected_components_length.
  pose proof (bool_count_split (restore_datasets f)
                (returned (fst (run2 svc f ws backup_folder bd s)))).
  pose proof (bool_count_split (restore_refresh_schedules f)
                (returned (fst (run3 svc f ws backup_folder bd s)))).
  pose proof (bool_count_split (restore_dashboards f)
                (returned (fst (run4 svc f ws backup_folder bd s)))).
  pose proof (bool_count_split (restore_dataflows f)
                (returned (fst (run5 svc f ws backup_folder bd s)))).
  pose proof (bool_count_split (restore_apps f)
                (returned (fst (run6 svc f ws backup_folder bd s)))).
  assert (bool_count (restore_reports f && reports_present backup_folder s
                      && returned (fst (run1 svc ws backup_folder s)))
          + bool_count (restore_reports f && reports_present backup_folder s
                        && negb (returned (fst (run1 svc ws backup_folder s))))
          + bool_count (restore_reports f
                        && negb (reports_present backup_folder s))
          = bool_count (restore_reports f))%nat
    by (by destruct (restore_reports f), (reports_present backup_folder s),
          (returned (fst (run1 svc ws backup_folder s)))).
  lia.
Qed.

End SelectiveReport.

Lemma selective_restore_passes_mapping_witness :
  Selective.load_json "backups/b1/backup_b1.json" (world (St Ex2.w_sales []))
    = Ok Ex2.backup1 /\
  Selective.restore_reports Ex2.reports_and_schedules = true /\
  reports_present "backups/b1" (St Ex2.w_sales []) = true /\
  exists rep r,
    snd (snd (Selective.run_unified_restore
                (Selective.wired Sim.no_unicode_digit)
                Ex2.reports_and_schedules "job-1" "ws" "b1" "backups/b1"
                "backups/b1/backup_b1.json" (St Ex2.w_sales [], ∅)))
      !! "job-1" = Some (Selective.Finished rep) /\
    Selective.components rep !! "reports" = Some (Selective.OfReports r) /\
    Reports.dataset_id_mapping r = {["Sales" := "id-Sales"]}.
Proof.
  assert (H1 : Selective.load_json "backups/b1/backup_b1.json"
                 (world (St Ex2.w_sales [])) = Ok Ex2.backup1) by reflexivity.
  assert (H2 : Selective.restore_reports Ex2.reports_and_schedules = true)
    by reflexivity.
  assert (H3 : Selective.restore_refresh_schedules Ex2.reports_and_schedules
               = true) by reflexivity.
  assert (H4 : reports_present "backups/b1" (St Ex2.w_sales []) = true)
    by reflexivity.
  assert (H5 : exists r,
             fst (run1 (Selective.wired Sim.no_unicode_digit) "ws"
                    "backups/b1" (St Ex2.w_sales [])) = Ok r /\
             Reports.dataset_id_mapping r = {["Sales" := "id-Sales"]}).
  { eexists. split; vm_compute; reflexivity. }
  destruct H5 as (r & H5 & Hmap).
  split; [exact H1|]. split; [exact H2|]. split; [exact H4|].
  destruct (selective_restore_passes_mapping
              (Selective.wired Sim.no_unicode_digit)
              Ex2.reports_and_schedules "job-1" "ws" "b1" "backups/b1"
              "backups/b1/backup_b1.json" (St Ex2.w_sales []) ∅
              Ex2.backup1 r H1 H2 H3 H4 H5) as (rep & Hjob & Hc & _).
  exists rep, r. by repeat split.
Defined.

Lemma selective_restore_summary_witness :
  Selective.load_json "backups/b1/backup_b1.json" (world (St Ex2.w_sales []))
    = Ok Ex2.backup1 /\
  exists rep,
    snd (snd (Selective.run_unified_restore
                (Selective.wired Sim.no_unicode_digit)
                Ex2.reports_and_schedules "job-1" "ws" "b1" "backups/b1"
                "backups/b1/backup_b1.json" (St Ex2.w_sales [], ∅)))
      !! "job-1" = Some (Selective.Finished rep) /\
    Selective.total_components rep = 2%nat.
Proof.
  assert (H1 : Selective.load_json "backups/b1/backup_b1.json"
                 (world (St Ex2.w_sales [])) = Ok Ex2.backup1) by reflexivity.
  split; [exact H1|].
  destruct (selective_restore_summary
              (Selective.wired Sim.no_unicode_digit)
              Ex2.reports_and_schedules "job-1" "ws" "b1" "backups/b1"
              "backups/b1/backup_b1.json" (St Ex2.w_sales []) ∅
              Ex2.backup1 H1) as (rep & Hjob & Ht & _).
  exists rep. split; [exact Hjob|]. by rewrite Ht.
Defined.

(** The run of the two witnesses above: the package is imported, its
    dataset id is mapped, and the schedule backed up for ["Sales"] is
    restored for the new dataset. *)
Example selective_restore_run :
  exists rep,
    snd (snd (Selective.run_unified_restore
                (Selective.wired Sim.no_unicode_digit)
                Ex2.reports_and_schedules "job-1" "ws" "b1" "backups/b1"
                "backups/b1/backup_b1.json" (St Ex2.w_sales [], ∅)))
      !! "job-1" = Some (Selective.Finished rep) /\
    Selective.successful rep = 2%nat /\
    Selective.failed rep = 0%nat /\
    Selective.components rep !! "datasets" = None /\
    Selective.components rep !! "refresh_schedules" =
      Some (Selective.OfSchedules
              (Schedules.Results "completed" 1 0 0
                 [Schedules.Configured (Some "Sales") "id-Sales" "weekly"
                    ["01:00"] ["Monday"]])).
Proof.
  eexists. split; [vm_compute; reflexivity|].
  vm_compute. repeat split; reflexivity.
Qed.


(** ** The orchestrator's report *)

Section OrchestratorReport.
Context {W : Type} `{World W} {Item Doc : Type}.
Variable svc : Complete.services W Item Doc.
Import Complete.

(** X19: what the refresh-schedules phase is given.  When the reports
    service returns a dictionary, the report holds it and the
    refresh-schedules service is called with its [dataset_id_mapping]; when
    it returns an [int] or raises, the reports component is the failure
    dictionary and the refresh-schedules service is called with the empty
    mapping.  In both cases it is called on the state the datasets service
    left. *)
Theorem orchestrator_threads_mapping ws (bd : backup_data Item) (s : st W) :
  let r1 := reports_service svc ws (get_or (reports bd) []) s in
  let r2 := datasets_service svc ws (get_or (datasets bd) []) (snd r1) in
  let schedules_with m :=
    schedules_component
      (fst (refresh_schedules_service svc ws
              (get_or (refresh_schedules bd) []) (Some m) (snd r2))) in
  exists its,
    fst (restore_all_components svc ws bd s) = Ok its /\
    match fst r1 with
    | Ok (Dict r) =>
        components its !! "reports" = Some (OfReports (Dict r)) /\
        components its !! "refresh_schedules" =
          Some (schedules_with (Reports.dataset_id_mapping r))
    | Ok (Count _) =>
        components its !! "reports" =
          Some (PhaseFailed "'int' object has no attribute 'get'") /\
        components its !! "refresh_schedules" = Some (schedules_with ∅)
    | Raise e =>
        components its !! "reports" = Some (PhaseFailed (str_exn e)) /\
        components its !! "refresh_schedules" = Some (schedules_with ∅)
    end.
Proof.
  intros r1 r2 schedules_with.
  destruct (restore_all_components_eq svc ws bd s)
    as (its & Hrun & _ & _ & Hc).
  exists its. rewrite Hrun. split; [reflexivity|].
  rewrite Hc. fold r1. fold r2. subst schedules_with.
  destruct (fst r1) as [[n|r]|e]; split; by simplify_map_eq.
Qed.

(** X20: the head of the report.  The orchestrator never raises; the report
    carries the clock reading taken before the first phase, and its summary
    counters are the initial zeros whatever the phases did. *)
Theorem orchestrator_summary_untouched ws (bd : backup_data Item) (s : st W) :
  exists its,
    fst (restore_all_components svc ws bd s) = Ok its /\
    timestamp its = clock_now (world s) /\
    summary its = (0, 0, 0)%nat.
Proof.
  unfold restore_all_components, phase_reports, phase_datasets,
    phase_refresh_schedules, phase_dashboards, phase_dataflows, phase_apps,
    try_except, bind, api, store, load, lift_res, ret, raise.
  simpl.
  repeat match goal with
         | |- context [match ?x with _ => _ end] =>
             lazymatch x with
             | context [match _ with _ => _ end] => fail
             | _ => destruct x eqn:?; simpl
             end
         end;
    eexists; repeat split; reflexivity.
Qed.

End OrchestratorReport.

(** ** The token cache *)

Section TokenCache.
Context {A : Type} `{Auth.Authority A}.
Import Auth.

Lemma get_access_token_cached (a : service A) (t : string) :
  token_cache a = Some t -> PyStr.truthy t = true ->
  get_access_token a = (Ok t, a).
Proof.
  intros Hc Ht.
  unfold get_access_token, try_except, bind, read_state.
  by rewrite Hc, Ht.
Qed.

Lemma get_access_tokens_cached (n : nat) (a : service A) (t : string) :
  token_cache a = Some t -> PyStr.truthy t = true ->
  get_access_tokens n a = (repeat (Ok t) n, a).
Proof.
  intros Hc Ht. induction n as [|n IH]; [reflexivity|].
  cbn [get_access_tokens]. rewrite (get_access_token_cached a t Hc Ht), IH.
  reflexivity.
Qed.

(** X21: the token is requested at most once per call and kept for good.
    A call that answers a token leaves it in the cache and has made at
    most one POST; when the token is a non-empty string, any number of
    later calls answer it again without a POST, as the state stays as it
    is.  A call that raises has made exactly one POST and leaves the
    cache as it was. *)
Theorem access_token_is_cached (a : service A) :
  match get_access_token a with
  | (Ok t, a') =>
      token_cache a' = Some t /\
      (requests a' <= S (requests a))%nat /\
      (if PyStr.truthy t
       then forall n, get_access_tokens n a' = (repeat (Ok t) n, a')
       else requests a' = S (requests a))
  | (Raise e, a') =>
      token_cache a' = token_cache a /\
      requests a' = S (requests a)
  end.
Proof.
  destruct (token_cache a) as [t|] eqn:Hc;
    [destruct (PyStr.truthy t) eqn:Ht|].
  - rewrite (get_access_token_cached a t Hc Ht), Ht.
    split; [exact Hc|]. split; [lia|].
    intros n. by apply get_access_tokens_cached.
  - unfold get_access_token, request_token, session_post, try_except,
      bind, read_state, lift_res, modify_state, ret, raise.
    rewrite Hc, Ht.
    destruct (post_token (authority a)) as [[r|e] x]; simpl;
      [|by rewrite ?Hc].
    destruct (status r =? 200)%Z; simpl; [|by rewrite ?Hc].
    destruct (access_token_field r) as [t'|e]; simpl; [|by rewrite ?Hc].
    split; [reflexivity|]. split; [lia|].
    destruct (PyStr.truthy t') eqn:Ht'; [|reflexivity].
    intros n. by apply get_access_tokens_cached.
  - unfold get_access_token, request_token, session_post, try_except,
      bind, read_state, lift_res, modify_state, ret, raise.
    rewrite Hc.
    destruct (post_token (authority a)) as [[r|e] x]; simpl;
      [|by rewrite ?Hc].
    destruct (status r =? 200)%Z; simpl; [|by rewrite ?Hc].
    destruct (access_token_field r) as [t'|e]; simpl; [|by rewrite ?Hc].
    split; [reflexivity|]. split; [lia|].
    destruct (PyStr.truthy t') eqn:Ht'; [|reflexivity].
    intros n. by apply get_access_tokens_cached.
Qed.

End TokenCache.
